(** * proxmoxMCP: response normalisation and report templates

    A shallow embedding of [src/proxmox_mcp/tools/zfs.py] and
    [src/proxmox_mcp/formatting/templates.py].

    Python values are the deserialised JSON values the Proxmox client hands
    back ([None], [bool], [int], [float], [str], [list], [dict] with string
    keys).  Exceptions are threaded through an error monad, the logger through
    an explicit list of records.  A [str] is a Rocq [string] holding its UTF-8
    bytes; a [float] is a binary64 number of [SpecFloat]. *)

From Stdlib Require Import ZArith List String Ascii Bool Lia SpecFloat DecimalString.
From Stdlib Require Import Sorted Permutation.
Import ListNotations.
Local Open Scope string_scope.
Local Open Scope list_scope.
Local Open Scope Z_scope.
Set Warnings "-register-all".

(** ** Python values, exceptions and the error monad *)

Module Py.

Inductive value : Type :=
| VNone
| VBool (b : bool)
| VInt (z : Z)
| VFloat (f : spec_float)
| VStr (s : string)
| VList (l : list value)
| VDict (d : list (string * value)).

(** A [dict] with string keys, in insertion order. *)
Definition dict := list (string * value).

(** The exception classes the modelled code can meet.  [OtherError] stands for
    any other subclass of [Exception], such as the ones the client raises on a
    transport or authentication failure. *)
Inductive exn : Type :=
| KeyError (key : string)
| AttributeError (ty attr : string)
| TypeError (msg : string)
| ValueError (msg : string)
| OverflowError (msg : string)
| ZeroDivisionError (msg : string)
| OtherError (cls msg : string).

Inductive result (A : Type) : Type :=
| Ok (a : A)
| Raise (e : exn).
Arguments Ok {A} a.
Arguments Raise {A} e.

Definition bind {A B} (m : result A) (k : A -> result B) : result B :=
  match m with
  | Ok a => k a
  | Raise e => Raise e
  end.

Fixpoint mapM {A B} (f : A -> result B) (l : list A) : result (list B) :=
  match l with
  | [] => Ok []
  | a :: r =>
      bind (f a) (fun b => bind (mapM f r) (fun bs => Ok (b :: bs)))
  end.

(** [type(v).__name__] *)
Definition type_name (v : value) : string :=
  match v with
  | VNone => "NoneType"
  | VBool _ => "bool"
  | VInt _ => "int"
  | VFloat _ => "float"
  | VStr _ => "str"
  | VList _ => "list"
  | VDict _ => "dict"
  end.

(** *** Dictionaries *)

Fixpoint lookup (k : string) (d : dict) : option value :=
  match d with
  | [] => None
  | (k', v) :: r => if String.eqb k k' then Some v else lookup k r
  end.

(** [d.get(k, dflt)] on a dict *)
Definition dget (d : dict) (k : string) (dflt : value) : value :=
  match lookup k d with
  | Some v => v
  | None => dflt
  end.

(** [d[k]] on a dict *)
Definition ditem (d : dict) (k : string) : result value :=
  match lookup k d with
  | Some v => Ok v
  | None => Raise (KeyError k)
  end.

(** [v.get(k, dflt)] on a value of unknown shape: only a dict has [get]. *)
Definition get (v : value) (k : string) (dflt : value) : result value :=
  match v with
  | VDict d => Ok (dget d k dflt)
  | _ => Raise (AttributeError (type_name v) "get")
  end.

(** [v[k]] with a string key on a value of unknown shape *)
Definition item (v : value) (k : string) : result value :=
  match v with
  | VDict d => ditem d k
  | VStr _ => Raise (TypeError "string indices must be integers")
  | VList _ => Raise (TypeError "list indices must be integers or slices, not str")
  | _ => Raise (TypeError (String.concat "" ["'"; type_name v; "' object is not subscriptable"]))
  end.

(** *** Numbers

    binary64: 53 bits of precision, exponents below 1024. *)

Definition prec : Z := 53.
Definition emax : Z := 1024.

Definition float_of_Z_raw (z : Z) : spec_float := binary_normalize prec emax z 0 false.

(** [float(z)]: the nearest binary64 (ties to even); too large an int raises. *)
Definition float_of_Z (z : Z) : result spec_float :=
  match float_of_Z_raw z with
  | S754_infinity _ => Raise (OverflowError "int too large to convert to float")
  | f => Ok f
  end.

Definition Z_of_bool (b : bool) : Z := if b then 1 else 0.

(** The numeric tower met here: [bool] is an [int]. *)
Inductive num : Type :=
| NInt (z : Z)
| NFloat (f : spec_float).

Definition as_num (v : value) : option num :=
  match v with
  | VBool b => Some (NInt (Z_of_bool b))
  | VInt z => Some (NInt z)
  | VFloat f => Some (NFloat f)
  | _ => None
  end.

(** Exact values, for comparisons: Python compares an int with a float by
    value, without rounding the int. [XFin m e] is [m * 2^e]. *)
Inductive xnum : Type :=
| XNaN
| XInf (neg : bool)
| XFin (m e : Z).

Definition exact (n : num) : xnum :=
  match n with
  | NInt z => XFin z 0
  | NFloat (S754_zero _) => XFin 0 0
  | NFloat (S754_infinity s) => XInf s
  | NFloat S754_nan => XNaN
  | NFloat (S754_finite s m e) => XFin (cond_Zopp s (Zpos m)) e
  end.

(** [None] when unordered (a NaN is involved). *)
Definition xcompare (a b : xnum) : option comparison :=
  match a, b with
  | XNaN, _ | _, XNaN => None
  | XInf s1, XInf s2 =>
      Some (match s1, s2 with
            | true, false => Lt
            | false, true => Gt
            | _, _ => Eq
            end)
  | XInf s, XFin _ _ => Some (if s then Lt else Gt)
  | XFin _ _, XInf s => Some (if s then Gt else Lt)
  | XFin m1 e1, XFin m2 e2 =>
      let e := Z.min e1 e2 in
      Some (Z.compare (m1 * 2 ^ (e1 - e)) (m2 * 2 ^ (e2 - e)))
  end.

(** [a > b], [a == b] on numbers *)
Definition num_gt (a b : num) : bool :=
  match xcompare (exact a) (exact b) with
  | Some Gt => true
  | _ => false
  end.

Definition num_lt (a b : num) : bool :=
  match xcompare (exact a) (exact b) with
  | Some Lt => true
  | _ => false
  end.

Definition num_eq (a b : num) : bool :=
  match xcompare (exact a) (exact b) with
  | Some Eq => true
  | _ => false
  end.

(** [v > 0] with the int literal [0] *)
Definition gt0 (v : value) : result bool :=
  match as_num v with
  | Some n => Ok (num_gt n (NInt 0))
  | None =>
      Raise (TypeError (String.concat ""
        ["'>' not supported between instances of '"; type_name v; "' and 'int'"]))
  end.

(** [v == s] with a str literal [s]: only a str equals a str. *)
Definition eq_str (v : value) (s : string) : bool :=
  match v with
  | VStr s' => String.eqb s' s
  | _ => false
  end.

(** [v != x] with a float literal [x]: numbers compare by value, any other
    value differs from a float. *)
Definition ne_float (v : value) (x : spec_float) : bool :=
  match as_num v with
  | Some n => negb (num_eq n (NFloat x))
  | None => true
  end.

(** Truth value of [v] in a condition *)
Definition truthy (v : value) : bool :=
  match v with
  | VNone => false
  | VBool b => b
  | VInt z => negb (z =? 0)
  | VFloat (S754_zero _) => false
  | VFloat _ => true
  | VStr s => negb (String.eqb s "")
  | VList l => match l with [] => false | _ => true end
  | VDict d => match d with [] => false | _ => true end
  end.

Definition to_float (n : num) : result spec_float :=
  match n with
  | NInt z => float_of_Z z
  | NFloat f => Ok f
  end.

Definition is_zero (f : spec_float) : bool :=
  match f with
  | S754_zero _ => true
  | _ => false
  end.

(** [a / b] on ints: the exact quotient rounded once to the nearest binary64. *)
Definition int_truediv (a b : Z) : result spec_float :=
  if b =? 0 then Raise (ZeroDivisionError "division by zero")
  else if a =? 0 then Ok (S754_zero (b <? 0))
  else
    match SFdiv prec emax (S754_finite (a <? 0) (Z.to_pos (Z.abs a)) 0)
                          (S754_finite (b <? 0) (Z.to_pos (Z.abs b)) 0) with
    | S754_infinity _ =>
        Raise (OverflowError "integer division result too large for a float")
    | f => Ok f
    end.

(** [a / b] on floats *)
Definition float_truediv (a b : spec_float) : result spec_float :=
  if is_zero b then Raise (ZeroDivisionError "float division by zero")
  else Ok (SFdiv prec emax a b).

Definition num_truediv (a b : num) : result spec_float :=
  match a, b with
  | NInt x, NInt y => int_truediv x y
  | _, _ =>
      bind (to_float a) (fun x =>
      bind (to_float b) (fun y => float_truediv x y))
  end.

(** [a / b] on values of unknown shape; the quotient is always a float. *)
Definition truediv (a b : value) : result spec_float :=
  match as_num a, as_num b with
  | Some x, Some y => num_truediv x y
  | _, _ =>
      Raise (TypeError (String.concat ""
        ["unsupported operand type(s) for /: '"; type_name a; "' and '"; type_name b; "'"]))
  end.

(** [f * 100] with the int literal [100] *)
Definition mul100 (f : spec_float) : spec_float :=
  SFmul prec emax f (float_of_Z_raw 100).

(** *** Strings *)

Definition nl : string := String "010"%char "".

(** An f-string: its pieces, concatenated. *)
Definition fstr (parts : list string) : string := String.concat "" parts.

(** ["\n".join(lines)] *)
Definition join_lines (lines : list string) : string := String.concat nl lines.

(** [sub in s] on strs: [sub] occurs somewhere in [s]. *)
Fixpoint contains (sub s : string) : bool :=
  String.prefix sub s ||
  match s with
  | EmptyString => false
  | String _ r => contains sub r
  end.

(** [s.split(c)] for a one-character separator: never empty, the pieces
    between the separators in order. *)
Fixpoint split_on (c : ascii) (s : string) : list string :=
  match s with
  | EmptyString => [EmptyString]
  | String a r =>
      if Ascii.eqb a c then EmptyString :: split_on c r
      else match split_on c r with
           | [] => [String a EmptyString]
           | h :: t => String a h :: t
           end
  end.

(** A UTF-8 continuation byte, [10xxxxxx]. *)
Definition is_continuation (a : ascii) : bool :=
  let n := N_of_ascii a in ((128 <=? n) && (n <? 192))%N.

(** The characters of a str, as one-character strs: a lead byte with the
    continuation bytes that follow it. *)
Fixpoint chars (s : string) : list string :=
  match s with
  | EmptyString => []
  | String a r =>
      match chars r with
      | h :: t =>
          match r with
          | String b _ => if is_continuation b then String a h :: t
                          else String a EmptyString :: h :: t
          | EmptyString => String a EmptyString :: h :: t
          end
      | [] => [String a EmptyString]
      end
  end.

(** [str(z)] on an int *)
Definition str_of_Z (z : Z) : string := NilZero.string_of_int (Z.to_int z).

(** Iterating a value in a [for] loop. *)
Definition iter (v : value) : result (list value) :=
  match v with
  | VList l => Ok l
  | VDict d => Ok (map (fun kv => VStr (fst kv)) d)
  | VStr s => Ok (map VStr (chars s))
  | _ => Raise (TypeError (String.concat "" ["'"; type_name v; "' object is not iterable"]))
  end.

(** Python builtins whose tables lie outside this development: the shortest
    round-trip [repr] of a float, the quoting [repr] of a str, and the Unicode
    case and white-space tables behind [str.upper] and [str.strip]. *)
Class Builtins : Type := {
  float_repr : spec_float -> string;
  str_repr : string -> string;
  str_upper : string -> string;
  str_strip : string -> string
}.

Section WithBuiltins.
Context {B : Builtins}.

(** [repr(v)] *)
Fixpoint repr (v : value) : string :=
  match v with
  | VNone => "None"
  | VBool true => "True"
  | VBool false => "False"
  | VInt z => str_of_Z z
  | VFloat f => float_repr f
  | VStr s => str_repr s
  | VList l => fstr ["["; String.concat ", " (map repr l); "]"]
  | VDict d =>
      fstr ["{";
            String.concat ", "
              (map (fun kv : string * value =>
                      let (k, x) := kv in fstr [str_repr k; ": "; repr x]) d);
            "}"]
  end.

(** [str(v)], also what an f-string field without a format spec shows. *)
Definition str (v : value) : string :=
  match v with
  | VStr s => s
  | _ => repr v
  end.

(** [v.upper()] *)
Definition upper (v : value) : result string :=
  match v with
  | VStr s => Ok (str_upper s)
  | _ => Raise (AttributeError (type_name v) "upper")
  end.

End WithBuiltins.

(** *** Fixed-point formatting, [format(v, ".<nd>f")] *)

(** The integer nearest to [p / q] for [q > 0], ties to the even one. *)
Definition round_half_even (p q : Z) : Z :=
  let d := p / q in
  match Z.compare (2 * (p mod q)) q with
  | Lt => d
  | Gt => d + 1
  | Eq => if Z.even d then d else d + 1
  end.

(** The integer nearest to [m * 2^e * 10^nd]. *)
Definition scaled (nd : nat) (m : positive) (e : Z) : Z :=
  if 0 <=? e then Zpos m * 2 ^ e * 10 ^ Z.of_nat nd
  else round_half_even (Zpos m * 10 ^ Z.of_nat nd) (2 ^ (- e)).

Fixpoint zeros (n : nat) : string :=
  match n with
  | O => EmptyString
  | S k => String "0"%char (zeros k)
  end.

(** The decimal numeral of [n / 10^nd] for [n >= 0], with [nd] digits after
    the point. *)
Definition fixed (nd : nat) (n : Z) : string :=
  let frac := str_of_Z (n mod 10 ^ Z.of_nat nd) in
  match nd with
  | O => str_of_Z n
  | _ => fstr [str_of_Z (n / 10 ^ Z.of_nat nd); ".";
               zeros (nd - String.length frac)%nat; frac]
  end.

Definition sign (s : bool) : string := if s then "-" else "".

Definition format_float (nd : nat) (f : spec_float) : string :=
  match f with
  | S754_nan => "nan"
  | S754_infinity s => fstr [sign s; "inf"]
  | S754_zero s => fstr [sign s; fixed nd 0]
  | S754_finite s m e => fstr [sign s; fixed nd (scaled nd m e)]
  end.

Definition format_f (nd : nat) (v : value) : result string :=
  match v with
  | VStr _ => Raise (ValueError "Unknown format code 'f' for object of type 'str'")
  | _ =>
      match as_num v with
      | Some n => bind (to_float n) (fun f => Ok (format_float nd f))
      | None =>
          Raise (TypeError (String.concat ""
            ["unsupported format string passed to "; type_name v; ".__format__"]))
      end
  end.

End Py.


(** ** Report templates ([formatting/templates.py]) *)

Module ProxmoxTemplates.
Import Py.

Notation "x <- m ;; k" := (bind m (fun x => k))
  (at level 61, m at next level, right associativity).

(** What the templates import from modules that are not among the sources:
    the icon table [ProxmoxTheme.RESOURCES] and the two formatters of
    [ProxmoxFormatters], which may raise on a value they cannot format. *)
Class Formatting : Type := {
  RESOURCES : string -> string;
  format_bytes : value -> result string;
  format_uptime : value -> result string
}.

Section Templates.
Context {B : Builtins} {F : Formatting}.

(** [(part / whole * 100) if whole > 0 else 0], the expression every template
    writes out for its percentage. *)
Definition percent_of (part whole : value) : result value :=
  positive_whole <- gt0 whole ;;
  if positive_whole : bool then
    q <- truediv part whole ;;
    Ok (VFloat (mul100 q))
  else Ok (VInt 0).

(** ["🟢" if x == "ONLINE" else "🟡" if x == "DEGRADED" else "🔴"] *)
Definition state_icon (x : value) : string :=
  if eq_str x "ONLINE" then "🟢"
  else if eq_str x "DEGRADED" then "🟡"
  else "🔴".

(** The memory lines shared by the node, VM and container blocks. *)
Definition memory_line (used total percent : string) : string :=
  fstr ["  - Memory: "; used; " / "; total; " ("; percent; "%)"].

Definition disk_line (used total percent : string) : string :=
  fstr ["  - Disk: "; used; " / "; total; " ("; percent; "%)"].

(** The optional disk line of [node_list] and [node_status]. *)
Definition disk_usage (d : dict) : result (list string) :=
  let disk := dget d "disk" (VDict []) in
  if truthy disk then
    disk_used <- get disk "used" (VInt 0) ;;
    disk_total <- get disk "total" (VInt 0) ;;
    disk_percent <- percent_of disk_used disk_total ;;
    u <- format_bytes disk_used ;;
    t <- format_bytes disk_total ;;
    p <- format_f 1 disk_percent ;;
    Ok [disk_line u t p]
  else Ok [].

Definition node_block (node : dict) : result (list string) :=
  let status := dget node "status" (VStr "unknown") in
  let memory := dget node "memory" (VDict []) in
  memory_used <- get memory "used" (VInt 0) ;;
  memory_total <- get memory "total" (VInt 0) ;;
  memory_percent <- percent_of memory_used memory_total ;;
  name <- ditem node "node" ;;
  status_upper <- upper status ;;
  uptime <- format_uptime (dget node "uptime" (VInt 0)) ;;
  u <- format_bytes memory_used ;;
  t <- format_bytes memory_total ;;
  p <- format_f 1 memory_percent ;;
  disk <- disk_usage node ;;
  Ok ([ "";
        fstr [RESOURCES "node"; " "; str name];
        fstr ["  - Status: "; status_upper];
        fstr ["  - Uptime: "; uptime];
        fstr ["  - CPU Cores: "; str (dget node "maxcpu" (VStr "N/A"))];
        memory_line u t p ] ++ disk).

Definition node_list (nodes : list dict) : result string :=
  blocks <- mapM node_block nodes ;;
  Ok (join_lines (fstr [RESOURCES "node"; " Proxmox Nodes"] :: List.concat blocks)).


(** The block of one VM or container; [kind] is the icon key. *)
Definition instance_block (kind : string) (vm : dict) : result (list string) :=
  let memory := dget vm "memory" (VDict []) in
  memory_used <- get memory "used" (VInt 0) ;;
  memory_total <- get memory "total" (VInt 0) ;;
  memory_percent <- percent_of memory_used memory_total ;;
  name <- ditem vm "name" ;;
  vmid <- ditem vm "vmid" ;;
  status <- ditem vm "status" ;;
  status_upper <- upper status ;;
  node <- ditem vm "node" ;;
  u <- format_bytes memory_used ;;
  t <- format_bytes memory_total ;;
  p <- format_f 1 memory_percent ;;
  Ok [ "";
       fstr [RESOURCES kind; " "; str name; " (ID: "; str vmid; ")"];
       fstr ["  - Status: "; status_upper];
       fstr ["  - Node: "; str node];
       fstr ["  - CPU Cores: "; str (dget vm "cpus" (VStr "N/A"))];
       memory_line u t p ].

Definition vm_list (vms : list dict) : result string :=
  blocks <- mapM (instance_block "vm") vms ;;
  Ok (join_lines (fstr [RESOURCES "vm"; " Virtual Machines"] :: List.concat blocks)).

Definition storage_block (store : dict) : result (list string) :=
  let used := dget store "used" (VInt 0) in
  let total := dget store "total" (VInt 0) in
  percent <- percent_of used total ;;
  name <- ditem store "storage" ;;
  status_upper <- upper (dget store "status" (VStr "unknown")) ;;
  type <- ditem store "type" ;;
  u <- format_bytes used ;;
  t <- format_bytes total ;;
  p <- format_f 1 percent ;;
  Ok [ "";
       fstr [RESOURCES "storage"; " "; str name];
       fstr ["  - Status: "; status_upper];
       fstr ["  - Type: "; str type];
       fstr ["  - Usage: "; u; " / "; t; " ("; p; "%)"] ].

Definition storage_list (storage : list dict) : result string :=
  blocks <- mapM storage_block storage ;;
  Ok (join_lines (fstr [RESOURCES "storage"; " Storage Pools"] :: List.concat blocks)).

Definition container_list (containers : list dict) : result string :=
  match containers with
  | [] => Ok (fstr [RESOURCES "container"; " No containers found"])
  | _ =>
      blocks <- mapM (instance_block "container") containers ;;
      Ok (join_lines (fstr [RESOURCES "container"; " Containers"] :: List.concat blocks))
  end.

(** The float literal [1.0] *)
Definition one : spec_float := float_of_Z_raw 1.

(** The dedup line of a pool block: [if dedup and dedup != 1.0]. *)
Definition dedup_lines (dedup : value) : result (list string) :=
  if truthy dedup && ne_float dedup one then
    ratio <- format_f 2 dedup ;;
    Ok [fstr ["  - Dedup Ratio: "; ratio; "x"]]
  else Ok [].

Definition zfs_pool_block (pool : dict) : result (list string) :=
  let health := dget pool "health" (VStr "UNKNOWN") in
  let health_icon := state_icon health in
  let size := dget pool "size" (VInt 0) in
  let alloc := dget pool "alloc" (VInt 0) in
  let free := dget pool "free" (VInt 0) in
  let frag := dget pool "frag" (VInt 0) in
  let dedup := dget pool "dedup" (VFloat one) in
  percent <- percent_of alloc size ;;
  name <- ditem pool "name" ;;
  size_s <- format_bytes size ;;
  alloc_s <- format_bytes alloc ;;
  p <- format_f 1 percent ;;
  free_s <- format_bytes free ;;
  dedup_l <- dedup_lines dedup ;;
  Ok ([ "";
        fstr [RESOURCES "zfs"; " "; str name; " (";
              str (dget pool "node" (VStr "unknown")); ")"];
        fstr ["  - Health: "; health_icon; " "; str health];
        fstr ["  - Size: "; size_s];
        fstr ["  - Used: "; alloc_s; " ("; p; "%)"];
        fstr ["  - Free: "; free_s];
        fstr ["  - Fragmentation: "; str frag; "%"] ] ++ dedup_l).

Definition zfs_pool_list (pools : list dict) : result string :=
  match pools with
  | [] => Ok (fstr [RESOURCES "zfs"; " No ZFS pools found"])
  | _ =>
      blocks <- mapM zfs_pool_block pools ;;
      Ok (join_lines (fstr [RESOURCES "zfs"; " ZFS Storage Pools"] :: List.concat blocks))
  end.

(** One line of the disk layout, for a vdev or one of its members. *)
Definition child_line (indent : string) (child : value) : result string :=
  child_name <- get child "name" (VStr "unknown") ;;
  child_state <- get child "state" (VStr "UNKNOWN") ;;
  Ok (fstr [indent; "- "; str child_name; ": "; state_icon child_state; " ";
            str child_state]).

Definition child_block (child : value) : result (list string) :=
  line <- child_line "    " child ;;
  nested <- get child "children" (VList []) ;;
  subchildren <- iter nested ;;
  sub_lines <- mapM (child_line "      ") subchildren ;;
  Ok (line :: sub_lines).

Definition header_lines (pool : dict) : list string :=
  let health := dget pool "health" (VStr "UNKNOWN") in
  [ fstr [RESOURCES "zfs"; " ZFS Pool: "; str (dget pool "name" (VStr "unknown"))];
    fstr ["  - Node: "; str (dget pool "node" (VStr "unknown"))];
    fstr ["  - Health: "; state_icon health; " "; str health];
    fstr ["  - State: "; str (dget pool "state" (VStr "UNKNOWN"))] ].

Definition scan_lines (pool : dict) : result (list string) :=
  let scan := dget pool "scan" (VDict []) in
  if truthy scan then
    function <- get scan "function" (VStr "none") ;;
    state <- get scan "state" (VStr "unknown") ;;
    Ok [fstr ["  - Last Scan: "; str function; " - "; str state]]
  else Ok [].

Definition errors_line (pool : dict) : string :=
  fstr ["  - Errors: "; str (dget pool "errors" (VStr "No known data errors"))].

Definition layout_lines (pool : dict) : result (list string) :=
  let children := dget pool "children" (VList []) in
  if truthy children then
    cs <- iter children ;;
    blocks <- mapM child_block cs ;;
    Ok ("" :: "  Disk Layout:" :: List.concat blocks)
  else Ok [].

(** [raw_status.split('\n')] *)
Definition split_lines (raw_status : value) : result (list string) :=
  match raw_status with
  | VStr s => Ok (split_on "010"%char s)
  | _ => Raise (AttributeError (type_name raw_status) "split")
  end.

(** [if line.strip()] *)
Definition not_blank (line : string) : bool := negb (String.eqb (str_strip line) "").

Definition raw_lines (pool : dict) : result (list string) :=
  let raw_status := dget pool "raw_status" VNone in
  if truthy raw_status then
    lines <- split_lines raw_status ;;
    Ok ("" :: "  Raw Pool Status:"
           :: map (fun line => fstr ["    "; line]) (filter not_blank lines))
  else Ok [].

(** The lines of the detail report, before they are joined. *)
Definition zfs_pool_detail_lines (pool : dict) : result (list string) :=
  scan <- scan_lines pool ;;
  layout <- layout_lines pool ;;
  raw <- raw_lines pool ;;
  Ok (header_lines pool ++ scan ++ [errors_line pool] ++ layout ++ raw).

Definition zfs_pool_detail (pool : dict) : result string :=
  lines <- zfs_pool_detail_lines pool ;;
  Ok (join_lines lines).

Definition dataset_block (ds : dict) : result (list string) :=
  let used := dget ds "used" (VInt 0) in
  let avail := dget ds "avail" (VInt 0) in
  used_s <- format_bytes used ;;
  avail_s <- format_bytes avail ;;
  Ok [ "";
       fstr ["  "; RESOURCES "storage"; " "; str (dget ds "name" (VStr "unknown"))];
       fstr ["     - Type: "; str (dget ds "type" (VStr "filesystem"))];
       fstr ["     - Used: "; used_s];
       fstr ["     - Available: "; avail_s];
       fstr ["     - Mountpoint: "; str (dget ds "mountpoint" (VStr "N/A"))] ].

Definition zfs_datasets (datasets : list dict) : result string :=
  match datasets with
  | [] => Ok (fstr [RESOURCES "zfs"; " No ZFS datasets found"])
  | _ =>
      blocks <- mapM dataset_block datasets ;;
      Ok (join_lines (fstr [RESOURCES "zfs"; " ZFS Datasets"] :: List.concat blocks))
  end.

(** ["🟢" if health == "PASSED" or health == "OK" else "🟡" if health == "UNKNOWN" else "🔴"] *)
Definition disk_health_icon (health : value) : string :=
  if eq_str health "PASSED" || eq_str health "OK" then "🟢"
  else if eq_str health "UNKNOWN" then "🟡"
  else "🔴".

(** ["⚡" if disk_type == "ssd" else "💿"] *)
Definition type_icon (disk_type : value) : string :=
  if eq_str disk_type "ssd" then "⚡" else "💿".

(** [if wearout != "N/A" and disk_type == "ssd"] *)
Definition wear_lines (disk : dict) : list string :=
  let disk_type := dget disk "type" (VStr "unknown") in
  let wearout := dget disk "wearout" (VStr "N/A") in
  if negb (eq_str wearout "N/A") && eq_str disk_type "ssd" then
    [fstr ["     - Wear Level: "; str wearout; "%"]]
  else [].

Definition disk_block (disk : dict) : result (list string) :=
  let health := dget disk "health" (VStr "UNKNOWN") in
  let disk_type := dget disk "type" (VStr "unknown") in
  let size := dget disk "size" (VInt 0) in
  let used := dget disk "used" (VStr "unused") in
  size_s <- format_bytes size ;;
  Ok ([ "";
        fstr ["  "; type_icon disk_type; " "; str (dget disk "devpath" (VStr "unknown"))];
        fstr ["     - Size: "; size_s];
        fstr ["     - Model: "; str (dget disk "model" (VStr "N/A"))];
        fstr ["     - Serial: "; str (dget disk "serial" (VStr "N/A"))];
        fstr ["     - Health: "; disk_health_icon health; " "; str health];
        fstr ["     - Usage: "; str used] ] ++ wear_lines disk).

Definition disk_list (disks : list dict) : result string :=
  match disks with
  | [] => Ok (fstr [RESOURCES "disk"; " No disks found"])
  | _ =>
      blocks <- mapM disk_block disks ;;
      Ok (join_lines (fstr [RESOURCES "disk"; " Disks"] :: List.concat blocks))
  end.

(** [volumes[:10]]: a list or a str can be sliced. *)
Definition slice10 (volumes : value) : result (list value) :=
  match volumes with
  | VList l => Ok (firstn 10 l)
  | VStr s => Ok (map VStr (firstn 10 (chars s)))
  | VDict _ => Raise (TypeError "unhashable type: 'slice'")
  | _ => Raise (TypeError (String.concat ""
                  ["'"; type_name volumes; "' object is not subscriptable"]))
  end.

(** [len(volumes)], where the slice above went through *)
Definition len (volumes : value) : Z :=
  match volumes with
  | VList l => Z.of_nat (List.length l)
  | VStr s => Z.of_nat (List.length (chars s))
  | _ => 0
  end.

(** [volid.split("/")[-1] if "/" in volid else volid.split(":")[-1]] *)
Definition volume_name (volid : value) : result string :=
  match volid with
  | VStr s =>
      Ok (if contains "/" s then last (split_on "/"%char s) ""
          else last (split_on ":"%char s) "")
  | VList _ | VDict _ => Raise (AttributeError (type_name volid) "split")
  | _ => Raise (TypeError (String.concat ""
                  ["argument of type '"; type_name volid; "' is not iterable"]))
  end.

Definition volume_line (vol : value) : result string :=
  size <- get vol "size" (VInt 0) ;;
  vmid <- get vol "vmid" VNone ;;
  content <- get vol "content" (VStr "unknown") ;;
  volid <- get vol "volid" (VStr "unknown") ;;
  vol_name <- volume_name volid ;;
  let vmid_str := if truthy vmid then fstr [" (VM "; str vmid; ")"] else "" in
  size_s <- format_bytes size ;;
  Ok (fstr ["    - "; vol_name; vmid_str; ": "; size_s; " ["; str content; "]"]).

(** [if len(volumes) > 10] *)
Definition elision_lines (volumes : value) : list string :=
  if 10 <? len volumes then
    [fstr ["    ... and "; str_of_Z (len volumes - 10); " more volumes"]]
  else [].

Definition volumes_lines (store : dict) : result (list string) :=
  let volumes := dget store "volumes" (VList []) in
  if truthy volumes then
    top <- slice10 volumes ;;
    lines <- mapM volume_line top ;;
    Ok ("" :: "  Top Space Consumers:" :: lines ++ elision_lines volumes)
  else Ok [].

Definition usage_block (store : dict) : result (list string) :=
  let total := dget store "total" (VInt 0) in
  let used := dget store "used" (VInt 0) in
  let avail := dget store "available" (VInt 0) in
  percent <- percent_of used total ;;
  name <- ditem store "storage" ;;
  total_s <- format_bytes total ;;
  used_s <- format_bytes used ;;
  p <- format_f 1 percent ;;
  avail_s <- format_bytes avail ;;
  vols <- volumes_lines store ;;
  Ok ([ "";
        fstr [RESOURCES "storage"; " "; str name; " (";
              str (dget store "type" (VStr "unknown")); ")"];
        fstr ["  Total: "; total_s];
        fstr ["  Used: "; used_s; " ("; p; "%)"];
        fstr ["  Available: "; avail_s];
        fstr ["  Volumes: "; str (dget store "volume_count" (VInt 0))] ] ++ vols).

Definition storage_usage (storages : list dict) : result string :=
  match storages with
  | [] => Ok (fstr [RESOURCES "storage"; " No storage data found"])
  | _ =>
      blocks <- mapM usage_block storages ;;
      Ok (join_lines (fstr [RESOURCES "storage"; " Storage Usage Breakdown"]
                        :: List.concat blocks))
  end.

End Templates.
(** [ProxmoxTheme.SECTIONS], the second icon table of the theme. *)
Class Sections : Type := {
  SECTIONS : string -> string
}.

Section ClusterTemplate.
Context {B : Builtins} {S : Sections}.

(** [len(v)]: a list, a str and a dict have a length. *)
Definition len_of (v : value) : result Z :=
  match v with
  | VList l => Ok (Z.of_nat (List.length l))
  | VStr s => Ok (Z.of_nat (List.length (chars s)))
  | VDict d => Ok (Z.of_nat (List.length d))
  | _ => Raise (TypeError (String.concat ""
                  ["object of type '"; type_name v; "' has no len()"]))
  end.

(** The resource count of the cluster report, [if resources:]. *)
Definition resources_lines (status : dict) : result (list string) :=
  let resources := dget status "resources" (VList []) in
  if truthy resources then
    bind (len_of resources) (fun n => Ok [fstr ["  - Resources: "; str_of_Z n]])
  else Ok [].

(** The lines of the cluster report, before they are joined. *)
Definition cluster_status_lines (status : dict) : result (list string) :=
  bind (resources_lines status) (fun resources =>
  Ok ([ fstr [SECTIONS "configuration"; " Proxmox Cluster"];
        "";
        fstr ["  - Name: "; str (dget status "name" (VStr "N/A"))];
        fstr ["  - Quorum: "; if truthy (dget status "quorum" VNone) then "OK" else "NOT OK"];
        fstr ["  - Nodes: "; str (dget status "nodes" (VInt 0))] ] ++ resources)).

Definition cluster_status (status : dict) : result string :=
  bind (cluster_status_lines status) (fun lines => Ok (join_lines lines)).

End ClusterTemplate.
End ProxmoxTemplates.

(** ** The ZFS and storage tools ([tools/zfs.py]) *)

Module ZFSTools.
Import Py.

Inductive level : Type := DEBUG | WARNING | ERROR.

(** An argument of a logging call: a value or a caught exception. *)
Inductive log_arg : Type :=
| AVal (v : value)
| AExn (e : exn).

(** One call of [self.logger]: its level, its message and the arguments the
    message's [%s] and [%r] refer to. *)
Record log_record : Type := {
  log_level : level;
  log_msg : string;
  log_args : list log_arg
}.

(** What a tool method can change while it runs: the log, and the list it
    accumulates its records in ([pools], [usage_data]). *)
Record state : Type := {
  logged : list log_record;
  collected : list value
}.

Definition initial : state := {| logged := []; collected := [] |}.

(** State and exceptions: a raise keeps the state reached so far. *)
Definition M (A : Type) : Type := state -> state * result A.

Definition ret {A} (a : A) : M A := fun s => (s, Ok a).

Definition mbind {A C} (m : M A) (k : A -> M C) : M C :=
  fun s =>
    match m s with
    | (s', Ok a) => k a s'
    | (s', Raise e) => (s', Raise e)
    end.

Notation "x <~ m ;; k" := (mbind m (fun x => k))
  (at level 61, m at next level, right associativity).

(** An expression that can raise but touches neither list. *)
Definition lift {A} (r : result A) : M A := fun s => (s, r).

(** [try: body  except Exception as e: handler] *)
Definition try_except {A} (body : M A) (handler : exn -> M A) : M A :=
  fun s =>
    match body s with
    | (s', Ok a) => (s', Ok a)
    | (s', Raise e) => handler e s'
    end.

(** [for x in l: body] *)
Fixpoint for_each {X} (l : list X) (body : X -> M unit) : M unit :=
  match l with
  | [] => ret tt
  | x :: r => _ <~ body x ;; for_each r body
  end.

Definition log (lv : level) (msg : string) (args : list log_arg) : M unit :=
  fun s =>
    ({| logged := logged s ++ [{| log_level := lv; log_msg := msg; log_args := args |}];
        collected := collected s |}, Ok tt).

(** [pools.append(v)], [usage_data.append(v)] *)
Definition append (v : value) : M unit :=
  fun s => ({| logged := logged s; collected := collected s ++ [v] |}, Ok tt).

Definition get_collected : M (list value) := fun s => (s, Ok (collected s)).

(** [s < t] on strs: by code point, which is the order of the UTF-8 bytes. *)
Definition str_ltb (s t : string) : bool :=
  match String.compare s t with
  | Lt => true
  | _ => false
  end.

(** [a < b] as [list.sort] asks it of two keys: numbers by value, strs by
    code point; a key of another type is not ordered against anything.
    (Keys that are lists are outside this model, and so is the wording of the
    [TypeError].) *)
Definition less (a b : value) : result bool :=
  match as_num a, as_num b with
  | Some x, Some y => Ok (num_lt x y)
  | _, _ =>
      match a, b with
      | VStr s, VStr t => Ok (str_ltb s t)
      | _, _ => Raise (TypeError "'<' not supported between instances")
      end
  end.

(** Insertion into a list already in descending key order, behind the
    entries whose key is not below the new one. *)
Fixpoint insert_desc {X} (k : value) (x : X) (l : list (value * X))
  : result (list (value * X)) :=
  match l with
  | [] => Ok [(k, x)]
  | (k', y) :: r =>
      bind (less k k') (fun below =>
        if below : bool then
          bind (insert_desc k x r) (fun r' => Ok ((k', y) :: r'))
        else Ok ((k, x) :: (k', y) :: r))
  end.

Fixpoint sort_pairs {X} (l : list (value * X)) : result (list (value * X)) :=
  match l with
  | [] => Ok []
  | (k, x) :: r => bind (sort_pairs r) (insert_desc k x)
  end.

(** [l.sort(key=key, reverse=True)]: the keys are taken first, the sort is
    stable, so entries with equal keys keep their order. *)
Definition sort_desc {X} (key : X -> result value) (l : list X) : result (list X) :=
  bind (mapM (fun x => bind (key x) (fun k => Ok (k, x))) l) (fun keyed =>
  bind (sort_pairs keyed) (fun sorted => Ok (map snd sorted))).

(** The base class [ProxmoxTool] and the client it holds, neither among the
    sources.  An accessor of the client returns a deserialised value or
    raises; it is read as a function of the path it is asked for.
    [_format_response] wraps the records with their resource kind;
    [_handle_error] reports the failure of an operation: the records it logs
    and how the method ends. *)
Class ProxmoxTool : Type := {
  Content : Type;
  nodes_get : result value;
  disks_zfs_get : value -> result value;
  disks_zfs_pool_get : value -> value -> result value;
  storage_get : value -> result value;
  storage_content_get : value -> value -> result value;
  storage_status_get : value -> value -> result value;
  _format_response : value -> string -> result (list Content);
  _handle_error : string -> exn -> list log_record * result (list Content)
}.

Section Tools.
Context {B : Builtins} {T : ProxmoxTool}.

Definition handle_error (operation : string) (e : exn) : M (list Content) :=
  fun s =>
    let (records, r) := _handle_error operation e in
    ({| logged := logged s ++ records; collected := collected s |}, r).

(** [str(e)] of a caught exception *)
Definition exn_str (e : exn) : string :=
  match e with
  | KeyError k => str_repr k
  | AttributeError ty attr =>
      fstr ["'"; ty; "' object has no attribute '"; attr; "'"]
  | TypeError msg | ValueError msg | OverflowError msg | ZeroDivisionError msg
  | OtherError _ msg => msg
  end.

(** *** [list_zfs_pools] *)

(** The record built for one pool of one node. *)
Definition pool_data (node_name pool : value) : result value :=
  bind (get pool "name" (VStr "unknown")) (fun name =>
  bind (get pool "health" (VStr "UNKNOWN")) (fun health =>
  bind (get pool "size" (VInt 0)) (fun size =>
  bind (get pool "alloc" (VInt 0)) (fun alloc =>
  bind (get pool "free" (VInt 0)) (fun free =>
  bind (get pool "frag" (VInt 0)) (fun frag =>
  bind (get pool "dedup" (VFloat ProxmoxTemplates.one)) (fun dedup =>
  Ok (VDict [ ("name", name); ("node", node_name); ("health", health);
              ("size", size); ("alloc", alloc); ("free", free);
              ("frag", frag); ("dedup", dedup) ])))))))).

(** The body of the loop over the nodes. *)
Definition query_node (node_info : value) : M unit :=
  node_name <~ lift (item node_info "node") ;;
  try_except
    (zfs_pools <~ lift (disks_zfs_get node_name) ;;
     pools <~ lift (iter zfs_pools) ;;
     for_each pools (fun pool =>
       record <~ lift (pool_data node_name pool) ;;
       append record))
    (fun node_error =>
       log WARNING "Could not query ZFS pools on node %s: %s"
           [AVal node_name; AExn node_error]).

(** [if node:] on an [Optional[str]] *)
Definition given (node : option string) : option string :=
  match node with
  | Some n => if String.eqb n "" then None else Some n
  | None => None
  end.

Definition list_zfs_pools (node : option string) : M (list Content) :=
  try_except
    (nodes_to_query <~ lift (match given node with
                             | Some n => Ok (VList [VDict [("node", VStr n)]])
                             | None => nodes_get
                             end) ;;
     node_infos <~ lift (iter nodes_to_query) ;;
     _ <~ for_each node_infos query_node ;;
     pools <~ get_collected ;;
     lift (_format_response (VList pools) "zfs_pools"))
    (handle_error "list ZFS pools").

(** *** [get_zfs_pool_status] *)

(** The ["ONLINE"], ["DEGRADED"], ["FAULTED"] scan of a raw status text. *)
Definition parse_health (pool_detail : string) : string :=
  if contains "ONLINE" pool_detail then "ONLINE"
  else if contains "DEGRADED" pool_detail then "DEGRADED"
  else if contains "FAULTED" pool_detail then "FAULTED"
  else "UNKNOWN".

(** The four-way branch on the shape of the response. *)
Definition resolve (node pool_name : string) (pool_detail : value) : M dict :=
  match pool_detail with
  | VNone =>
      _ <~ log WARNING "ZFS pool detail returned None for %s/%s"
             [AVal (VStr node); AVal (VStr pool_name)] ;;
      ret [ ("name", VStr pool_name); ("node", VStr node);
            ("health", VStr "UNKNOWN"); ("state", VStr "API returned no data");
            ("scan", VDict []); ("action", VNone); ("status", VNone);
            ("errors", VStr "No data returned from API"); ("children", VList []) ]
  | VStr text =>
      _ <~ log DEBUG "ZFS pool detail is string, parsing health..." [] ;;
      let health := parse_health text in
      ret [ ("name", VStr pool_name); ("node", VStr node);
            ("health", VStr health); ("state", VStr "See raw output");
            ("scan", VDict []); ("action", VNone); ("status", VNone);
            ("errors", VStr "Check raw output"); ("children", VList []);
            ("raw_status", pool_detail) ]
  | VDict d =>
      _ <~ log DEBUG "ZFS pool detail is dict, extracting fields..." [] ;;
      ret [ ("name", VStr pool_name); ("node", VStr node);
            ("health", dget d "health" (VStr "UNKNOWN"));
            ("state", dget d "state" (VStr "UNKNOWN"));
            ("scan", dget d "scan" (VDict []));
            ("action", dget d "action" VNone);
            ("status", dget d "status" VNone);
            ("errors", dget d "errors" (VStr "No known data errors"));
            ("children", dget d "children" (VList [])) ]
  | _ =>
      _ <~ log ERROR "Unexpected ZFS pool detail type for %s/%s: %s - %r"
             [AVal (VStr node); AVal (VStr pool_name);
              AVal (VStr (type_name pool_detail)); AVal pool_detail] ;;
      ret [ ("name", VStr pool_name); ("node", VStr node);
            ("health", VStr "UNKNOWN");
            ("state", VStr (fstr ["Unexpected type: "; type_name pool_detail]));
            ("scan", VDict []); ("action", VNone); ("status", VNone);
            ("errors", VStr (fstr ["API returned unexpected type: ";
                                   type_name pool_detail]));
            ("children", VList []);
            ("raw_status", VStr (str pool_detail)) ]
  end.

Definition get_zfs_pool_status (node pool_name : string) : M (list Content) :=
  try_except
    (pool_detail <~ lift (disks_zfs_pool_get (VStr node) (VStr pool_name)) ;;
     _ <~ log DEBUG "ZFS pool detail response - type: %s, value: %r"
            [AVal (VStr (type_name pool_detail)); AVal pool_detail] ;;
     result <~ resolve node pool_name pool_detail ;;
     _ <~ log DEBUG "ZFS pool result: %r" [AVal (VDict result)] ;;
     lift (_format_response (VDict result) "zfs_pool_detail"))
    (handle_error (fstr ["get ZFS pool status for "; pool_name])).

(** *** [get_storage_usage] *)

(** The record built for one entry of a content listing. *)
Definition volume_data (entry : value) : result dict :=
  bind (get entry "volid" (VStr "unknown")) (fun volid =>
  bind (get entry "format" (VStr "unknown")) (fun format =>
  bind (get entry "size" (VInt 0)) (fun size =>
  bind (get entry "vmid" VNone) (fun vmid =>
  bind (get entry "content" (VStr "unknown")) (fun content =>
  bind (get entry "ctime" VNone) (fun ctime =>
  Ok [ ("volid", volid); ("format", format); ("size", size);
       ("vmid", vmid); ("content", content); ("ctime", ctime) ])))))).

(** The inner [try]: the totals of the storage, or zeros when the status
    query or one of its reads raises. *)
Definition totals (node store_name : value) : M (value * value * value) :=
  try_except
    (status <~ lift (storage_status_get node store_name) ;;
     total <~ lift (get status "total" (VInt 0)) ;;
     used <~ lift (get status "used" (VInt 0)) ;;
     avail <~ lift (get status "avail" (VInt 0)) ;;
     ret (total, used, avail))
    (fun _ => ret (VInt 0, VInt 0, VInt 0)).

(** [volumes.sort(key=lambda x: x["size"], reverse=True)] *)
Definition sort_volumes (volumes : list dict) : result (list dict) :=
  sort_desc (fun x => ditem x "size") volumes.

(** [if storage and store["storage"] != storage: continue] *)
Definition filtered_out (storage : option string) (store : value) : result bool :=
  match given storage with
  | Some wanted => bind (item store "storage") (fun name => Ok (negb (eq_str name wanted)))
  | None => Ok false
  end.

(** The body of the loop over the storages of the node. *)
Definition usage_of_store (node : string) (storage : option string) (store : value)
  : M unit :=
  skip <~ lift (filtered_out storage store) ;;
  if skip : bool then ret tt
  else
    store_name <~ lift (item store "storage") ;;
    try_except
      (content <~ lift (storage_content_get (VStr node) store_name) ;;
       tua <~ totals (VStr node) store_name ;;
       let '(total, used, avail) := tua in
       entries <~ lift (iter content) ;;
       volumes <~ lift (mapM volume_data entries) ;;
       volumes <~ lift (sort_volumes volumes) ;;
       type <~ lift (get store "type" (VStr "unknown")) ;;
       append (VDict [ ("storage", store_name); ("type", type);
                       ("total", total); ("used", used); ("available", avail);
                       ("volumes", VList (map VDict volumes));
                       ("volume_count", VInt (Z.of_nat (List.length volumes))) ]))
      (fun e =>
         log WARNING (fstr ["Could not get content for "; str store_name; ": ";
                            exn_str e]) []).

Definition get_storage_usage (node : string) (storage : option string)
  : M (list Content) :=
  try_except
    (storages <~ lift (storage_get (VStr node)) ;;
     stores <~ lift (iter storages) ;;
     _ <~ for_each stores (usage_of_store node storage) ;;
     usage_data <~ get_collected ;;
     lift (_format_response (VList usage_data) "storage_usage"))
    (handle_error "get storage usage").

End Tools.
(** The accessor [nodes(node).disks.list.get] of the client, with the value
    of its [include-partitions] argument. *)
Class DiskQueries : Type := {
  disks_list_get : value -> Z -> result value
}.

Section MoreTools.
Context {B : Builtins} {T : ProxmoxTool} {D : DiskQueries}.

(** *** [list_zfs_datasets] *)

(** [if pool_name and pool.get("name") != pool_name: continue] *)
Definition other_pool (pool_name : option string) (pool : value) : result bool :=
  match given pool_name with
  | Some wanted => bind (get pool "name" VNone) (fun name => Ok (negb (eq_str name wanted)))
  | None => Ok false
  end.

(** The record built for one pool, which stands for its root dataset. *)
Definition pool_info (pool : value) : result value :=
  bind (get pool "name" (VStr "unknown")) (fun name =>
  bind (get pool "alloc" (VInt 0)) (fun used =>
  bind (get pool "free" (VInt 0)) (fun avail =>
  bind (get pool "alloc" (VInt 0)) (fun refer =>
  bind (get pool "name" (VStr "unknown")) (fun mounted =>
  Ok (VDict [ ("name", name); ("type", VStr "filesystem"); ("used", used);
              ("avail", avail); ("refer", refer);
              ("mountpoint", VStr (fstr ["/"; str mounted])) ])))))).

(** The body of the loop over the pools of the node. *)
Definition dataset_of_pool (pool_name : option string) (pool : value) : M unit :=
  skip <~ lift (other_pool pool_name pool) ;;
  if skip : bool then ret tt
  else
    record <~ lift (pool_info pool) ;;
    append record.

Definition list_zfs_datasets (node : string) (pool_name : option string)
  : M (list Content) :=
  try_except
    (zfs_pools <~ lift (disks_zfs_get (VStr node)) ;;
     pools <~ lift (iter zfs_pools) ;;
     _ <~ for_each pools (dataset_of_pool pool_name) ;;
     datasets <~ get_collected ;;
     lift (_format_response (VList datasets) "zfs_datasets"))
    (handle_error "list ZFS datasets").

(** *** [get_disk_list] *)

(** The record built for one disk of the node. *)
Definition disk_info (disk : value) : result value :=
  bind (get disk "devpath" (VStr "unknown")) (fun devpath =>
  bind (get disk "size" (VInt 0)) (fun size =>
  bind (get disk "serial" (VStr "N/A")) (fun serial =>
  bind (get disk "type" (VStr "unknown")) (fun type =>
  bind (get disk "health" (VStr "UNKNOWN")) (fun health =>
  bind (get disk "model" (VStr "N/A")) (fun model =>
  bind (get disk "vendor" (VStr "N/A")) (fun vendor =>
  bind (get disk "rpm" (VInt 0)) (fun rpm =>
  bind (get disk "wearout" (VStr "N/A")) (fun wearout =>
  bind (get disk "used" (VStr "unused")) (fun used =>
  Ok (VDict [ ("devpath", devpath); ("size", size); ("serial", serial);
              ("type", type); ("health", health); ("model", model);
              ("vendor", vendor); ("rpm", rpm); ("wearout", wearout);
              ("used", used) ]))))))))))).

Definition get_disk_list (node : string) (include_partitions : bool) : M (list Content) :=
  try_except
    (disk_list <~ lift (disks_list_get (VStr node) (if include_partitions then 1 else 0)) ;;
     entries <~ lift (iter disk_list) ;;
     _ <~ for_each entries (fun disk =>
            record <~ lift (disk_info disk) ;;
            append record) ;;
     disks <~ get_collected ;;
     lift (_format_response (VList disks) "disks"))
    (handle_error "list disks").

End MoreTools.
End ZFSTools.

(** ** Notions used in the statements *)

Import Py ProxmoxTemplates ZFSTools.

Definition is_wear_line (line : string) : bool :=
  String.prefix "     - Wear Level: " line.

Definition is_dedup_line (line : string) : bool :=
  String.prefix "  - Dedup Ratio: " line.

Definition is_raw_header (line : string) : bool :=
  String.eqb line "  Raw Pool Status:".

(** A line set in by four spaces. *)
Definition indented (line : string) : bool := String.prefix "    " line.

(** [token] occurs in [text], at whatever position. *)
Definition occurs (token text : string) : Prop :=
  exists before after, text = (before ++ token ++ after)%string.

(** The fields every pool-detail record carries. *)
Definition detail_fields : list string :=
  ["name"; "node"; "health"; "state"; "scan"; "action"; "status"; "errors"; "children"].

Definition has_field (record : dict) (k : string) : bool :=
  match lookup k record with
  | Some _ => true
  | None => false
  end.

Definition complete (record : dict) : bool :=
  forallb (has_field record) detail_fields.

(** [t / 10^nd] is a decimal with [nd] places nearest to [m * 2^e]: they are
    no more than half a unit of the last place apart.  Both are scaled by
    [2^k], which makes them integers. *)
Definition nearest_decimal (nd : nat) (m : positive) (e t : Z) : Prop :=
  let k := Z.max 0 (- e) in
  2 * Z.abs (Zpos m * 2 ^ (e + k) * 10 ^ Z.of_nat nd - t * 2 ^ k) <= 2 ^ k.

(** What [format_float] shows of a finite non-zero float with [nd] places. *)
Definition shows (nd : nat) (x : spec_float) (t : Z) : Prop :=
  match x with
  | S754_finite s m e => format_float nd x = fstr [sign s; fixed nd t] /\ nearest_decimal nd m e t
  | _ => True
  end.

Section Notions.
Context {B : Builtins} {F : Formatting}.

(** The structured sections of the pool-detail report: the header with health
    and state, the scan, the errors and the disk layout. *)
Definition structured_lines (pool : dict) : result (list string) :=
  bind (scan_lines pool) (fun scan =>
  bind (layout_lines pool) (fun layout =>
  Ok (header_lines pool ++ scan ++ [errors_line pool] ++ layout))).

(** The raw-text section for a payload [text]. *)
Definition raw_section (text : string) : list string :=
  "" :: "  Raw Pool Status:"
     :: map (fun line => fstr ["    "; line]) (filter not_blank (split_on "010"%char text)).

End Notions.

(** The int size of a volume record, 0 when it is not an int. *)
Definition size_of (volume : dict) : Z :=
  match dget volume "size" (VInt 0) with
  | VInt z => z
  | _ => 0
  end.

(** An entry of a content listing whose size, when given, is an int. *)
Definition int_sized (entry : dict) : bool :=
  match dget entry "size" (VInt 0) with
  | VInt _ => true
  | _ => false
  end.

(** Largest first. *)
Definition descending {X} (size : X -> Z) : list X -> Prop :=
  StronglySorted (fun v w => size w <= size v).

(** A keyed list whose keys are the int sizes of its entries. *)
Definition keyed_by_size {X} (size : X -> Z) (l : list (value * X)) : Prop :=
  Forall (fun kx => fst kx = VInt (size (snd kx))) l.

(** The record of one entry of a content listing, with its defaults. *)
Definition volume_record (entry : dict) : dict :=
  [ ("volid", dget entry "volid" (VStr "unknown"));
    ("format", dget entry "format" (VStr "unknown"));
    ("size", dget entry "size" (VInt 0));
    ("vmid", dget entry "vmid" VNone);
    ("content", dget entry "content" (VStr "unknown"));
    ("ctime", dget entry "ctime" VNone) ].

(** The storage-usage record of a storage with the given totals and volumes. *)
Definition usage_record (name type total used avail : value) (volumes : list dict) : dict :=
  [ ("storage", name); ("type", type);
    ("total", total); ("used", used); ("available", avail);
    ("volumes", VList (map VDict volumes));
    ("volume_count", VInt (Z.of_nat (List.length volumes))) ].

(** The record of one pool of a node, with its defaults. *)
Definition pool_record (node_name : value) (pool : dict) : value :=
  VDict [ ("name", dget pool "name" (VStr "unknown")); ("node", node_name);
          ("health", dget pool "health" (VStr "UNKNOWN"));
          ("size", dget pool "size" (VInt 0)); ("alloc", dget pool "alloc" (VInt 0));
          ("free", dget pool "free" (VInt 0)); ("frag", dget pool "frag" (VInt 0));
          ("dedup", dget pool "dedup" (VFloat one)) ].

(** How the pool query of one node ends: it raises, or it returns the pools
    of the node. *)
Inductive node_outcome : Type :=
| Failed (e : exn)
| Pools (pools : list dict).

Definition records_of (answer : value * node_outcome) : list value :=
  match snd answer with
  | Failed _ => []
  | Pools pools => map (pool_record (fst answer)) pools
  end.

Definition warnings_of (answer : value * node_outcome) : list log_record :=
  match snd answer with
  | Failed e =>
      [ {| log_level := WARNING;
           log_msg := "Could not query ZFS pools on node %s: %s";
           log_args := [AVal (fst answer); AExn e] |} ]
  | Pools _ => []
  end.

Section ToolNotions.
Context {T : ProxmoxTool}.

(** The entry [info] of the node list names the node [fst answer], whose pool
    query ends as [snd answer]. *)
Definition node_answer (info : value) (answer : value * node_outcome) : Prop :=
  item info "node" = Ok (fst answer) /\
  match snd answer with
  | Failed e => disks_zfs_get (fst answer) = Raise e
  | Pools pools => disks_zfs_get (fst answer) = Ok (VList (map VDict pools))
  end.

End ToolNotions.

(** ** A small installation to run the definitions on

    ASCII-only stand-ins for the builtins, a sample icon table and byte
    formatter, and a three-node cluster whose second node cannot be reached. *)

Module Sample.
Import Py ProxmoxTemplates ZFSTools.

Definition upper_ascii (a : ascii) : ascii :=
  let n := N_of_ascii a in
  if ((97 <=? n) && (n <=? 122))%N then ascii_of_N (n - 32) else a.

Fixpoint upper_string (s : string) : string :=
  match s with
  | EmptyString => EmptyString
  | String a r => String (upper_ascii a) (upper_string r)
  end.

Definition is_space (a : ascii) : bool :=
  let n := N_of_ascii a in ((n =? 32) || ((9 <=? n) && (n <=? 13)))%N.

Fixpoint lstrip (s : string) : string :=
  match s with
  | EmptyString => EmptyString
  | String a r => if is_space a then lstrip r else s
  end.

Fixpoint rstrip (s : string) : string :=
  match s with
  | EmptyString => EmptyString
  | String a r =>
      match rstrip r with
      | EmptyString => if is_space a then EmptyString else String a EmptyString
      | r' => String a r'
      end
  end.

#[local] Instance builtins : Builtins := {|
  float_repr := format_float 1;
  str_repr := fun s => fstr ["'"; s; "'"];
  str_upper := upper_string;
  str_strip := fun s => rstrip (lstrip s)
|}.

Definition icons (kind : string) : string :=
  if String.eqb kind "node" then "[node]"
  else if String.eqb kind "vm" then "[vm]"
  else if String.eqb kind "container" then "[ct]"
  else if String.eqb kind "storage" then "[storage]"
  else if String.eqb kind "zfs" then "[zfs]"
  else if String.eqb kind "disk" then "[disk]"
  else "[?]".

Definition bytes (v : value) : result string :=
  match v with
  | VInt z => Ok (fstr [str_of_Z z; " B"])
  | _ => Raise (TypeError "unsupported operand type(s) for /")
  end.

Definition seconds (v : value) : result string :=
  match v with
  | VInt z => Ok (fstr [str_of_Z z; "s"])
  | _ => Raise (TypeError "unsupported operand type(s) for //")
  end.

#[local] Instance formatting : Formatting := {|
  RESOURCES := icons;
  format_bytes := bytes;
  format_uptime := seconds
|}.

Definition unreachable : exn := OtherError "ConnectionError" "no route to host".

Definition tank : dict :=
  [ ("name", VStr "tank"); ("health", VStr "ONLINE"); ("size", VInt 1000);
    ("alloc", VInt 250); ("free", VInt 750); ("frag", VInt 3) ].

Definition backup : dict :=
  [ ("name", VStr "backup"); ("health", VStr "DEGRADED") ].

(** The float 1.35 *)
Definition f1_35 : spec_float := S754_finite false 6079859496950170 (-52).

Definition deduped : dict :=
  [ ("name", VStr "tank"); ("node", VStr "pve1"); ("health", VStr "ONLINE");
    ("size", VInt 1000); ("alloc", VInt 250); ("free", VInt 750); ("frag", VInt 3);
    ("dedup", VFloat f1_35) ].

Definition zero_dedup : dict :=
  [ ("name", VStr "tank"); ("node", VStr "pve1"); ("health", VStr "ONLINE");
    ("size", VInt 1000); ("alloc", VInt 250); ("free", VInt 750); ("frag", VInt 3);
    ("dedup", VInt 0) ].

(** A pool whose dedup ratio is the int 2. *)
Definition doubled : dict :=
  [ ("name", VStr "scratch"); ("node", VStr "pve3"); ("health", VStr "FAULTED");
    ("size", VInt 0); ("alloc", VInt 5); ("free", VInt 0); ("frag", VInt 0);
    ("dedup", VInt 2) ].



Definition ssd : dict :=
  [ ("devpath", VStr "/dev/nvme0n1"); ("size", VInt 512); ("type", VStr "ssd");
    ("health", VStr "PASSED"); ("wearout", VInt 3) ].

Definition raw_pool : dict :=
  [ ("name", VStr "tank"); ("node", VStr "pve1"); ("health", VStr "DEGRADED");
    ("state", VStr "See raw output"); ("scan", VDict []); ("action", VNone);
    ("status", VNone); ("errors", VStr "Check raw output"); ("children", VList []);
    ("raw_status", VStr (fstr ["  pool: tank"; nl; nl; " state: DEGRADED"])) ].

Definition volume (n : Z) : dict :=
  [ ("volid", VStr (fstr ["local:100/vm-100-disk-"; str_of_Z n; ".qcow2"]));
    ("size", VInt (n * 1024)); ("vmid", VInt 100); ("content", VStr "images") ].

(** Fifteen volumes, in no particular order. *)
Definition fifteen : list dict :=
  map volume [3; 14; 1; 15; 9; 2; 6; 5; 10; 4; 8; 12; 7; 13; 11].

Definition local : value := VDict [("storage", VStr "local"); ("type", VStr "dir")].

#[local] Instance tool : ProxmoxTool := {|
  Content := string;
  nodes_get := Ok (VList [VDict [("node", VStr "pve1")];
                          VDict [("node", VStr "pve2")];
                          VDict [("node", VStr "pve3")]]);
  disks_zfs_get := fun node =>
    if eq_str node "pve1" then Ok (VList [VDict tank])
    else if eq_str node "pve3" then Ok (VList [VDict backup])
    else Raise unreachable;
  disks_zfs_pool_get := fun node pool =>
    if eq_str node "pve1" then Ok (VDict tank) else Raise unreachable;
  storage_get := fun node => Ok (VList [local]);
  storage_content_get := fun node store => Ok (VList (map VDict fifteen));
  storage_status_get := fun node store => Raise unreachable;
  _format_response := fun data kind => Ok [fstr [kind; ": "; repr data]];
  _handle_error := fun operation e => ([], Raise (OtherError "RuntimeError" operation))
|}.

(** The pool queries of the three nodes. *)
Definition answers : list (value * node_outcome) :=
  [ (VStr "pve1", Pools [tank]); (VStr "pve2", Failed unreachable);
    (VStr "pve3", Pools [backup]) ].

(** The fifteen volumes as the normalizer sorts them. *)
Definition sorted : list dict :=
  match sort_volumes (map volume_record fifteen) with
  | Ok volumes => volumes
  | Raise _ => []
  end.

End Sample.

(** ** Notions used in the further statements *)

(** The warning [list_zfs_pools] logs for a node. *)
Definition pool_warning (name : value) (e : exn) : log_record :=
  {| log_level := WARNING;
     log_msg := "Could not query ZFS pools on node %s: %s";
     log_args := [AVal name; AExn e] |}.

Section FurtherNotions.
Context {B : Builtins}.

(** The warning [get_storage_usage] logs for a storage. *)
Definition content_warning (name : value) (e : exn) : log_record :=
  {| log_level := WARNING;
     log_msg := fstr ["Could not get content for "; str name; ": "; exn_str e];
     log_args := [] |}.

(** The dataset record of one pool, with its defaults. *)
Definition dataset_record (pool : dict) : dict :=
  [ ("name", dget pool "name" (VStr "unknown")); ("type", VStr "filesystem");
    ("used", dget pool "alloc" (VInt 0)); ("avail", dget pool "free" (VInt 0));
    ("refer", dget pool "alloc" (VInt 0));
    ("mountpoint", VStr (fstr ["/"; str (dget pool "name" (VStr "unknown"))])) ].

End FurtherNotions.

(** The pools a dataset listing keeps: all of them, or those with the name
    asked for. *)
Definition selected (pool_name : option string) (pool : dict) : bool :=
  match given pool_name with
  | Some wanted => eq_str (dget pool "name" VNone) wanted
  | None => true
  end.

(** The record of one disk, with its defaults. *)
Definition disk_record (disk : dict) : dict :=
  [ ("devpath", dget disk "devpath" (VStr "unknown")); ("size", dget disk "size" (VInt 0));
    ("serial", dget disk "serial" (VStr "N/A")); ("type", dget disk "type" (VStr "unknown"));
    ("health", dget disk "health" (VStr "UNKNOWN")); ("model", dget disk "model" (VStr "N/A"));
    ("vendor", dget disk "vendor" (VStr "N/A")); ("rpm", dget disk "rpm" (VInt 0));
    ("wearout", dget disk "wearout" (VStr "N/A")); ("used", dget disk "used" (VStr "unused")) ].

(** A value that is not a dict. *)
Definition not_dict (v : value) : bool :=
  match v with
  | VDict _ => false
  | _ => true
  end.

(** The volumes of a list whose int size is [z], in the order of the list. *)
Definition of_size (z : Z) (volumes : list dict) : list dict :=
  filter (fun v => size_of v =? z) volumes.

(** [suffix] ends [text]. *)
Definition ends_with (suffix text : string) : Prop :=
  exists before, text = (before ++ suffix)%string.

(** The totals read off the answer of a status query: those of a dict, with 0
    for a missing one, and zeros for any other answer. *)
Definition totals_of (status : result value) : value * value * value :=
  match status with
  | Ok (VDict d) => (dget d "total" (VInt 0), dget d "used" (VInt 0), dget d "avail" (VInt 0))
  | _ => (VInt 0, VInt 0, VInt 0)
  end.

(** What becomes of one storage of the node: it is not the one asked for, its
    content query raises, or its content is listed. *)
Inductive store_outcome : Type :=
| Skipped
| Unlisted (e : exn)
| Listed (entries : list dict).

Section StorageNotions.
Context {B : Builtins} {T : ProxmoxTool}.

(** The entry [store] of the storage list has the name and type of [answer]
    and ends as its outcome says. *)
Definition store_answer (node : string) (storage : option string) (store : value)
  (answer : value * value * store_outcome) : Prop :=
  let '(name, type, outcome) := answer in
  item store "storage" = Ok name /\
  get store "type" (VStr "unknown") = Ok type /\
  match outcome with
  | Skipped => filtered_out storage store = Ok true
  | Unlisted e =>
      filtered_out storage store = Ok false /\
      storage_content_get (VStr node) name = Raise e
  | Listed entries =>
      filtered_out storage store = Ok false /\
      storage_content_get (VStr node) name = Ok (VList (map VDict entries)) /\
      forallb int_sized entries = true
  end.

Definition usage_of (node : string) (answer : value * value * store_outcome) : list value :=
  let '(name, type, outcome) := answer in
  match outcome with
  | Listed entries =>
      match sort_volumes (map volume_record entries) with
      | Ok volumes =>
          let '(total, used, avail) := totals_of (storage_status_get (VStr node) name) in
          [VDict (usage_record name type total used avail volumes)]
      | Raise _ => []
      end
  | _ => []
  end.

Definition usage_warnings (answer : value * value * store_outcome) : list log_record :=
  let '(name, type, outcome) := answer in
  match outcome with
  | Unlisted e => [content_warning name e]
  | _ => []
  end.

End StorageNotions.

(** A volume record whose size is an int. *)
Definition has_int_size (volume : dict) : bool :=
  match lookup "size" volume with
  | Some (VInt _) => true
  | _ => false
  end.

(** The character [c] occurs in [s]. *)
Definition has_char (c : ascii) (s : string) : bool :=
  existsb (Ascii.eqb c) (list_ascii_of_string s).

Section RenderNotions.
Context {B : Builtins}.

(** The raw text a pool-detail record carries for a response that is not a
    dict: none for [None], the text itself, or the [str] of the value. *)
Definition raw_text_of (pool_detail : value) : option string :=
  match pool_detail with
  | VNone => None
  | VStr text => Some text
  | _ => Some (str pool_detail)
  end.

End RenderNotions.

(** More of the sample installation: the disks of its first node. *)
Module MoreSamples.
Import Py ProxmoxTemplates ZFSTools.

Definition nvme : dict :=
  [ ("devpath", VStr "/dev/nvme0n1"); ("size", VInt 512); ("type", VStr "ssd") ].

Definition sda : dict :=
  [ ("devpath", VStr "/dev/sda"); ("size", VInt 4096); ("type", VStr "hdd");
    ("wearout", VInt 12) ].

#[local] Instance disks : DiskQueries := {|
  disks_list_get := fun node partitions =>
    if eq_str node "pve1" then Ok (VList [VDict nvme; VDict sda])
    else Raise Sample.unreachable
|}.

#[local] Instance sections : Sections := {|
  SECTIONS := fun kind => if String.eqb kind "configuration" then "[config]" else "[?]"
|}.

Definition nfs : value := VDict [("storage", VStr "nfs")].

(** A second installation, with ragged answers: a node entry without a name,
    a pool list with a stray str, a storage whose content cannot be listed
    and a status query that answers [None]. *)
#[local] Instance ragged : ProxmoxTool := {|
  Content := string;
  nodes_get := Ok (VList [VDict [("node", VStr "pve1")]; VDict [("name", VStr "pve2")];
                          VDict [("node", VStr "pve3")]]);
  disks_zfs_get := fun node =>
    if eq_str node "pve1" then Ok (VList [VDict Sample.tank])
    else Ok (VList [VDict Sample.tank; VStr "oops"; VDict Sample.backup]);
  disks_zfs_pool_get := fun node pool => Ok VNone;
  storage_get := fun node => Ok (VList [Sample.local; nfs]);
  storage_content_get := fun node store =>
    if eq_str store "local" then Ok (VList (map VDict Sample.fifteen))
    else Raise Sample.unreachable;
  storage_status_get := fun node store => Ok VNone;
  _format_response := fun data kind => Ok [kind];
  _handle_error := fun operation e => ([], Raise (OtherError "RuntimeError" operation))
|}.

(** Five volumes of two sizes. *)
Definition sized (name : string) (size : Z) : dict :=
  [ ("volid", VStr name); ("size", VInt size) ].

Definition ties : list dict :=
  [sized "a" 5; sized "b" 9; sized "c" 5; sized "d" 9; sized "e" 5].

(** A container whose entry has no node and no memory data. *)
Definition orphan : dict :=
  [ ("name", VStr "web"); ("vmid", VInt 101); ("status", VStr "running") ].

Definition web : dict :=
  [ ("name", VStr "web"); ("vmid", VInt 101); ("status", VStr "running");
    ("node", VStr "pve1") ].

End MoreSamples.

(** ** Notions used in the statements about the reports *)


(** A report: the title line, then one block of lines per item, in the order
    of the items, each block being what [block_of] says of its item. *)
Definition report_of {A} (title : string) (block_of : A -> list string -> Prop)
  (items : list A) (text : string) : Prop :=
  exists blocks,
    Forall2 block_of items blocks /\
    text = join_lines (title :: List.concat blocks).


Section ReportNotions.
Context {B : Builtins} {F : Formatting}.





(** The block of a disk in the disk listing: seven lines headed by the device
    path, and an eighth line with the wear level exactly for an SSD whose
    wearout is known. *)
Definition wear_shown (disk : dict) (lines : list string) : Prop :=
  let disk_type := dget disk "type" (VStr "unknown") in
  let wearout := dget disk "wearout" (VStr "N/A") in
  List.length (firstn 7 lines) = 7%nat /\
  nth 1 lines "" = fstr ["  "; type_icon disk_type; " ";
                         str (dget disk "devpath" (VStr "unknown"))] /\
  (existsb is_wear_line lines = true <->
   disk_type = VStr "ssd" /\ wearout <> VStr "N/A") /\
  (disk_type = VStr "ssd" /\ wearout <> VStr "N/A" ->
   skipn 7 lines = [fstr ["     - Wear Level: "; str wearout; "%"]]) /\
  (~ (disk_type = VStr "ssd" /\ wearout <> VStr "N/A") -> skipn 7 lines = []) /\
  (disk_type <> VStr "ssd" -> existsb is_wear_line lines = false).

(** The block of a pool in the pool listing: seven lines headed by the name
    of the pool, and an eighth line with the dedup ratio exactly when the
    dedup value is truthy and differs from 1.0.  The value is then a number,
    and the line shows it as a decimal with two places. *)
Definition dedup_shown (pool : dict) (lines : list string) : Prop :=
  let dedup := dget pool "dedup" (VFloat one) in
  let present := truthy dedup = true /\ ne_float dedup one = true in
  List.length (firstn 7 lines) = 7%nat /\
  (exists name,
     lookup "name" pool = Some name /\
     nth 1 lines "" = fstr [RESOURCES "zfs"; " "; str name; " (";
                            str (dget pool "node" (VStr "unknown")); ")"]) /\
  (existsb is_dedup_line (skipn 2 lines) = true <-> present) /\
  (present ->
     exists n f t,
       as_num dedup = Some n /\
       to_float n = Ok f /\
       skipn 7 lines = [fstr ["  - Dedup Ratio: "; format_float 2 f; "x"]] /\
       shows 2 f t) /\
  (~ present -> skipn 7 lines = []) /\
  (lookup "dedup" pool = None -> ~ present) /\
  (dedup = VFloat one -> ~ present) /\
  (dedup = VNone \/ dedup = VStr "" \/ dedup = VList [] \/ dedup = VDict [] -> ~ present) /\
  (forall b, dedup = VBool b -> ~ present) /\
  (forall z, dedup = VInt z -> (present <-> z <> 0 /\ z <> 1)) /\
  (forall f, dedup = VFloat f -> valid_binary prec emax f = true ->
     (present <-> is_zero f = false /\ f <> one)).

(** The block of a storage-usage record in the usage report, for a record as
    [get_storage_usage] builds it from a content listing with int sizes: the
    "Volumes:" line shows the number of volumes, the ten largest volumes are
    listed, and one line counts the volumes left out when there are any. *)
Definition top_ten_listed (record : dict) (lines : list string) : Prop :=
  forall entries volumes name type total used avail,
    forallb int_sized entries = true ->
    sort_volumes (map volume_record entries) = Ok volumes ->
    record = usage_record name type total used avail volumes ->
    let n := Z.of_nat (List.length entries) in
    Permutation (map volume_record entries) volumes /\
    (forall v w, In v (firstn 10 volumes) -> In w (skipn 10 volumes) ->
       size_of w <= size_of v) /\
    List.length (firstn 6 lines) = 6%nat /\
    nth 1 lines "" = fstr [RESOURCES "storage"; " "; str name; " ("; str type; ")"] /\
    nth 5 lines "" = fstr ["  Volumes: "; str_of_Z n] /\
    exists listed,
      Forall2 (fun v line => volume_line (VDict v) = Ok line) (firstn 10 volumes) listed /\
      List.length listed = Nat.min 10 (List.length entries) /\
      skipn 6 lines =
        if n =? 0 then []
        else "" :: "  Top Space Consumers:" :: listed ++
             (if 10 <? n
              then [fstr ["    ... and "; str_of_Z (n - 10); " more volumes"]]
              else []).

End ReportNotions.

(** * Properties *)

(** ** Basic facts about the builtins *)

Lemma eq_str_true (v : value) (s : string) : eq_str v s = true <-> v = VStr s.
Proof.
  destruct v; simpl; split; try discriminate.
  - intros H. apply String.eqb_eq in H. now subst.
  - intros H. inversion H. apply String.eqb_refl.
Qed.

Lemma eq_str_false (v : value) (s : string) : eq_str v s = false <-> v <> VStr s.
Proof.
  rewrite <- eq_str_true. destruct (eq_str v s); split; congruence.
Qed.

Lemma eq_str_spec (v : value) (s : string) : reflect (v = VStr s) (eq_str v s).
Proof.
  destruct (eq_str v s) eqn:E; constructor.
  - now apply eq_str_true.
  - now apply eq_str_false.
Qed.

Lemma prefix_nil (s : string) : String.prefix "" s = true.
Proof. destruct s; reflexivity. Qed.

Lemma prefix_app (p s : string) : String.prefix p (p ++ s) = true.
Proof.
  induction p as [|a p IH]; simpl.
  - apply prefix_nil.
  - destruct (ascii_dec a a); [exact IH | congruence].
Qed.

Lemma bind_ok {A C} (m : result A) (k : A -> result C) (c : C) :
  bind m k = Ok c -> exists a, m = Ok a /\ k a = Ok c.
Proof.
  destruct m as [a|e]; simpl; [eauto | discriminate].
Qed.

Lemma existsb_app_false {A} (p : A -> bool) (l1 l2 : list A) :
  existsb p l1 = false -> existsb p (l1 ++ l2) = existsb p l2.
Proof.
  intros H. now rewrite existsb_app, H.
Qed.

(** ** Numbers: rounding, comparison with zero and with 1.0 *)

Lemma round_half_even_nearest (p q : Z) :
  0 < q -> 2 * Z.abs (p - round_half_even p q * q) <= q.
Proof.
  intros Hq. unfold round_half_even.
  pose proof (Z.div_mod p q ltac:(lia)) as Hdiv.
  pose proof (Z.mod_pos_bound p q Hq) as Hmod.
  destruct (Z.compare_spec (2 * (p mod q)) q) as [Heq|Hlt|Hgt].
  - destruct (Z.even (p / q)); nia.
  - nia.
  - nia.
Qed.

Lemma scaled_nearest (nd : nat) (m : positive) (e : Z) :
  nearest_decimal nd m e (scaled nd m e).
Proof.
  unfold nearest_decimal, scaled. destruct (Z.leb_spec 0 e) as [He|He].
  - replace (Z.max 0 (- e)) with 0 by lia. rewrite Z.add_0_r, Z.pow_0_r.
    replace (_ - _) with 0 by lia. simpl. lia.
  - replace (Z.max 0 (- e)) with (- e) by lia.
    replace (e + - e) with 0 by lia. rewrite Z.pow_0_r, Z.mul_1_r.
    apply round_half_even_nearest. apply Z.pow_pos_nonneg; lia.
Qed.

Lemma format_float_shows (nd : nat) (x : spec_float) :
  match x with
  | S754_finite s m e => shows nd x (scaled nd m e)
  | _ => True
  end.
Proof.
  destruct x; try exact I. split; [reflexivity | apply scaled_nearest].
Qed.

Lemma num_gt_int (b : Z) : num_gt (NInt b) (NInt 0) = (0 <? b).
Proof.
  unfold num_gt, xcompare, exact. rewrite Z.min_id, Z.sub_diag, Z.pow_0_r, Z.mul_1_r.
  simpl. destruct (Z.compare_spec b 0); destruct (Z.ltb_spec 0 b); try reflexivity; lia.
Qed.




Lemma digits2_pos_bounds (m : positive) :
  2 ^ (Zpos (digits2_pos m) - 1) <= Zpos m < 2 ^ Zpos (digits2_pos m).
Proof.
  induction m as [m IH|m IH|]; cbn [digits2_pos].
  - rewrite Pos2Z.inj_succ, (Pos2Z.inj_xI m).
    replace (Z.succ (Zpos (digits2_pos m)) - 1) with (Z.succ (Zpos (digits2_pos m) - 1)) by lia.
    rewrite !Z.pow_succ_r by lia.
    set (lo := 2 ^ (Zpos (digits2_pos m) - 1)) in *.
    set (hi := 2 ^ Zpos (digits2_pos m)) in *. clearbody lo hi. lia.
  - rewrite Pos2Z.inj_succ, (Pos2Z.inj_xO m).
    replace (Z.succ (Zpos (digits2_pos m)) - 1) with (Z.succ (Zpos (digits2_pos m) - 1)) by lia.
    rewrite !Z.pow_succ_r by lia.
    set (lo := 2 ^ (Zpos (digits2_pos m) - 1)) in *.
    set (hi := 2 ^ Zpos (digits2_pos m)) in *. clearbody lo hi. lia.
  - cbn. lia.
Qed.

Lemma pow2_digits (m : positive) (j : Z) :
  0 <= j -> Zpos m = 2 ^ j -> Zpos (digits2_pos m) = j + 1.
Proof.
  intros Hj Hm. destruct (digits2_pos_bounds m) as [Hlo Hhi]. rewrite Hm in Hlo, Hhi.
  apply Z.pow_le_mono_r_iff in Hlo; [|lia|lia].
  apply Z.pow_lt_mono_r_iff in Hhi; [|lia|lia]. lia.
Qed.

(** A binary64 float whose value is 1 is the float [1.0]: the canonical
    mantissa and exponent of a value are unique. *)
Lemma equal_to_one (s : bool) (m : positive) (e : Z) :
  bounded prec emax m e = true ->
  num_eq (NFloat (S754_finite s m e)) (NFloat one) = true ->
  S754_finite s m e = one.
Proof.
  intros Hb Heq.
  change one with (S754_finite false 4503599627370496 (-52)) in *.
  unfold num_eq, xcompare, exact in Heq. cbn [cond_Zopp] in Heq.
  change 4503599627370496 with (2 ^ 52) in Heq.
  destruct (Z.compare_spec (cond_Zopp s (Zpos m) * 2 ^ (e - Z.min e (-52)))
                           (2 ^ 52 * 2 ^ (-52 - Z.min e (-52)))) as [H|H|H];
    try discriminate. clear Heq.
  assert (Ha : 0 < 2 ^ (e - Z.min e (-52))) by (apply Z.pow_pos_nonneg; lia).
  assert (Hc : 0 < 2 ^ (-52 - Z.min e (-52))) by (apply Z.pow_pos_nonneg; lia).
  destruct s; cbn [cond_Zopp] in H; [nia|].
  assert (He : e <= 0).
  { destruct (Z.le_gt_cases e 0) as [|Hpos]; [assumption|exfalso].
    replace (Z.min e (-52)) with (-52) in H by lia.
    replace (-52 - -52) with 0 in H by lia. rewrite Z.pow_0_r, Z.mul_1_r in H.
    assert (2 ^ 52 < 2 ^ (e - -52)) by (apply Z.pow_lt_mono_r; lia). nia. }
  assert (Hm : Zpos m = 2 ^ (- e)).
  { destruct (Z.le_gt_cases e (-52)) as [Hle|Hgt].
    - replace (Z.min e (-52)) with e in H by lia.
      replace (e - e) with 0 in H by lia. rewrite Z.pow_0_r, Z.mul_1_r in H.
      rewrite H, <- Z.pow_add_r by lia. f_equal. lia.
    - replace (Z.min e (-52)) with (-52) in H by lia.
      replace (-52 - -52) with 0 in H by lia. rewrite Z.pow_0_r, Z.mul_1_r in H.
      assert (Hsplit : 2 ^ 52 = 2 ^ (- e) * 2 ^ (e - -52)).
      { rewrite <- Z.pow_add_r by lia. f_equal. lia. }
      rewrite Hsplit in H. apply Z.mul_reg_r in H; [exact H | lia]. }
  pose proof (pow2_digits m (- e) ltac:(lia) Hm) as Hd.
  unfold bounded, canonical_mantissa, fexp, emin in Hb.
  apply andb_true_iff in Hb. destruct Hb as [Hb _]. apply Z.eqb_eq in Hb.
  rewrite Hd in Hb. unfold prec, emax in Hb.
  assert (E : e = -52) by lia. subst e.
  f_equal. apply Pos2Z.inj. rewrite Hm. reflexivity.
Qed.

Lemma present_int (z : Z) :
  truthy (VInt z) = true /\ ne_float (VInt z) one = true <-> z <> 0 /\ z <> 1.
Proof.
  change one with (S754_finite false 4503599627370496 (-52)).
  unfold ne_float, num_eq, xcompare, exact. cbn [truthy as_num cond_Zopp].
  change (Z.min 0 (-52)) with (-52). change (0 - -52) with 52.
  change (-52 - -52) with 0. rewrite Z.pow_0_r, Z.mul_1_r.
  change 4503599627370496 with (2 ^ 52).
  destruct (Z.eqb_spec z 0) as [Hz|Hz]; cbn [negb].
  - split; [intros [H _]; discriminate | intros [H _]; contradiction].
  - destruct (Z.compare_spec (z * 2 ^ 52) (2 ^ 52)) as [H|H|H]; cbn [negb];
      split; intros [H1 H2]; try discriminate; split; try reflexivity; try assumption; nia.
Qed.

Lemma present_float (f : spec_float) :
  valid_binary prec emax f = true ->
  (truthy (VFloat f) = true /\ ne_float (VFloat f) one = true <->
   is_zero f = false /\ f <> one).
Proof.
  intros Hvalid. destruct f as [s|s| |s m e].
  - split; intros [H _]; discriminate.
  - split; intros _; (split; [reflexivity|]);
      [intros H; vm_compute in H; discriminate | now destruct s].
  - split; intros _; (split; [reflexivity|]);
      [intros H; vm_compute in H; discriminate | reflexivity].
  - cbn [valid_binary] in Hvalid. cbn [truthy is_zero]. unfold ne_float. cbn [as_num]. split.
    + intros [_ Hne]. split; [reflexivity|]. intros Heq. rewrite Heq in Hne.
      vm_compute in Hne. discriminate.
    + intros [_ Hne]. split; [reflexivity|].
      destruct (num_eq (NFloat (S754_finite s m e)) (NFloat one)) eqn:E; [|reflexivity].
      exfalso. apply Hne. now apply equal_to_one.
Qed.

(** What [format(v, ".<nd>f")] returns is the decimal of the float of a
    number. *)
Lemma format_f_number (nd : nat) (v : value) (text : string) :
  format_f nd v = Ok text ->
  exists n f t,
    as_num v = Some n /\ to_float n = Ok f /\ text = format_float nd f /\ shows nd f t.
Proof.
  intros H.
  assert (Hnum : exists n f, as_num v = Some n /\ to_float n = Ok f /\
                             text = format_float nd f).
  { unfold format_f in H. destruct v; try discriminate; cbn [as_num] in *;
      apply bind_ok in H; destruct H as (x & Hx & H); injection H as <-;
      eexists; exists x; (split; [reflexivity|]); (split; [exact Hx | reflexivity]). }
  destruct Hnum as (n & f & Hn & Hf & Htext).
  exists n, f, (match f with S754_finite _ m e => scaled nd m e | _ => 0 end).
  split; [exact Hn|]. split; [exact Hf|]. split; [exact Htext|].
  pose proof (format_float_shows nd f) as Hshows. now destruct f.
Qed.

Section TemplateProperties.
Context {B : Builtins} {F : Formatting}.

(** ** Wear level of a disk (C10) *)


Lemma wear_lines_spec (disk : dict) :
  let disk_type := dget disk "type" (VStr "unknown") in
  let wearout := dget disk "wearout" (VStr "N/A") in
  (disk_type = VStr "ssd" /\ wearout <> VStr "N/A" ->
   wear_lines disk = [fstr ["     - Wear Level: "; str wearout; "%"]]) /\
  (~ (disk_type = VStr "ssd" /\ wearout <> VStr "N/A") -> wear_lines disk = []).
Proof.
  intros disk_type wearout. unfold wear_lines. fold disk_type wearout.
  destruct (eq_str_spec wearout "N/A") as [Ew|Ew];
    destruct (eq_str_spec disk_type "ssd") as [Et|Et]; simpl; split; intros H;
    try reflexivity; try (destruct H as [H1 H2]; congruence).
  exfalso. apply H. split; assumption.
Qed.

Lemma mapM_Forall2 {A C} (f : A -> result C) (l : list A) (out : list C) :
  mapM f l = Ok out -> Forall2 (fun a c => f a = Ok c) l out.
Proof.
  revert out. induction l as [|a l IH]; cbn [mapM]; intros out H.
  - injection H as <-. constructor.
  - apply bind_ok in H. destruct H as (c & Hc & H).
    apply bind_ok in H. destruct H as (cs & Hcs & H).
    injection H as <-. constructor; [exact Hc | now apply IH].
Qed.

Lemma Forall2_mapM {A C} (f : A -> result C) (l : list A) (out : list C) :
  Forall2 (fun a c => f a = Ok c) l out -> mapM f l = Ok out.
Proof.
  induction 1 as [|a c l out Hc _ IH]; cbn [mapM]; [reflexivity|].
  now rewrite Hc, IH.
Qed.

(** A listing that maps [block] over its items is the report of the blocks. *)
Lemma listing_report {A} (block : A -> result (list string))
  (block_of : A -> list string -> Prop) (title : string) (items : list A) (text : string) :
  (forall a lines, block a = Ok lines -> block_of a lines) ->
  bind (mapM block items) (fun blocks => Ok (join_lines (title :: List.concat blocks)))
  = Ok text ->
  report_of title block_of items text.
Proof.
  intros Hblock H. apply bind_ok in H. destruct H as (blocks & Hblocks & H).
  injection H as <-. exists blocks. split; [|reflexivity].
  apply mapM_Forall2 in Hblocks.
  eapply Forall2_impl; [|exact Hblocks]. exact Hblock.
Qed.

Lemma disk_block_wear (disk : dict) (size_s : string) :
  format_bytes (dget disk "size" (VInt 0)) = Ok size_s ->
  exists lines, disk_block disk = Ok lines /\ wear_shown disk lines.
Proof.
  intros Hsize. unfold disk_block. rewrite Hsize. cbn [bind].
  eexists. split; [reflexivity|]. unfold wear_shown.
  set (disk_type := dget disk "type" (VStr "unknown")).
  set (wearout := dget disk "wearout" (VStr "N/A")).
  assert (Hfixed : forall tail,
    existsb is_wear_line
      ([ "";
         fstr ["  "; type_icon disk_type; " ";
               str (dget disk "devpath" (VStr "unknown"))];
         fstr ["     - Size: "; size_s];
         fstr ["     - Model: "; str (dget disk "model" (VStr "N/A"))];
         fstr ["     - Serial: "; str (dget disk "serial" (VStr "N/A"))];
         fstr ["     - Health: "; disk_health_icon (dget disk "health" (VStr "UNKNOWN"));
               " "; str (dget disk "health" (VStr "UNKNOWN"))];
         fstr ["     - Usage: "; str (dget disk "used" (VStr "unused"))] ] ++ tail)
    = existsb is_wear_line tail).
  { intros tail. apply existsb_app_false.
    unfold type_icon. destruct (eq_str disk_type "ssd"); reflexivity. }
  rewrite Hfixed.
  destruct (wear_lines_spec disk) as [Hyes Hno]. fold disk_type wearout in Hyes, Hno.
  assert (Hdec : (disk_type = VStr "ssd" /\ wearout <> VStr "N/A") \/
                 ~ (disk_type = VStr "ssd" /\ wearout <> VStr "N/A")).
  { destruct (eq_str_spec disk_type "ssd") as [Et|Et];
      destruct (eq_str_spec wearout "N/A") as [Ew|Ew];
      try (left; split; assumption); right; intros [H1 H2]; congruence. }
  split; [reflexivity|]. split; [reflexivity|].
  change (skipn 7 _) with (wear_lines disk).
  destruct Hdec as [Hc|Hc].
  - rewrite (Hyes Hc). split; [|split; [|split]].
    + split; [intros _; exact Hc | intros _].
      cbn. now rewrite prefix_nil.
    + intros _. reflexivity.
    + intros Hc'. contradiction.
    + intros Hne. destruct Hc as [Hc _]. contradiction.
  - rewrite (Hno Hc). split; [|split; [|split]].
    + split; [simpl; discriminate | intros Hc'; contradiction].
    + intros Hc'. contradiction.
    + intros _. reflexivity.
    + intros _. reflexivity.
Qed.

(** C10. The disk listing is its title followed by one block per disk, and
    the block of a disk carries a "Wear Level" line exactly when the disk's
    type is the str "ssd" and its wearout is not the "N/A" sentinel; the line
    then shows the wearout followed by a percent sign, as the eighth and last
    line of the block.  A disk of any other type has seven lines and no such
    line, whatever its wearout.  The listing is returned whenever
    [format_bytes] takes the size of every disk. *)
Theorem wear_level_only_for_ssd (disks : list dict) (sizes : list string) :
  disks <> [] ->
  Forall2 (fun disk size_s => format_bytes (dget disk "size" (VInt 0)) = Ok size_s)
    disks sizes ->
  exists text,
    disk_list disks = Ok text /\
    report_of (fstr [RESOURCES "disk"; " Disks"]) wear_shown disks text.
Proof.
  intros Hne Hsizes.
  assert (Hblocks : exists blocks,
            Forall2 (fun disk lines => disk_block disk = Ok lines /\ wear_shown disk lines)
              disks blocks).
  { clear Hne. induction Hsizes as [|disk size_s disks sizes Hsize _ IH].
    - exists []. constructor.
    - destruct (disk_block_wear disk size_s Hsize) as (lines & Hlines & Hshown).
      destruct IH as (blocks & Hblocks). exists (lines :: blocks).
      constructor; [split; assumption | exact Hblocks]. }
  destruct Hblocks as (blocks & Hblocks).
  exists (join_lines (fstr [RESOURCES "disk"; " Disks"] :: List.concat blocks)).
  split.
  - unfold disk_list. destruct disks as [|disk disks]; [contradiction|].
    rewrite (Forall2_mapM disk_block (disk :: disks) blocks); [reflexivity|].
    eapply Forall2_impl; [|exact Hblocks]. now intros a b [H _].
  - exists blocks. split; [|reflexivity].
    eapply Forall2_impl; [|exact Hblocks]. now intros a b [_ H].
Qed.

(** ** Listings of an empty collection (C3) *)

(** C3, as the templates have it.  On an empty collection the container, disk,
    ZFS pool, ZFS dataset and storage-usage templates return a one-line "none
    found" message that starts with the icon of the resource; the node, VM and
    storage-pool templates have no such guard and return their title line
    alone. *)
Theorem empty_collections :
  container_list [] = Ok (RESOURCES "container" ++ " No containers found")%string /\
  disk_list [] = Ok (RESOURCES "disk" ++ " No disks found")%string /\
  zfs_pool_list [] = Ok (RESOURCES "zfs" ++ " No ZFS pools found")%string /\
  zfs_datasets [] = Ok (RESOURCES "zfs" ++ " No ZFS datasets found")%string /\
  storage_usage [] = Ok (RESOURCES "storage" ++ " No storage data found")%string /\
  node_list [] = Ok (RESOURCES "node" ++ " Proxmox Nodes")%string /\
  vm_list [] = Ok (RESOURCES "vm" ++ " Virtual Machines")%string /\
  storage_list [] = Ok (RESOURCES "storage" ++ " Storage Pools")%string.
Proof.
  repeat split; reflexivity.
Qed.

(** ** The dedup ratio of a pool (C7) *)

Lemma dedup_lines_spec (dedup : value) :
  (truthy dedup = true /\ ne_float dedup one = true ->
   dedup_lines dedup =
     bind (format_f 2 dedup) (fun ratio => Ok [fstr ["  - Dedup Ratio: "; ratio; "x"]])) /\
  (~ (truthy dedup = true /\ ne_float dedup one = true) -> dedup_lines dedup = Ok []).
Proof.
  unfold dedup_lines.
  destruct (truthy dedup); destruct (ne_float dedup one); simpl; split; intros H;
    try reflexivity; try (destruct H; discriminate).
  exfalso. apply H. split; reflexivity.
Qed.

Lemma zfs_pool_block_shape (pool : dict) (lines : list string) :
  zfs_pool_block pool = Ok lines ->
  exists fixed tail name,
    lines = fixed ++ tail /\
    dedup_lines (dget pool "dedup" (VFloat one)) = Ok tail /\
    List.length fixed = 7%nat /\
    existsb is_dedup_line (skipn 2 fixed) = false /\
    lookup "name" pool = Some name /\
    nth 1 fixed "" = fstr [RESOURCES "zfs"; " "; str name; " (";
                           str (dget pool "node" (VStr "unknown")); ")"].
Proof.
  unfold zfs_pool_block. intros H.
  apply bind_ok in H. destruct H as (percent & _ & H).
  apply bind_ok in H. destruct H as (name & Hname & H).
  apply bind_ok in H. destruct H as (size_s & _ & H).
  apply bind_ok in H. destruct H as (alloc_s & _ & H).
  apply bind_ok in H. destruct H as (p & _ & H).
  apply bind_ok in H. destruct H as (free_s & _ & H).
  apply bind_ok in H. destruct H as (dedup_l & Hdedup & H).
  injection H as H. subst lines.
  exists (firstn 7 ("" :: fstr [RESOURCES "zfs"; " "; str name; " (";
                                 str (dget pool "node" (VStr "unknown")); ")"]
     :: fstr ["  - Health: "; state_icon (dget pool "health" (VStr "UNKNOWN"));
              " "; str (dget pool "health" (VStr "UNKNOWN"))]
     :: fstr ["  - Size: "; size_s]
     :: fstr ["  - Used: "; alloc_s; " ("; p; "%)"]
     :: fstr ["  - Free: "; free_s]
     :: fstr ["  - Fragmentation: "; str (dget pool "frag" (VInt 0)); "%"]
     :: dedup_l)), dedup_l, name.
  split; [reflexivity|]. split; [assumption|].
  split; [reflexivity|]. split; [reflexivity|]. split; [|reflexivity].
  unfold ditem in Hname. destruct (lookup "name" pool); [now injection Hname as -> | discriminate].
Qed.

Lemma zfs_pool_block_dedup (pool : dict) (lines : list string) :
  zfs_pool_block pool = Ok lines -> dedup_shown pool lines.
Proof.
  intros Hblock.
  destruct (zfs_pool_block_shape pool lines Hblock)
    as (fixed & tail & name & -> & Htail & Hlen & Hfix & Hname & Htitle).
  unfold dedup_shown.
  set (dedup := dget pool "dedup" (VFloat one)) in *.
  assert (Hskip2 : skipn 2 (fixed ++ tail) = skipn 2 fixed ++ tail).
  { rewrite skipn_app. rewrite Hlen. reflexivity. }
  assert (Hskip7 : skipn 7 (fixed ++ tail) = tail).
  { rewrite skipn_app, Hlen. rewrite skipn_all2 by lia. reflexivity. }
  assert (Hfirst : firstn 7 (fixed ++ tail) = fixed).
  { rewrite firstn_app, Hlen. rewrite firstn_all2 by lia. cbn. apply app_nil_r. }
  assert (Hnth : nth 1 (fixed ++ tail) "" = nth 1 fixed "").
  { apply app_nth1. lia. }
  rewrite Hskip2, Hskip7, Hfirst, Hnth, existsb_app, Hfix. cbn [orb].
  destruct (dedup_lines_spec dedup) as [Hyes Hno].
  assert (Hcases : (truthy dedup = true /\ ne_float dedup one = true) \/
                   ~ (truthy dedup = true /\ ne_float dedup one = true)).
  { destruct (truthy dedup); destruct (ne_float dedup one);
      try (left; split; reflexivity); right; intros [? ?]; discriminate. }
  assert (Hone : dedup = VFloat one -> ~ (truthy dedup = true /\ ne_float dedup one = true)).
  { intros -> [_ H]. vm_compute in H. discriminate. }
  split; [exact Hlen|]. split; [exists name; split; assumption|].
  assert (Hlines :
    (existsb is_dedup_line tail = true <-> truthy dedup = true /\ ne_float dedup one = true) /\
    (truthy dedup = true /\ ne_float dedup one = true ->
       exists n f t,
         as_num dedup = Some n /\ to_float n = Ok f /\
         tail = [fstr ["  - Dedup Ratio: "; format_float 2 f; "x"]] /\ shows 2 f t) /\
    (~ (truthy dedup = true /\ ne_float dedup one = true) -> tail = [])).
  { destruct Hcases as [Hc|Hc].
    - rewrite (Hyes Hc) in Htail. apply bind_ok in Htail.
      destruct Htail as (ratio & Hratio & Hline). injection Hline as <-.
      split; [|split].
      + split; [intros _; exact Hc | intros _]. cbn. now rewrite prefix_nil.
      + intros _. destruct (format_f_number 2 dedup ratio Hratio) as (n & f & t & Hn & Hf & -> & Ht).
        exists n, f, t. repeat split; assumption.
      + intros Hc'. contradiction.
    - rewrite (Hno Hc) in Htail. injection Htail as <-.
      split; [|split].
      + split; [simpl; discriminate | intros Hc'; contradiction].
      + intros Hc'. contradiction.
      + intros _. reflexivity. }
  destruct Hlines as (Hiff & Hpresent & Habsent).
  split; [exact Hiff|]. split; [exact Hpresent|]. split; [exact Habsent|].
  split; [|split; [exact Hone|split; [|split; [|split]]]].
  - intros Hnone. apply Hone. unfold dedup, dget. now rewrite Hnone.
  - intros [->|[->|[->| ->]]] [H _]; discriminate.
  - intros b -> [Ht Hn]. destruct b; [vm_compute in Hn | ]; discriminate.
  - intros z ->. apply present_int.
  - intros f -> Hvalid. now apply present_float.
Qed.

(** C7, as the template has it.  The pool listing is its title followed by
    one block per pool, headed by the name of the pool.  Below that title the
    block has a "Dedup Ratio" line exactly when the dedup value (1.0 when
    absent) is truthy and differs from 1.0: a value of zero, like 1.0 itself,
    shows no line.  The line is the eighth and last of the block; the value is
    then a number, an int as well as a float, and the line shows its float as
    a decimal with two places followed by "x".  For an int the line is there
    unless the value is 0 or 1, for a binary64 float unless it is a zero or
    the float 1.0. *)
Theorem dedup_ratio_line (pools : list dict) (text : string) :
  pools <> [] ->
  zfs_pool_list pools = Ok text ->
  report_of (fstr [RESOURCES "zfs"; " ZFS Storage Pools"]) dedup_shown pools text.
Proof.
  intros Hne H. unfold zfs_pool_list in H. destruct pools as [|pool pools]; [contradiction|].
  eapply listing_report; [|exact H]. apply zfs_pool_block_dedup.
Qed.

(** ** The raw-text section of the pool detail (C9) *)

Lemma mapM_Forall {A C} (f : A -> result C) (P : C -> Prop) (l : list A) (out : list C) :
  (forall a c, f a = Ok c -> P c) -> mapM f l = Ok out -> Forall P out.
Proof.
  intros Hf. revert out. induction l as [|a l IH]; simpl; intros out H.
  - injection H as <-. constructor.
  - apply bind_ok in H. destruct H as (c & Hc & H).
    apply bind_ok in H. destruct H as (cs & Hcs & H).
    injection H as <-. constructor; eauto.
Qed.

Lemma child_line_indented (deeper : string) (child : value) (line : string) :
  child_line ("    " ++ deeper) child = Ok line -> indented line = true.
Proof.
  unfold child_line. intros H.
  repeat (apply bind_ok in H; destruct H as [? [? H]]).
  injection H as <-. unfold indented. cbn. apply prefix_nil.
Qed.

Lemma indented_not_raw_header (line : string) :
  indented line = true -> is_raw_header line = false.
Proof.
  intros H. unfold is_raw_header.
  destruct (String.eqb_spec line "  Raw Pool Status:") as [->|_]; [discriminate|reflexivity].
Qed.

Lemma Forall_existsb_false {A} (p : A -> bool) (l : list A) :
  Forall (fun a => p a = false) l -> existsb p l = false.
Proof.
  induction 1 as [|a l Ha _ IH]; simpl; [reflexivity | now rewrite Ha, IH].
Qed.

Lemma child_block_no_raw_header (child : value) (lines : list string) :
  child_block child = Ok lines -> Forall (fun l => is_raw_header l = false) lines.
Proof.
  unfold child_block. intros H.
  apply bind_ok in H. destruct H as (line & Hline & H).
  apply bind_ok in H. destruct H as (nested & _ & H).
  apply bind_ok in H. destruct H as (subs & _ & H).
  apply bind_ok in H. destruct H as (sub_lines & Hsubs & H).
  injection H as <-. constructor.
  - apply indented_not_raw_header. exact (child_line_indented "" child line Hline).
  - eapply mapM_Forall; [|exact Hsubs]. intros a c Hc. cbv beta.
    apply indented_not_raw_header. exact (child_line_indented "  " a c Hc).
Qed.

Lemma layout_no_raw_header (pool : dict) (lines : list string) :
  layout_lines pool = Ok lines -> existsb is_raw_header lines = false.
Proof.
  unfold layout_lines. destruct (truthy (dget pool "children" (VList []))).
  - intros H. apply bind_ok in H. destruct H as (cs & _ & H).
    apply bind_ok in H. destruct H as (blocks & Hblocks & H).
    injection H as <-. cbn. apply Forall_existsb_false.
    apply Forall_concat.
    eapply mapM_Forall; [|exact Hblocks]. intros a c. apply child_block_no_raw_header.
  - intros H. injection H as <-. reflexivity.
Qed.

Lemma scan_no_raw_header (pool : dict) (lines : list string) :
  scan_lines pool = Ok lines -> existsb is_raw_header lines = false.
Proof.
  unfold scan_lines. destruct (truthy (dget pool "scan" (VDict []))).
  - intros H. repeat (apply bind_ok in H; destruct H as [? [? H]]).
    injection H as <-. reflexivity.
  - intros H. injection H as <-. reflexivity.
Qed.

(** C9. When the raw-status field of a pool-detail record holds a non-empty
    text, the report is the structured sections (header, scan, errors, disk
    layout) followed by the raw section: a blank line, the "Raw Pool Status:"
    heading, and the non-blank lines of the text, each set in by four spaces.
    When the field is absent, [None] or empty, the report is the structured
    sections alone, and below the title they hold no such heading. *)
Theorem raw_status_section (pool : dict) :
  (forall text, lookup "raw_status" pool = Some (VStr text) -> text <> "" ->
     zfs_pool_detail_lines pool =
       bind (structured_lines pool) (fun structured => Ok (structured ++ raw_section text)) /\
     Forall (fun line => indented line = true) (skipn 2 (raw_section text))) /\
  (truthy (dget pool "raw_status" VNone) = false ->
     zfs_pool_detail_lines pool = structured_lines pool) /\
  (forall structured, structured_lines pool = Ok structured ->
     existsb is_raw_header (skipn 1 structured) = false) /\
  zfs_pool_detail pool = bind (zfs_pool_detail_lines pool) (fun lines => Ok (join_lines lines)).
Proof.
  split; [|split; [|split]].
  - intros text Hraw Hne. split.
    + unfold zfs_pool_detail_lines, structured_lines, raw_lines, dget.
      rewrite Hraw. cbn [truthy split_lines bind].
      destruct (String.eqb_spec text "") as [->|_]; [congruence|]. cbn [negb].
      destruct (scan_lines pool) as [scan|e]; [|reflexivity]. cbn [bind].
      destruct (layout_lines pool) as [layout|e]; [|reflexivity]. cbn [bind].
      unfold raw_section. now rewrite <- !app_assoc.
    + unfold raw_section. cbn [skipn]. apply Forall_map.
      apply Forall_forall. intros line _. unfold indented. cbn. apply prefix_nil.
  - intros Hfalse.
    unfold zfs_pool_detail_lines, structured_lines, raw_lines. rewrite Hfalse.
    destruct (scan_lines pool) as [scan|e]; [|reflexivity]. cbn [bind].
    destruct (layout_lines pool) as [layout|e]; [|reflexivity]. cbn [bind].
    now rewrite app_nil_r.
  - intros structured H. unfold structured_lines in H.
    apply bind_ok in H. destruct H as (scan & Hscan & H).
    apply bind_ok in H. destruct H as (layout & Hlayout & H).
    injection H as <-. unfold header_lines. cbn [app skipn].
    change (existsb is_raw_header
              ([fstr ["  - Node: "; str (dget pool "node" (VStr "unknown"))];
                fstr ["  - Health: "; state_icon (dget pool "health" (VStr "UNKNOWN")); " ";
                      str (dget pool "health" (VStr "UNKNOWN"))];
                fstr ["  - State: "; str (dget pool "state" (VStr "UNKNOWN"))]]
               ++ scan ++ [errors_line pool] ++ layout) = false).
    rewrite !existsb_app, (scan_no_raw_header pool scan Hscan),
      (layout_no_raw_header pool layout Hlayout).
    reflexivity.
  - reflexivity.
Qed.

(** ** Guarded percentages (C5) *)











End TemplateProperties.

(** ** Substring tests *)

Lemma prefix_split (p s : string) :
  String.prefix p s = true <-> exists rest, s = (p ++ rest)%string.
Proof.
  revert s. induction p as [|a p IH]; intros s.
  - split; [intros _; exists s; reflexivity | intros _; apply prefix_nil].
  - destruct s as [|b s]; simpl.
    + split; [discriminate | intros [rest H]; discriminate].
    + destruct (ascii_dec a b) as [->|Hab].
      * rewrite IH. split; intros [rest H]; exists rest; [now rewrite H | now injection H].
      * split; [discriminate | intros [rest H]; injection H as H1 H2; congruence].
Qed.

Lemma contains_occurs (token text : string) :
  contains token text = true <-> occurs token text.
Proof.
  unfold occurs. induction text as [|a text IH].
  - cbn [contains]. rewrite orb_false_r, prefix_split. split.
    + intros [rest H]. exists "", rest. exact H.
    + intros (before & after & H). destruct before as [|b before]; [|discriminate].
      exists after. exact H.
  - cbn [contains]. rewrite orb_true_iff, IH, prefix_split. split.
    + intros [[rest H]|(before & after & H)].
      * exists "", rest. exact H.
      * exists (String a before), after. simpl. now rewrite H.
    + intros (before & after & H). destruct before as [|b before].
      * left. exists after. exact H.
      * right. simpl in H. injection H as _ H. exists before, after. exact H.
Qed.

Lemma not_contains (token text : string) :
  ~ occurs token text -> contains token text = false.
Proof.
  rewrite <- contains_occurs. now destruct (contains token text).
Qed.

Section ToolProperties.
Context {B : Builtins} {T : ProxmoxTool}.

(** ** The shape of the pool-detail response (C1) *)

(** C1. Whatever the pool-detail query returns, [get_zfs_pool_status] builds a
    record from that response and hands it to [_format_response]; on the way
    it logs three records, gathers nothing and raises nothing, so the method
    ends as [_format_response] does on the record.  The record has all nine
    fields, its name and node are those asked for, and per shape of the
    response it is: for [None] the "no data" defaults; for a str the scanned
    health, "See raw output" and the text as raw status; for a dict each field
    read with its default; for any other shape health UNKNOWN, state and
    errors naming the type, and the [str] of the value as raw status. *)
Theorem pool_status_record (node pool_name : string) (pool_detail : value) (s : state) :
  disks_zfs_pool_get (VStr node) (VStr pool_name) = Ok pool_detail ->
  exists logs record,
    get_zfs_pool_status node pool_name s
    = try_except (lift (_format_response (VDict record) "zfs_pool_detail"))
        (handle_error (fstr ["get ZFS pool status for "; pool_name]))
        {| logged := logged s ++ logs; collected := collected s |} /\
    (forall contents, _format_response (VDict record) "zfs_pool_detail" = Ok contents ->
       get_zfs_pool_status node pool_name s
       = ({| logged := logged s ++ logs; collected := collected s |}, Ok contents)) /\
    List.length logs = 3%nat /\
    complete record = true /\
    lookup "name" record = Some (VStr pool_name) /\
    lookup "node" record = Some (VStr node) /\
    (pool_detail = VNone ->
       record = [ ("name", VStr pool_name); ("node", VStr node);
                  ("health", VStr "UNKNOWN"); ("state", VStr "API returned no data");
                  ("scan", VDict []); ("action", VNone); ("status", VNone);
                  ("errors", VStr "No data returned from API"); ("children", VList []) ]) /\
    (forall text, pool_detail = VStr text ->
       record = [ ("name", VStr pool_name); ("node", VStr node);
                  ("health", VStr (parse_health text)); ("state", VStr "See raw output");
                  ("scan", VDict []); ("action", VNone); ("status", VNone);
                  ("errors", VStr "Check raw output"); ("children", VList []);
                  ("raw_status", VStr text) ]) /\
    (forall d, pool_detail = VDict d ->
       record = [ ("name", VStr pool_name); ("node", VStr node);
                  ("health", dget d "health" (VStr "UNKNOWN"));
                  ("state", dget d "state" (VStr "UNKNOWN"));
                  ("scan", dget d "scan" (VDict []));
                  ("action", dget d "action" VNone);
                  ("status", dget d "status" VNone);
                  ("errors", dget d "errors" (VStr "No known data errors"));
                  ("children", dget d "children" (VList [])) ]) /\
    (pool_detail <> VNone -> (forall text, pool_detail <> VStr text) ->
     (forall d, pool_detail <> VDict d) ->
       record = [ ("name", VStr pool_name); ("node", VStr node);
                  ("health", VStr "UNKNOWN");
                  ("state", VStr ("Unexpected type: " ++ type_name pool_detail));
                  ("scan", VDict []); ("action", VNone); ("status", VNone);
                  ("errors", VStr ("API returned unexpected type: " ++ type_name pool_detail));
                  ("children", VList []);
                  ("raw_status", VStr (str pool_detail)) ]).
Proof.
  intros Hquery.
  assert (Hrun : exists logs record,
    get_zfs_pool_status node pool_name s
    = try_except (lift (_format_response (VDict record) "zfs_pool_detail"))
        (handle_error (fstr ["get ZFS pool status for "; pool_name]))
        {| logged := logged s ++ logs; collected := collected s |} /\
    List.length logs = 3%nat /\
    complete record = true /\
    lookup "name" record = Some (VStr pool_name) /\
    lookup "node" record = Some (VStr node) /\
    (pool_detail = VNone ->
       record = [ ("name", VStr pool_name); ("node", VStr node);
                  ("health", VStr "UNKNOWN"); ("state", VStr "API returned no data");
                  ("scan", VDict []); ("action", VNone); ("status", VNone);
                  ("errors", VStr "No data returned from API"); ("children", VList []) ]) /\
    (forall text, pool_detail = VStr text ->
       record = [ ("name", VStr pool_name); ("node", VStr node);
                  ("health", VStr (parse_health text)); ("state", VStr "See raw output");
                  ("scan", VDict []); ("action", VNone); ("status", VNone);
                  ("errors", VStr "Check raw output"); ("children", VList []);
                  ("raw_status", VStr text) ]) /\
    (forall d, pool_detail = VDict d ->
       record = [ ("name", VStr pool_name); ("node", VStr node);
                  ("health", dget d "health" (VStr "UNKNOWN"));
                  ("state", dget d "state" (VStr "UNKNOWN"));
                  ("scan", dget d "scan" (VDict []));
                  ("action", dget d "action" VNone);
                  ("status", dget d "status" VNone);
                  ("errors", dget d "errors" (VStr "No known data errors"));
                  ("children", dget d "children" (VList [])) ]) /\
    (pool_detail <> VNone -> (forall text, pool_detail <> VStr text) ->
     (forall d, pool_detail <> VDict d) ->
       record = [ ("name", VStr pool_name); ("node", VStr node);
                  ("health", VStr "UNKNOWN");
                  ("state", VStr ("Unexpected type: " ++ type_name pool_detail));
                  ("scan", VDict []); ("action", VNone); ("status", VNone);
                  ("errors", VStr ("API returned unexpected type: " ++ type_name pool_detail));
                  ("children", VList []);
                  ("raw_status", VStr (str pool_detail)) ])).
  { unfold get_zfs_pool_status, try_except at 1.
    unfold mbind at 1, lift at 1. rewrite Hquery. clear Hquery.
    destruct pool_detail; unfold resolve, mbind, log, ret, lift, try_except;
      cbn [logged collected]; rewrite <- !app_assoc;
      (eexists; eexists; split; [reflexivity|]);
      (split; [reflexivity|]); (split; [reflexivity|]);
      (split; [reflexivity|]); (split; [reflexivity|]);
      repeat split; intros; try discriminate; try congruence; try reflexivity.
    all: try (exfalso; match goal with
              | H : forall text, VStr _ <> VStr text |- _ => eapply H; reflexivity
              | H : forall d, VDict _ <> VDict d |- _ => eapply H; reflexivity
              end).
    all: match goal with H : _ = _ |- _ => injection H as <-; reflexivity end. }
  destruct Hrun as (logs & record & Hrun & Hlen & Hrest).
  exists logs, record. split; [exact Hrun|]. split; [|split; [exact Hlen | exact Hrest]].
  intros contents Hfmt. rewrite Hrun. unfold try_except, lift. now rewrite Hfmt.
Qed.

(** ** The health scan of a raw status text (C2) *)

Lemma parse_health_spec (text : string) :
  (occurs "ONLINE" text -> parse_health text = "ONLINE") /\
  (~ occurs "ONLINE" text -> occurs "DEGRADED" text -> parse_health text = "DEGRADED") /\
  (~ occurs "ONLINE" text -> ~ occurs "DEGRADED" text -> occurs "FAULTED" text ->
   parse_health text = "FAULTED") /\
  (~ occurs "ONLINE" text -> ~ occurs "DEGRADED" text -> ~ occurs "FAULTED" text ->
   parse_health text = "UNKNOWN").
Proof.
  unfold parse_health. repeat split.
  - intros H. apply contains_occurs in H. now rewrite H.
  - intros H1 H2. apply not_contains in H1. apply contains_occurs in H2. now rewrite H1, H2.
  - intros H1 H2 H3. apply not_contains in H1, H2. apply contains_occurs in H3.
    now rewrite H1, H2, H3.
  - intros H1 H2 H3. apply not_contains in H1, H2, H3. now rewrite H1, H2, H3.
Qed.

(** C2. For a str response the health of the record is decided by three
    substring tests in the order "ONLINE", "DEGRADED", "FAULTED": the first
    token that occurs anywhere in the text wins, wherever the others stand, and
    a text with none of them gets UNKNOWN.  So a text with "FAULTED" and
    "DEGRADED" but no "ONLINE" gets DEGRADED. *)
Theorem health_scan_priority (node pool_name text : string) (s : state) :
  exists s' record health,
    resolve node pool_name (VStr text) s = (s', Ok record) /\
    lookup "health" record = Some (VStr health) /\
    (occurs "ONLINE" text -> health = "ONLINE") /\
    (~ occurs "ONLINE" text -> occurs "DEGRADED" text -> health = "DEGRADED") /\
    (~ occurs "ONLINE" text -> ~ occurs "DEGRADED" text -> occurs "FAULTED" text ->
     health = "FAULTED") /\
    (~ occurs "ONLINE" text -> ~ occurs "DEGRADED" text -> ~ occurs "FAULTED" text ->
     health = "UNKNOWN") /\
    (occurs "FAULTED" text -> occurs "DEGRADED" text -> ~ occurs "ONLINE" text ->
     health = "DEGRADED").
Proof.
  unfold resolve, mbind, log, ret.
  eexists. eexists. exists (parse_health text).
  split; [reflexivity|]. split; [reflexivity|].
  destruct (parse_health_spec text) as (H1 & H2 & H3 & H4).
  repeat split; auto.
Qed.

End ToolProperties.

(** ** The multi-node sweep (C4) *)

Section SweepProperties.
Context {B : Builtins} {T : ProxmoxTool}.

Lemma pool_data_dict (node_name : value) (pool : dict) :
  pool_data node_name (VDict pool) = Ok (pool_record node_name pool).
Proof. reflexivity. Qed.

Lemma collect_pools (node_name : value) (pools : list dict) (s : state) :
  for_each (map VDict pools)
    (fun pool => record <~ lift (pool_data node_name pool) ;; append record) s
  = ({| logged := logged s;
        collected := collected s ++ map (pool_record node_name) pools |}, Ok tt).
Proof.
  revert s. induction pools as [|pool pools IH]; intros s.
  - cbn. rewrite app_nil_r. now destruct s.
  - cbn [map for_each]. unfold mbind at 1. unfold mbind at 1.
    unfold lift at 1. rewrite pool_data_dict. unfold append at 1.
    rewrite IH. cbn [logged collected]. now rewrite <- app_assoc.
Qed.

Lemma query_node_answer (info : value) (answer : value * node_outcome) (s : state) :
  node_answer info answer ->
  query_node info s
  = ({| logged := logged s ++ warnings_of answer;
        collected := collected s ++ records_of answer |}, Ok tt).
Proof.
  destruct answer as [name outcome]. unfold node_answer, warnings_of, records_of.
  cbn [fst snd]. intros [Hname Hquery].
  unfold query_node, mbind at 1, lift at 1. rewrite Hname.
  unfold try_except, mbind at 1, lift at 1. destruct outcome as [e|pools].
  - rewrite Hquery. unfold log. now rewrite app_nil_r.
  - rewrite Hquery. unfold mbind at 1, lift at 1. cbn [iter].
    rewrite collect_pools. cbn [logged collected]. now rewrite app_nil_r.
Qed.

Lemma sweep_answers (infos : list value) (answers : list (value * node_outcome)) (s : state) :
  Forall2 node_answer infos answers ->
  for_each infos query_node s
  = ({| logged := logged s ++ flat_map warnings_of answers;
        collected := collected s ++ flat_map records_of answers |}, Ok tt).
Proof.
  intros H. revert s. induction H as [|info answer infos answers Ha _ IH]; intros s.
  - cbn. rewrite !app_nil_r. now destruct s.
  - cbn [for_each flat_map]. unfold mbind at 1.
    rewrite (query_node_answer info answer s Ha), IH. cbn [logged collected].
    now rewrite <- !app_assoc.
Qed.

(** C4. In a sweep over all nodes ([node] is [None] or empty) where the pool
    query of each node either raises or returns its pools, a warning naming
    the node and its error is logged for each node that raised, in order; the
    records gathered are exactly those of the pools of the nodes that answered,
    in order; and the method ends as [_format_response] does on these records:
    no exception of a node's query reaches the caller. *)
Theorem partial_sweep
  (node : option string) (infos : list value) (answers : list (value * node_outcome)) :
  given node = None ->
  nodes_get = Ok (VList infos) ->
  Forall2 node_answer infos answers ->
  let records := flat_map records_of answers in
  let warnings := flat_map warnings_of answers in
  let swept := {| logged := warnings; collected := records |} in
  list_zfs_pools node initial
  = try_except (lift (_format_response (VList records) "zfs_pools"))
               (handle_error "list ZFS pools") swept /\
  (forall contents, _format_response (VList records) "zfs_pools" = Ok contents ->
     list_zfs_pools node initial = (swept, Ok contents)) /\
  (forall e, In (fst e, Failed (snd e)) answers ->
     In {| log_level := WARNING;
           log_msg := "Could not query ZFS pools on node %s: %s";
           log_args := [AVal (fst e); AExn (snd e)] |} warnings) /\
  (forall name pools pool, In (name, Pools pools) answers -> In pool pools ->
     In (pool_record name pool) records).
Proof.
  intros Hgiven Hnodes Hanswers records warnings swept.
  assert (Hrun : list_zfs_pools node initial
                 = try_except (lift (_format_response (VList records) "zfs_pools"))
                     (handle_error "list ZFS pools") swept).
  { unfold list_zfs_pools, try_except. rewrite Hgiven.
    unfold mbind at 1, lift at 1. rewrite Hnodes.
    unfold mbind at 1, lift at 1. cbn [iter].
    unfold mbind at 1. rewrite (sweep_answers infos answers initial Hanswers).
    cbn [initial logged collected app].
    unfold mbind at 1, get_collected. cbn [collected]. reflexivity. }
  split; [exact Hrun|]. split; [|split].
  - intros contents Hfmt. rewrite Hrun. unfold try_except, lift. now rewrite Hfmt.
  - intros [name e] Hin. unfold warnings. apply in_flat_map.
    exists (name, Failed e). split; [exact Hin|]. now left.
  - intros name pools pool Hin Hpool. unfold records. apply in_flat_map.
    exists (name, Pools pools). split; [exact Hin|].
    unfold records_of. cbn [fst snd]. now apply in_map.
Qed.

End SweepProperties.

(** ** Sorting by size *)

Section SortProperties.
Context {X : Type} (size : X -> Z).

Lemma less_int (a b : Z) : less (VInt a) (VInt b) = Ok (a <? b).
Proof.
  unfold less, num_lt, xcompare. cbn [as_num exact].
  rewrite Z.min_id, Z.sub_diag, Z.pow_0_r, !Z.mul_1_r.
  destruct (Z.compare_spec a b); destruct (Z.ltb_spec a b); try reflexivity; lia.
Qed.

Lemma insert_desc_sorted (x : X) (l : list (value * X)) :
  keyed_by_size size l -> descending size (map snd l) ->
  exists l',
    insert_desc (VInt (size x)) x l = Ok l' /\
    Permutation (x :: map snd l) (map snd l') /\
    keyed_by_size size l' /\
    descending size (map snd l').
Proof.
  unfold descending. induction l as [|[k y] l IH]; intros Hkeys Hsorted.
  - exists [(VInt (size x), x)]. repeat split.
    + apply Permutation_refl.
    + repeat constructor.
    + repeat constructor.
  - inversion Hkeys as [|? ? Hk Hkeys']; subst. cbn [fst snd] in Hk. subst k.
    cbn [map snd] in Hsorted. inversion Hsorted as [|? ? Hsorted' Hall]; subst.
    cbn [insert_desc]. rewrite less_int. cbn [bind].
    destruct (Z.ltb_spec (size x) (size y)) as [Hlt|Hge].
    + destruct (IH Hkeys' Hsorted') as (l' & Hins & Hperm & Hkeys'' & Hsorted'').
      rewrite Hins. cbn [bind]. exists ((VInt (size y), y) :: l'). repeat split.
      * cbn [map snd]. rewrite perm_swap. now apply perm_skip.
      * constructor; [reflexivity | exact Hkeys''].
      * cbn [map snd]. constructor; [exact Hsorted''|].
        eapply Permutation_Forall; [exact Hperm|].
        constructor; [lia | exact Hall].
    + exists ((VInt (size x), x) :: (VInt (size y), y) :: l). repeat split.
      * apply Permutation_refl.
      * constructor; [reflexivity | exact Hkeys].
      * cbn [map snd]. constructor; [exact Hsorted|].
        constructor; [exact Hge|].
        eapply Forall_impl; [|exact Hall]. cbv beta. intros w Hw. lia.
Qed.

Lemma sort_pairs_sorted (l : list (value * X)) :
  keyed_by_size size l ->
  exists l',
    sort_pairs l = Ok l' /\
    Permutation (map snd l) (map snd l') /\
    keyed_by_size size l' /\
    descending size (map snd l').
Proof.
  induction l as [|[k x] l IH]; intros Hkeys.
  - exists []. repeat split; try constructor.
  - inversion Hkeys as [|? ? Hk Hkeys']; subst. cbn [fst snd] in Hk. subst k.
    destruct (IH Hkeys') as (sorted & Hsort & Hperm & Hkeys'' & Hsorted).
    destruct (insert_desc_sorted x sorted Hkeys'' Hsorted)
      as (l' & Hins & Hperm' & Hkeys''' & Hsorted').
    exists l'. cbn [sort_pairs]. rewrite Hsort. cbn [bind]. repeat split; try assumption.
    cbn [map snd]. eapply Permutation_trans; [|exact Hperm']. now apply perm_skip.
Qed.

(** A list whose keys are all int sizes is sorted without a raise, into a
    rearrangement of itself with the largest first. *)
Lemma sort_desc_sorted (key : X -> result value) (l : list X) :
  Forall (fun x => key x = Ok (VInt (size x))) l ->
  exists l',
    sort_desc key l = Ok l' /\ Permutation l l' /\ descending size l'.
Proof.
  intros Hkey.
  assert (Hkeyed : mapM (fun x => bind (key x) (fun k => Ok (k, x))) l
                   = Ok (map (fun x => (VInt (size x), x)) l)).
  { induction Hkey as [|x l Hx _ IH]; [reflexivity|].
    cbn [mapM map]. rewrite Hx. cbn [bind]. rewrite IH. reflexivity. }
  destruct (sort_pairs_sorted (map (fun x => (VInt (size x), x)) l))
    as (sorted & Hsort & Hperm & _ & Hsorted).
  { unfold keyed_by_size. apply Forall_map. apply Forall_forall. reflexivity. }
  exists (map snd sorted). unfold sort_desc. rewrite Hkeyed. cbn [bind].
  rewrite Hsort. cbn [bind]. repeat split; [|exact Hsorted].
  rewrite map_map in Hperm. cbn [snd] in Hperm. now rewrite map_id in Hperm.
Qed.

(** In a list with the largest first, nothing beyond the first [n] entries is
    larger than one of them. *)
Lemma descending_firstn (n : nat) (l : list X) :
  descending size l ->
  forall v w, In v (firstn n l) -> In w (skipn n l) -> size w <= size v.
Proof.
  unfold descending. intros Hsorted. revert n.
  induction Hsorted as [|x l Hsorted IH Hall]; intros n v w Hv Hw.
  - rewrite firstn_nil in Hv. destruct Hv.
  - destruct n as [|n]; [destruct Hv|].
    cbn [firstn skipn] in Hv, Hw. destruct Hv as [<-|Hv].
    + rewrite Forall_forall in Hall. apply Hall.
      rewrite <- (firstn_skipn n l). apply in_or_app. now right.
    + eapply IH; eassumption.
Qed.

End SortProperties.

(** ** Storage usage: from the queries to the report (C6, C8) *)

Section PipelineProperties.
Context {B : Builtins} {F : Formatting} {T : ProxmoxTool}.

Lemma volumes_of_entries (entries : list dict) :
  mapM volume_data (map VDict entries) = Ok (map volume_record entries).
Proof.
  induction entries as [|entry entries IH]; [reflexivity|].
  cbn [map mapM]. rewrite IH. reflexivity.
Qed.

Lemma sort_volumes_sorted (entries : list dict) :
  forallb int_sized entries = true ->
  exists volumes,
    sort_volumes (map volume_record entries) = Ok volumes /\
    Permutation (map volume_record entries) volumes /\
    descending size_of volumes.
Proof.
  intros Hsizes. apply sort_desc_sorted.
  apply Forall_map. apply Forall_forall. intros entry Hentry.
  pose proof (proj1 (forallb_forall int_sized entries) Hsizes entry Hentry) as Hint.
  unfold int_sized in Hint. unfold size_of, volume_record, ditem, dget at 1 2. cbn [lookup].
  cbn. destruct (dget entry "size" (VInt 0)); try discriminate. reflexivity.
Qed.

Lemma mapM_length {A C} (f : A -> result C) (l : list A) (out : list C) :
  mapM f l = Ok out -> List.length out = List.length l.
Proof.
  revert out. induction l as [|a l IH]; cbn [mapM]; intros out H.
  - injection H as <-. reflexivity.
  - apply bind_ok in H. destruct H as (c & _ & H).
    apply bind_ok in H. destruct H as (cs & Hcs & H).
    injection H as <-. cbn. now rewrite (IH cs Hcs).
Qed.

Lemma for_each_app {A} (body : A -> M unit) (l1 l2 : list A) (s s1 : state) :
  for_each l1 body s = (s1, Ok tt) ->
  for_each (l1 ++ l2) body s = for_each l2 body s1.
Proof.
  revert s. induction l1 as [|a l1 IH]; intros s H.
  - cbn in H. injection H as <-. reflexivity.
  - cbn [app for_each] in *. unfold mbind in *.
    destruct (body a s) as [s' [[]|e]]; [now apply IH | discriminate].
Qed.

(** C8. For a storage whose content listing is returned (entries with int
    sizes) while its status query raises, the loop body appends the record of
    the storage with total, used and available all 0 and with every volume of
    the listing, largest first; it logs nothing and raises nothing, so the loop
    goes on to the storages that follow. *)
Theorem status_failure_degrades
  (node : string) (storage : option string) (store name : value)
  (entries : list dict) (e : exn) (s : state) :
  item store "storage" = Ok name ->
  filtered_out storage store = Ok false ->
  storage_content_get (VStr node) name = Ok (VList (map VDict entries)) ->
  forallb int_sized entries = true ->
  storage_status_get (VStr node) name = Raise e ->
  exists type volumes,
    get store "type" (VStr "unknown") = Ok type /\
    let record := VDict (usage_record name type (VInt 0) (VInt 0) (VInt 0) volumes) in
    let s' := {| logged := logged s; collected := collected s ++ [record] |} in
    usage_of_store node storage store s = (s', Ok tt) /\
    Permutation (map volume_record entries) volumes /\
    descending size_of volumes /\
    (forall before after s0,
       for_each before (usage_of_store node storage) s0 = (s, Ok tt) ->
       for_each (before ++ store :: after) (usage_of_store node storage) s0
       = for_each after (usage_of_store node storage) s').
Proof.
  intros Hname Hfilter Hcontent Hsizes Hstatus.
  destruct store as [| | | | | |d]; try discriminate.
  destruct (sort_volumes_sorted entries Hsizes) as (volumes & Hsort & Hperm & Hsorted).
  exists (dget d "type" (VStr "unknown")), volumes.
  split; [reflexivity|].
  assert (Hstep : usage_of_store node storage (VDict d) s
                  = ({| logged := logged s;
                        collected := collected s ++
                          [VDict (usage_record name (dget d "type" (VStr "unknown"))
                                    (VInt 0) (VInt 0) (VInt 0) volumes)] |}, Ok tt)).
  { unfold usage_of_store. unfold mbind at 1, lift at 1. rewrite Hfilter.
    unfold mbind at 1, lift at 1. rewrite Hname.
    unfold try_except at 1. unfold mbind at 1, lift at 1. rewrite Hcontent.
    unfold mbind at 1, totals, try_except at 1. unfold mbind at 1, lift at 1.
    rewrite Hstatus. unfold ret at 1.
    unfold mbind at 1, lift at 1. cbn [iter].
    unfold mbind at 1, lift at 1. rewrite volumes_of_entries.
    unfold mbind at 1, lift at 1. rewrite Hsort.
    unfold mbind at 1, lift at 1. cbn [get].
    unfold append, usage_record. reflexivity. }
  cbv zeta. split; [exact Hstep|]. split; [exact Hperm|]. split; [exact Hsorted|].
  intros before after s0 Hbefore.
  rewrite (for_each_app _ before (VDict d :: after) s0 s Hbefore).
  cbn [for_each]. unfold mbind at 1. now rewrite Hstep.
Qed.

Lemma usage_block_shape (store : dict) (block : list string) :
  usage_block store = Ok block ->
  List.length (firstn 6 block) = 6%nat /\
  (exists name,
     lookup "storage" store = Some name /\
     nth 1 block "" = fstr [RESOURCES "storage"; " "; str name; " (";
                            str (dget store "type" (VStr "unknown")); ")"]) /\
  nth 5 block "" = fstr ["  Volumes: "; str (dget store "volume_count" (VInt 0))] /\
  volumes_lines store = Ok (skipn 6 block).
Proof.
  unfold usage_block. intros H.
  apply bind_ok in H. destruct H as (percent & _ & H).
  apply bind_ok in H. destruct H as (name & Hname & H).
  apply bind_ok in H. destruct H as (total_s & _ & H).
  apply bind_ok in H. destruct H as (used_s & _ & H).
  apply bind_ok in H. destruct H as (p & _ & H).
  apply bind_ok in H. destruct H as (avail_s & _ & H).
  apply bind_ok in H. destruct H as (vols & Hvols & H).
  injection H as <-. split; [reflexivity|]. split; [|split; [reflexivity | exact Hvols]].
  exists name. split; [|reflexivity].
  unfold ditem in Hname.
  destruct (lookup "storage" store); [now injection Hname as -> | discriminate].
Qed.

Lemma volumes_lines_list (store : dict) (vols : list value) :
  lookup "volumes" store = Some (VList vols) ->
  volumes_lines store
  = match vols with
    | [] => Ok []
    | _ => bind (mapM volume_line (firstn 10 vols)) (fun lines =>
           Ok ("" :: "  Top Space Consumers:" :: lines ++ elision_lines (VList vols)))
    end.
Proof.
  intros H. unfold volumes_lines, dget. rewrite H. destruct vols; reflexivity.
Qed.

Lemma volumes_lines_some (store : dict) (vols : list value) :
  lookup "volumes" store = Some (VList vols) ->
  vols <> [] ->
  volumes_lines store
  = bind (mapM volume_line (firstn 10 vols)) (fun lines =>
    Ok ("" :: "  Top Space Consumers:" :: lines ++ elision_lines (VList vols))).
Proof.
  intros H Hne. rewrite (volumes_lines_list store vols H). now destruct vols.
Qed.

Lemma list_eq_dec_nil {A} (l : list A) : {l = []} + {l <> []}.
Proof.
  destruct l; [now left | now right].
Qed.

Lemma mapM_map_Forall2 {A A' C} (f : A' -> result C) (g : A -> A') (l : list A)
  (out : list C) :
  mapM f (map g l) = Ok out -> Forall2 (fun a c => f (g a) = Ok c) l out.
Proof.
  revert out. induction l as [|a l IH]; cbn [map mapM]; intros out H.
  - injection H as <-. constructor.
  - apply bind_ok in H. destruct H as (c & Hc & H).
    apply bind_ok in H. destruct H as (cs & Hcs & H).
    injection H as <-. constructor; [exact Hc | now apply IH].
Qed.

Lemma usage_block_top_ten (record : dict) (lines : list string) :
  usage_block record = Ok lines -> top_ten_listed record lines.
Proof.
  intros Hblock entries volumes name type total used avail Hsizes Hsort Hrecord n.
  destruct (sort_volumes_sorted entries Hsizes) as (volumes' & Hsort' & Hperm & Hsorted).
  rewrite Hsort in Hsort'. injection Hsort' as <-.
  assert (Hlen : List.length volumes = List.length entries).
  { rewrite <- (Permutation_length Hperm). apply length_map. }
  destruct (usage_block_shape record lines Hblock)
    as (Hfixed & (name' & Hname & Htitle) & Hcount & Hvols).
  split; [exact Hperm|]. split; [now apply descending_firstn|].
  split; [exact Hfixed|]. split; [|split].
  - rewrite Htitle. subst record. cbn in Hname. injection Hname as <-. reflexivity.
  - rewrite Hcount. subst record. unfold usage_record, dget. cbn. unfold n. now rewrite Hlen.
  - assert (Hlen' : List.length (map VDict volumes) = List.length entries).
    { rewrite length_map. exact Hlen. }
    destruct (list_eq_dec_nil volumes) as [->|Hsome].
    + rewrite (volumes_lines_list record []) in Hvols by (subst record; reflexivity).
      injection Hvols as Hvols. exists []. cbn [firstn].
      split; [constructor|]. cbn in Hlen. rewrite <- Hlen. split; [reflexivity|].
      unfold n. rewrite <- Hlen. cbn. now rewrite <- Hvols.
    + rewrite (volumes_lines_some record (map VDict volumes)) in Hvols;
        [|subst record; reflexivity|now destruct volumes].
      apply bind_ok in Hvols. destruct Hvols as (listed & Hlisted & Hvols).
      injection Hvols as Hvols. exists listed. split; [|split].
      * rewrite firstn_map in Hlisted. now apply mapM_map_Forall2 in Hlisted.
      * apply mapM_length in Hlisted.
        now rewrite Hlisted, length_firstn, Hlen'.
      * etransitivity; [symmetry; exact Hvols|].
        unfold elision_lines. cbn [len]. rewrite Hlen'. fold n.
        destruct (Z.eqb_spec n 0) as [H0|_]; [|reflexivity].
        unfold n in H0. rewrite <- Hlen in H0. destruct volumes; [contradiction|].
        cbn [List.length] in H0. lia.
Qed.

(** C6. The usage report is its title followed by one block per record.  For
    a record as the normalizer builds it, its volumes (with int sizes) sorted
    largest first and its count their number [n], the block is headed by the
    name of the storage, its "Volumes:" line shows [n], and below its six
    lines it lists the first ten volumes of the record and no more; none of
    the volumes left out is larger than a listed one, and a single line "...
    and (n-10) more volumes" follows exactly when [n > 10]. *)
Theorem top_ten_volumes (records : list dict) (text : string) :
  records <> [] ->
  storage_usage records = Ok text ->
  report_of (fstr [RESOURCES "storage"; " Storage Usage Breakdown"])
    top_ten_listed records text.
Proof.
  intros Hne H. unfold storage_usage in H.
  destruct records as [|record records]; [contradiction|].
  eapply listing_report; [|exact H]. apply usage_block_top_ten.
Qed.

End PipelineProperties.

(** * The statements at work on the sample installation *)

Section Runs.
Import Sample.
#[local] Existing Instances builtins formatting tool.

(** An SSD with a wearout of 3 and a rotational disk with a wearout of 12:
    only the block of the first ends with a wear level. *)
Lemma wear_level_only_for_ssd_run :
  [ssd; MoreSamples.sda] <> [] /\
  Forall2 (fun disk size_s => format_bytes (dget disk "size" (VInt 0)) = Ok size_s)
    [ssd; MoreSamples.sda] ["512 B"; "4096 B"] /\
  exists text,
    disk_list [ssd; MoreSamples.sda] = Ok text /\
    report_of "[disk] Disks" wear_shown [ssd; MoreSamples.sda] text /\
    text = join_lines
             [ "[disk] Disks";
               ""; "  ⚡ /dev/nvme0n1"; "     - Size: 512 B"; "     - Model: N/A";
               "     - Serial: N/A"; "     - Health: 🟢 PASSED"; "     - Usage: unused";
               "     - Wear Level: 3%";
               ""; "  💿 /dev/sda"; "     - Size: 4096 B"; "     - Model: N/A";
               "     - Serial: N/A"; "     - Health: 🟡 UNKNOWN"; "     - Usage: unused" ].
Proof.
  assert (Hne : [ssd; MoreSamples.sda] <> []) by discriminate.
  assert (Hsizes : Forall2
            (fun disk size_s => format_bytes (dget disk "size" (VInt 0)) = Ok size_s)
            [ssd; MoreSamples.sda] ["512 B"; "4096 B"]).
  { repeat constructor. }
  split; [exact Hne|]. split; [exact Hsizes|].
  destruct (wear_level_only_for_ssd (B := builtins) (F := formatting)
              [ssd; MoreSamples.sda] ["512 B"; "4096 B"] Hne Hsizes)
    as (text & Htext & Hreport).
  exists text. split; [exact Htext|]. split; [exact Hreport|].
  assert (Hrun : disk_list [ssd; MoreSamples.sda] = Ok text) by exact Htext.
  vm_compute in Hrun. injection Hrun as <-. reflexivity.
Defined.

(** On an empty listing the storage-usage template answers "No storage data
    found", which is not its title line: it does special-case emptiness. *)
Lemma storage_usage_guards_emptiness :
  storage_usage [] = Ok "[storage] No storage data found" /\
  storage_usage [] <> Ok (RESOURCES "storage" ++ " Storage Usage Breakdown")%string.
Proof.
  split; [reflexivity | discriminate].
Qed.

(** A pool whose dedup value is 0: the value differs from 1.0, and yet its
    block has no dedup line, and neither has the listing of the pool. *)
Lemma zero_dedup_has_no_line :
  ne_float (dget zero_dedup "dedup" (VFloat one)) one = true /\
  exists lines,
    zfs_pool_block zero_dedup = Ok lines /\
    existsb is_dedup_line lines = false /\
    zfs_pool_list [zero_dedup] = Ok (join_lines ("[zfs] ZFS Storage Pools" :: lines)).
Proof.
  split; [reflexivity|]. eexists. split; [reflexivity|]. split; reflexivity.
Qed.

(** Three pools: a dedup ratio of 1.35 is shown as "1.35x", the int 2 as
    "2.00x", and a dedup value of 0 is not shown. *)
Lemma dedup_ratio_line_run :
  [deduped; doubled; zero_dedup] <> [] /\
  exists text,
    zfs_pool_list [deduped; doubled; zero_dedup] = Ok text /\
    report_of "[zfs] ZFS Storage Pools" dedup_shown [deduped; doubled; zero_dedup] text /\
    text = join_lines
             [ "[zfs] ZFS Storage Pools";
               ""; "[zfs] tank (pve1)"; "  - Health: 🟢 ONLINE"; "  - Size: 1000 B";
               "  - Used: 250 B (25.0%)"; "  - Free: 750 B"; "  - Fragmentation: 3%";
               "  - Dedup Ratio: 1.35x";
               ""; "[zfs] scratch (pve3)"; "  - Health: 🔴 FAULTED"; "  - Size: 0 B";
               "  - Used: 5 B (0.0%)"; "  - Free: 0 B"; "  - Fragmentation: 0%";
               "  - Dedup Ratio: 2.00x";
               ""; "[zfs] tank (pve1)"; "  - Health: 🟢 ONLINE"; "  - Size: 1000 B";
               "  - Used: 250 B (25.0%)"; "  - Free: 750 B"; "  - Fragmentation: 3%" ].
Proof.
  assert (Hne : [deduped; doubled; zero_dedup] <> []) by discriminate.
  assert (Hrun : exists text, zfs_pool_list [deduped; doubled; zero_dedup] = Ok text).
  { eexists. reflexivity. }
  destruct Hrun as (text & Hrun).
  split; [exact Hne|]. exists text. split; [exact Hrun|]. split.
  - exact (dedup_ratio_line (B := builtins) (F := formatting) _ text Hne Hrun).
  - vm_compute in Hrun. injection Hrun as <-. reflexivity.
Defined.


(** The raw text of the sample pool is set below the structured sections. *)
Lemma raw_status_section_run :
  zfs_pool_detail_lines raw_pool
  = Ok [ "[zfs] ZFS Pool: tank"; "  - Node: pve1"; "  - Health: 🟡 DEGRADED";
         "  - State: See raw output"; "  - Errors: Check raw output";
         ""; "  Raw Pool Status:"; "      pool: tank"; "     state: DEGRADED" ].
Proof.
  destruct (raw_status_section (B := builtins) (F := formatting) raw_pool) as (Hraw & _).
  destruct (Hraw (fstr ["  pool: tank"; nl; nl; " state: DEGRADED"]) eq_refl) as (Hlines & _).
  - discriminate.
  - rewrite Hlines. reflexivity.
Defined.

(** A text that names FAULTED before DEGRADED, and not ONLINE, is DEGRADED. *)
Lemma health_scan_priority_run :
  exists s' record,
    resolve "pve1" "tank" (VStr "was FAULTED, now DEGRADED") initial = (s', Ok record) /\
    lookup "health" record = Some (VStr "DEGRADED").
Proof.
  destruct (health_scan_priority (B := builtins) "pve1" "tank" "was FAULTED, now DEGRADED" initial)
    as (s' & record & health & Hrun & Hhealth & _ & Hdegraded & _).
  exists s', record. split; [exact Hrun|]. rewrite Hhealth. do 2 f_equal.
  apply Hdegraded.
  - intros Hocc. apply contains_occurs in Hocc. discriminate.
  - apply contains_occurs. reflexivity.
Defined.

(** The first node answers the pool-detail query with a dict: the method logs
    three records and returns the wrapped record, with the defaults for the
    fields the answer lacks. *)
Lemma pool_status_record_run :
  disks_zfs_pool_get (VStr "pve1") (VStr "tank") = Ok (VDict tank) /\
  exists logs,
    List.length logs = 3%nat /\
    get_zfs_pool_status "pve1" "tank" initial
    = ({| logged := logs; collected := [] |},
       _format_response
         (VDict [ ("name", VStr "tank"); ("node", VStr "pve1");
                  ("health", VStr "ONLINE"); ("state", VStr "UNKNOWN");
                  ("scan", VDict []); ("action", VNone); ("status", VNone);
                  ("errors", VStr "No known data errors"); ("children", VList []) ])
         "zfs_pool_detail").
Proof.
  split; [reflexivity|].
  destruct (pool_status_record (B := builtins) (T := tool) "pve1" "tank" (VDict tank)
              initial eq_refl)
    as (logs & record & _ & Hok & Hlen & _ & _ & _ & _ & _ & Hdict & _).
  exists logs. split; [exact Hlen|].
  pose proof (Hdict tank eq_refl) as Hrecord. subst record.
  exact (Hok _ eq_refl).
Defined.

(** The sweep over the three nodes: [pve2] is logged and skipped, the pools of
    [pve1] and [pve3] are returned. *)
Lemma partial_sweep_run :
  given None = None /\
  nodes_get = Ok (VList [VDict [("node", VStr "pve1")]; VDict [("node", VStr "pve2")];
                         VDict [("node", VStr "pve3")]]) /\
  Forall2 node_answer
    [VDict [("node", VStr "pve1")]; VDict [("node", VStr "pve2")];
     VDict [("node", VStr "pve3")]] answers /\
  exists contents,
    list_zfs_pools None initial
    = ({| logged := [ {| log_level := WARNING;
                         log_msg := "Could not query ZFS pools on node %s: %s";
                         log_args := [AVal (VStr "pve2"); AExn unreachable] |} ];
          collected := [pool_record (VStr "pve1") tank; pool_record (VStr "pve3") backup] |},
       Ok contents).
Proof.
  assert (Hanswers : Forall2 node_answer
            [VDict [("node", VStr "pve1")]; VDict [("node", VStr "pve2")];
             VDict [("node", VStr "pve3")]] answers).
  { repeat constructor. }
  split; [reflexivity|]. split; [reflexivity|]. split; [exact Hanswers|].
  destruct (partial_sweep (T := tool) None _ answers eq_refl eq_refl Hanswers) as (_ & Hok & _).
  eexists. apply Hok. reflexivity.
Defined.

Lemma fifteen_int_sized : forallb int_sized fifteen = true.
Proof. reflexivity. Qed.

(** The status query of the sample storage raises: its record has zero totals
    and all fifteen volumes, and the whole query returns it. *)
Lemma status_failure_degrades_run :
  item local "storage" = Ok (VStr "local") /\
  filtered_out None local = Ok false /\
  storage_content_get (VStr "pve1") (VStr "local") = Ok (VList (map VDict fifteen)) /\
  forallb int_sized fifteen = true /\
  storage_status_get (VStr "pve1") (VStr "local") = Raise unreachable /\
  exists volumes,
    usage_of_store "pve1" None local initial
    = ({| logged := [];
          collected := [VDict (usage_record (VStr "local") (VStr "dir")
                                 (VInt 0) (VInt 0) (VInt 0) volumes)] |}, Ok tt) /\
    List.length volumes = 15%nat /\
    get_storage_usage "pve1" None initial
    = ({| logged := [];
          collected := [VDict (usage_record (VStr "local") (VStr "dir")
                                 (VInt 0) (VInt 0) (VInt 0) volumes)] |},
       _format_response
         (VList [VDict (usage_record (VStr "local") (VStr "dir")
                          (VInt 0) (VInt 0) (VInt 0) volumes)]) "storage_usage").
Proof.
  repeat (split; [first [reflexivity | exact fifteen_int_sized]|]).
  destruct (status_failure_degrades (B := builtins) (T := tool) "pve1" None local
              (VStr "local") fifteen unreachable initial
              eq_refl eq_refl eq_refl fifteen_int_sized eq_refl)
    as (type & volumes & Htype & Hstep & Hperm & _).
  injection Htype as <-. exists volumes. split; [exact Hstep|]. split.
  - rewrite <- (Permutation_length Hperm). reflexivity.
  - unfold get_storage_usage, try_except. unfold mbind at 1, lift at 1.
    cbn [storage_get tool]. unfold mbind at 1, lift at 1. cbn [iter].
    unfold mbind at 1. cbn [for_each]. unfold mbind at 1. rewrite Hstep.
    reflexivity.
Defined.

(** Fifteen volumes: the ten largest are listed, five are left out, and the
    count line shows fifteen. *)
Lemma top_ten_volumes_run :
  let record :=
    usage_record (VStr "local") (VStr "dir") (VInt 0) (VInt 0) (VInt 0) sorted in
  [record] <> [] /\
  forallb int_sized fifteen = true /\
  sort_volumes (map volume_record fifteen) = Ok sorted /\
  exists text lines listed,
    storage_usage [record] = Ok text /\
    text = join_lines ("[storage] Storage Usage Breakdown" :: List.concat [lines]) /\
    nth 5 lines "" = "  Volumes: 15" /\
    List.length listed = 10%nat /\
    skipn 6 lines
    = "" :: "  Top Space Consumers:" :: listed ++ ["    ... and 5 more volumes"] /\
    text = join_lines
             [ "[storage] Storage Usage Breakdown";
               ""; "[storage] local (dir)"; "  Total: 0 B"; "  Used: 0 B (0.0%)";
               "  Available: 0 B"; "  Volumes: 15";
               ""; "  Top Space Consumers:";
               "    - vm-100-disk-15.qcow2 (VM 100): 15360 B [images]";
               "    - vm-100-disk-14.qcow2 (VM 100): 14336 B [images]";
               "    - vm-100-disk-13.qcow2 (VM 100): 13312 B [images]";
               "    - vm-100-disk-12.qcow2 (VM 100): 12288 B [images]";
               "    - vm-100-disk-11.qcow2 (VM 100): 11264 B [images]";
               "    - vm-100-disk-10.qcow2 (VM 100): 10240 B [images]";
               "    - vm-100-disk-9.qcow2 (VM 100): 9216 B [images]";
               "    - vm-100-disk-8.qcow2 (VM 100): 8192 B [images]";
               "    - vm-100-disk-7.qcow2 (VM 100): 7168 B [images]";
               "    - vm-100-disk-6.qcow2 (VM 100): 6144 B [images]";
               "    ... and 5 more volumes" ].
Proof.
  intros record.
  assert (Hne : [record] <> []) by discriminate.
  assert (Hsort : sort_volumes (map volume_record fifteen) = Ok sorted) by reflexivity.
  assert (Hrun : exists text, storage_usage [record] = Ok text).
  { eexists. reflexivity. }
  destruct Hrun as (text & Hrun).
  split; [exact Hne|]. split; [exact fifteen_int_sized|]. split; [exact Hsort|].
  destruct (top_ten_volumes (B := builtins) (F := formatting) [record] text Hne Hrun)
    as (blocks & Hblocks & Htext).
  inversion Hblocks as [|? lines ? rest Hlisted Hrest]; subst.
  inversion Hrest; subst.
  destruct (Hlisted fifteen sorted (VStr "local") (VStr "dir") (VInt 0) (VInt 0) (VInt 0)
              fifteen_int_sized Hsort eq_refl)
    as (_ & _ & _ & _ & Hcount & listed & _ & Hlen & Hskip).
  exists (join_lines ("[storage] Storage Usage Breakdown" :: List.concat [lines])), lines, listed.
  split; [exact Hrun|]. split; [reflexivity|]. split; [exact Hcount|].
  split; [exact Hlen|]. split; [exact Hskip|].
  vm_compute in Hrun. now injection Hrun.
Defined.

End Runs.

(** * Further properties *)

(** ** The sweeps of the tools, beyond the well-formed case *)

Section ToolRuns.
Context {B : Builtins} {T : ProxmoxTool}.

Lemma for_each_raise {A} (body : A -> M unit) (l1 : list A) (x : A) (l2 : list A)
  (s s1 s2 : state) (e : exn) :
  for_each l1 body s = (s1, Ok tt) ->
  body x s1 = (s2, Raise e) ->
  for_each (l1 ++ x :: l2) body s = (s2, Raise e).
Proof.
  intros H1 H2. rewrite (for_each_app body l1 (x :: l2) s s1 H1).
  cbn [for_each]. unfold mbind. now rewrite H2.
Qed.

Lemma get_not_dict (v : value) (k : string) (dflt : value) :
  not_dict v = true -> get v k dflt = Raise (AttributeError (type_name v) "get").
Proof.
  destruct v; try reflexivity. discriminate.
Qed.

(** X1. When a node is named, it alone is queried, whatever the node list of
    the cluster is; and a failure of its query is logged, not reported: the
    method still ends as [_format_response] does, on an empty list. *)
Theorem named_node_is_swept_alone (node : option string) (n : string) (outcome : node_outcome) :
  given node = Some n ->
  match outcome with
  | Failed e => disks_zfs_get (VStr n) = Raise e
  | Pools pools => disks_zfs_get (VStr n) = Ok (VList (map VDict pools))
  end ->
  let answer := (VStr n, outcome) in
  list_zfs_pools node initial
  = try_except (lift (_format_response (VList (records_of answer)) "zfs_pools"))
               (handle_error "list ZFS pools")
               {| logged := warnings_of answer; collected := records_of answer |} /\
  (forall e contents,
     outcome = Failed e -> _format_response (VList []) "zfs_pools" = Ok contents ->
     list_zfs_pools node initial
     = ({| logged := [pool_warning (VStr n) e]; collected := [] |}, Ok contents)).
Proof.
  intros Hgiven Hquery answer.
  assert (Hanswer : node_answer (VDict [("node", VStr n)]) answer).
  { split; [reflexivity | exact Hquery]. }
  assert (Hrun : list_zfs_pools node initial
                 = try_except (lift (_format_response (VList (records_of answer)) "zfs_pools"))
                     (handle_error "list ZFS pools")
                     {| logged := warnings_of answer; collected := records_of answer |}).
  { unfold list_zfs_pools, try_except. rewrite Hgiven.
    unfold mbind at 1, lift at 1. unfold mbind at 1, lift at 1. cbn [iter].
    unfold mbind at 1. cbn [for_each]. unfold mbind at 1.
    rewrite (query_node_answer _ answer initial Hanswer). cbn [ret initial logged collected app].
    unfold mbind at 1, get_collected. cbn [collected]. reflexivity. }
  split; [exact Hrun|].
  intros e contents -> Hfmt. rewrite Hrun. unfold try_except, lift. cbn. now rewrite Hfmt.
Qed.

(** X2. A pool list with an entry that is not a dict: the records of the pools
    before it are kept, the entries after it are not read, and the node gets a
    warning with the attribute error. *)
Theorem malformed_pool_cuts_the_node_short
  (info name : value) (good : list dict) (bad : value) (rest : list value) (s : state) :
  item info "node" = Ok name ->
  disks_zfs_get name = Ok (VList (map VDict good ++ bad :: rest)) ->
  not_dict bad = true ->
  query_node info s
  = ({| logged := logged s ++ [pool_warning name (AttributeError (type_name bad) "get")];
        collected := collected s ++ map (pool_record name) good |}, Ok tt).
Proof.
  intros Hname Hquery Hbad.
  unfold query_node, mbind at 1, lift at 1. rewrite Hname.
  unfold try_except, mbind at 1, lift at 1. rewrite Hquery.
  unfold mbind at 1, lift at 1. cbn [iter].
  rewrite (for_each_raise _ (map VDict good) bad rest s
             {| logged := logged s;
                collected := collected s ++ map (pool_record name) good |}
             {| logged := logged s;
                collected := collected s ++ map (pool_record name) good |}
             (AttributeError (type_name bad) "get")).
  - reflexivity.
  - apply collect_pools.
  - unfold mbind, lift, pool_data. rewrite (get_not_dict bad _ _ Hbad). reflexivity.
Qed.

(** X3. An entry of the node list from which no node name can be read ends the
    whole sweep: the method ends as [_handle_error] does, the records gathered
    from the nodes before it are not returned. For a dict without the key the
    error is the [KeyError] of ["node"]. *)
Theorem unnamed_node_fails_the_sweep
  (node : option string) (infos : list value) (answers : list (value * node_outcome))
  (bad : value) (rest : list value) (e : exn) :
  given node = None ->
  nodes_get = Ok (VList (infos ++ bad :: rest)) ->
  Forall2 node_answer infos answers ->
  item bad "node" = Raise e ->
  list_zfs_pools node initial
  = handle_error "list ZFS pools" e
      {| logged := flat_map warnings_of answers;
         collected := flat_map records_of answers |} /\
  (forall d, bad = VDict d -> e = KeyError "node").
Proof.
  intros Hgiven Hnodes Hanswers Hbad. split.
  - unfold list_zfs_pools, try_except. rewrite Hgiven.
    unfold mbind at 1, lift at 1. rewrite Hnodes.
    unfold mbind at 1, lift at 1. cbn [iter].
    unfold mbind at 1.
    rewrite (for_each_raise _ infos bad rest initial
               {| logged := flat_map warnings_of answers;
                  collected := flat_map records_of answers |}
               {| logged := flat_map warnings_of answers;
                  collected := flat_map records_of answers |} e).
    + reflexivity.
    + apply (sweep_answers infos answers initial Hanswers).
    + unfold query_node, mbind, lift. rewrite Hbad. reflexivity.
  - intros d ->. cbn in Hbad. unfold ditem in Hbad.
    destruct (lookup "node" d); [discriminate | now injection Hbad].
Qed.

End ToolRuns.

(** ** The storage sweep, the dataset and the disk listings *)

Section MoreToolRuns.
Context {B : Builtins} {T : ProxmoxTool} {D : DiskQueries}.

(** X4. The totals of a storage never fail: whatever the status query does,
    the inner [try] raises nothing and logs nothing; a dict gives its totals,
    0 for each missing one, and a raise or an answer of any other shape gives
    three zeros. *)
Theorem totals_never_fail (node name : value) (s : state) :
  totals node name s = (s, Ok (totals_of (storage_status_get node name))) /\
  (forall v, storage_status_get node name = Ok v -> not_dict v = true ->
     totals node name s = (s, Ok (VInt 0, VInt 0, VInt 0))).
Proof.
  assert (Hrun : totals node name s = (s, Ok (totals_of (storage_status_get node name)))).
  { unfold totals, try_except, mbind, lift, ret.
    destruct (storage_status_get node name) as [v|e]; [|reflexivity].
    destruct v; reflexivity. }
  split; [exact Hrun|].
  intros v Hv Hnot. rewrite Hrun, Hv. destruct v; try reflexivity. discriminate.
Qed.

Lemma usage_of_store_answer (node : string) (storage : option string) (store : value)
  (answer : value * value * store_outcome) (s : state) :
  store_answer node storage store answer ->
  usage_of_store node storage store s
  = ({| logged := logged s ++ usage_warnings answer;
        collected := collected s ++ usage_of node answer |}, Ok tt).
Proof.
  destruct answer as [[name type] outcome]. unfold store_answer, usage_warnings, usage_of.
  intros (Hname & Htype & Houtcome).
  unfold usage_of_store. unfold mbind at 1, lift at 1.
  destruct outcome as [|e|entries].
  - rewrite Houtcome. unfold ret. rewrite !app_nil_r. now destruct s.
  - destruct Houtcome as [Hfilter Hcontent]. rewrite Hfilter.
    unfold mbind at 1, lift at 1. rewrite Hname.
    unfold try_except at 1. unfold mbind at 1, lift at 1. rewrite Hcontent.
    unfold log, content_warning. now rewrite app_nil_r.
  - destruct Houtcome as (Hfilter & Hcontent & Hsizes). rewrite Hfilter.
    unfold mbind at 1, lift at 1. rewrite Hname.
    unfold try_except at 1. unfold mbind at 1, lift at 1. rewrite Hcontent.
    unfold mbind at 1.
    assert (Htotals : totals (VStr node) name s
                      = (s, Ok (totals_of (storage_status_get (VStr node) name)))).
    { unfold totals, try_except, mbind, lift, ret.
      destruct (storage_status_get (VStr node) name) as [v|e]; [|reflexivity].
      destruct v; reflexivity. }
    rewrite Htotals.
    destruct (totals_of (storage_status_get (VStr node) name)) as [[total used] avail].
    unfold mbind at 1, lift at 1. cbn [iter].
    unfold mbind at 1, lift at 1. rewrite volumes_of_entries.
    destruct (sort_volumes_sorted entries Hsizes) as (volumes & Hsort & _).
    unfold mbind at 1, lift at 1. rewrite Hsort.
    unfold mbind at 1, lift at 1. rewrite Htype.
    unfold append, usage_record. now rewrite app_nil_r.
Qed.

Lemma storage_loop (node : string) (storage : option string)
  (stores : list value) (answers : list (value * value * store_outcome)) (s : state) :
  Forall2 (store_answer node storage) stores answers ->
  for_each stores (usage_of_store node storage) s
  = ({| logged := logged s ++ flat_map usage_warnings answers;
        collected := collected s ++ flat_map (usage_of node) answers |}, Ok tt).
Proof.
  intros Hanswers. revert s.
  induction Hanswers as [|store answer stores answers Ha _ IH]; intros s.
  - cbn. rewrite !app_nil_r. now destruct s.
  - cbn [for_each flat_map]. unfold mbind at 1.
    rewrite (usage_of_store_answer node storage store answer s Ha), IH.
    cbn [logged collected]. now rewrite <- !app_assoc.
Qed.

Lemma Forall2_In_right {A C} (R : A -> C -> Prop) (l : list A) (l' : list C) (y : C) :
  Forall2 R l l' -> In y l' -> exists x, In x l /\ R x y.
Proof.
  induction 1 as [|x y' l l' Hxy _ IH]; intros Hin; [destruct Hin|].
  destruct Hin as [->|Hin].
  - exists x. split; [now left | exact Hxy].
  - destruct (IH Hin) as (x' & Hx' & HR). exists x'. split; [now right | exact HR].
Qed.

(** X5. The storage sweep as a whole. When every storage of the node has a
    name and is either not the one asked for, or has a content query that
    raises, or has its content listed (with int sizes), the method gathers one
    record per listed storage, in order, with all the volumes of its listing
    and the totals its status query allows; it logs one warning per storage
    whose content query raised; a storage that was not asked for leaves no
    trace; and the method ends as [_format_response] does on these records. *)
Theorem storage_sweep (node : string) (storage : option string)
  (stores : list value) (answers : list (value * value * store_outcome)) :
  storage_get (VStr node) = Ok (VList stores) ->
  Forall2 (store_answer node storage) stores answers ->
  let records := flat_map (usage_of node) answers in
  let swept := {| logged := flat_map usage_warnings answers; collected := records |} in
  get_storage_usage node storage initial
  = try_except (lift (_format_response (VList records) "storage_usage"))
               (handle_error "get storage usage") swept /\
  (forall name type entries, In (name, type, Listed entries) answers ->
     exists volumes,
       Permutation (map volume_record entries) volumes /\
       usage_of node (name, type, Listed entries)
       = [VDict (usage_record name type
                   (fst (fst (totals_of (storage_status_get (VStr node) name))))
                   (snd (fst (totals_of (storage_status_get (VStr node) name))))
                   (snd (totals_of (storage_status_get (VStr node) name)))
                   volumes)]) /\
  (forall name type e, In (name, type, Unlisted e) answers ->
     usage_of node (name, type, Unlisted e) = [] /\
     usage_warnings (name, type, Unlisted e) = [content_warning name e]) /\
  (forall name type, In (name, type, Skipped) answers ->
     usage_of node (name, type, Skipped) = [] /\
     usage_warnings (name, type, Skipped) = []).
Proof.
  intros Hstores Hanswers records swept. split; [|split; [|split]].
  - unfold get_storage_usage, try_except.
    unfold mbind at 1, lift at 1. rewrite Hstores.
    unfold mbind at 1, lift at 1. cbn [iter].
    unfold mbind at 1. rewrite (storage_loop node storage stores answers initial Hanswers).
    cbn [initial logged collected app].
    unfold mbind at 1, get_collected. cbn [collected]. reflexivity.
  - intros name type entries Hin.
    destruct (Forall2_In_right _ _ _ _ Hanswers Hin) as (store & _ & Hstore).
    destruct Hstore as (_ & _ & _ & _ & Hsizes).
    destruct (sort_volumes_sorted entries Hsizes) as (volumes & Hsort & Hperm & _).
    exists volumes. split; [exact Hperm|]. unfold usage_of. rewrite Hsort.
    destruct (totals_of (storage_status_get (VStr node) name)) as [[total used] avail].
    reflexivity.
  - intros name type e _. split; reflexivity.
  - intros name type _. split; reflexivity.
Qed.

Lemma other_pool_dict (pool_name : option string) (pool : dict) :
  other_pool pool_name (VDict pool) = Ok (negb (selected pool_name pool)).
Proof.
  unfold other_pool, selected. destruct (given pool_name); reflexivity.
Qed.

Lemma collect_datasets (pool_name : option string) (pools : list dict) (s : state) :
  for_each (map VDict pools) (dataset_of_pool pool_name) s
  = ({| logged := logged s;
        collected := collected s ++
          map (fun p => VDict (dataset_record p)) (filter (selected pool_name) pools) |},
     Ok tt).
Proof.
  revert s. induction pools as [|pool pools IH]; intros s.
  - cbn. rewrite app_nil_r. now destruct s.
  - cbn [map for_each filter]. unfold mbind at 1. unfold dataset_of_pool at 1.
    unfold mbind at 1, lift at 1. rewrite other_pool_dict.
    destruct (selected pool_name pool); cbn [negb].
    + unfold mbind at 1, lift at 1. cbn [pool_info get bind]. unfold append at 1.
      rewrite IH. cbn [logged collected map]. now rewrite <- app_assoc.
    + unfold ret at 1. apply IH.
Qed.

(** X6. The dataset listing holds one record for each pool of the node that
    has the name asked for, or for every pool when none is asked for, in
    order; nothing is logged. A pool without a name is listed as "unknown" and
    mounted at "/unknown", and is never the one asked for. *)
Theorem datasets_are_the_selected_pools (node : string) (pool_name : option string)
  (pools : list dict) :
  disks_zfs_get (VStr node) = Ok (VList (map VDict pools)) ->
  let datasets :=
    map (fun p => VDict (dataset_record p)) (filter (selected pool_name) pools) in
  list_zfs_datasets node pool_name initial
  = try_except (lift (_format_response (VList datasets) "zfs_datasets"))
               (handle_error "list ZFS datasets")
               {| logged := []; collected := datasets |} /\
  (forall p wanted, given pool_name = Some wanted -> lookup "name" p = None ->
     selected pool_name p = false) /\
  (forall p, lookup "name" p = None ->
     lookup "mountpoint" (dataset_record p) = Some (VStr "/unknown")).
Proof.
  intros Hquery datasets. split; [|split].
  - unfold list_zfs_datasets, try_except.
    unfold mbind at 1, lift at 1. rewrite Hquery.
    unfold mbind at 1, lift at 1. cbn [iter].
    unfold mbind at 1. rewrite collect_datasets. cbn [initial logged collected app].
    unfold mbind at 1, get_collected. cbn [collected]. reflexivity.
  - intros p wanted Hgiven Hnone. unfold selected, dget. now rewrite Hgiven, Hnone.
  - intros p Hnone. unfold dataset_record, dget. rewrite Hnone. reflexivity.
Qed.

(** X7. The dataset listing is all or nothing: one entry of the pool list that
    is not a dict ends the method as [_handle_error] does on its attribute
    error, and the datasets gathered before it are not returned. *)
Theorem malformed_pool_fails_the_datasets (node : string) (pool_name : option string)
  (good : list dict) (bad : value) (rest : list value) :
  disks_zfs_get (VStr node) = Ok (VList (map VDict good ++ bad :: rest)) ->
  not_dict bad = true ->
  list_zfs_datasets node pool_name initial
  = handle_error "list ZFS datasets" (AttributeError (type_name bad) "get")
      {| logged := [];
         collected := map (fun p => VDict (dataset_record p))
                          (filter (selected pool_name) good) |}.
Proof.
  intros Hquery Hbad.
  unfold list_zfs_datasets, try_except.
  unfold mbind at 1, lift at 1. rewrite Hquery.
  unfold mbind at 1, lift at 1. cbn [iter].
  unfold mbind at 1.
  rewrite (for_each_raise _ (map VDict good) bad rest initial
             {| logged := [];
                collected := map (fun p => VDict (dataset_record p))
                                 (filter (selected pool_name) good) |}
             {| logged := [];
                collected := map (fun p => VDict (dataset_record p))
                                 (filter (selected pool_name) good) |}
             (AttributeError (type_name bad) "get")).
  - reflexivity.
  - apply (collect_datasets pool_name good initial).
  - unfold dataset_of_pool, mbind, lift, other_pool, pool_info.
    rewrite !(get_not_dict bad _ _ Hbad). destruct (given pool_name); reflexivity.
Qed.

Lemma collect_disks (disks : list dict) (s : state) :
  for_each (map VDict disks)
    (fun disk => record <~ lift (disk_info disk) ;; append record) s
  = ({| logged := logged s;
        collected := collected s ++ map (fun d => VDict (disk_record d)) disks |}, Ok tt).
Proof.
  revert s. induction disks as [|disk disks IH]; intros s.
  - cbn. rewrite app_nil_r. now destruct s.
  - cbn [map for_each]. unfold mbind at 1. unfold mbind at 1.
    unfold lift at 1. cbn [disk_info get bind]. unfold append at 1.
    rewrite IH. cbn [logged collected]. now rewrite <- app_assoc.
Qed.

(** X8. The disk listing asks the client with 1 for partitions included and 0
    otherwise, and holds one record per disk, in order, each with all ten
    fields whatever the entry of the client had. *)
Theorem disk_listing (node : string) (include_partitions : bool) (disks : list dict) :
  disks_list_get (VStr node) (if include_partitions then 1 else 0)
  = Ok (VList (map VDict disks)) ->
  let records := map (fun d => VDict (disk_record d)) disks in
  get_disk_list node include_partitions initial
  = try_except (lift (_format_response (VList records) "disks"))
               (handle_error "list disks")
               {| logged := []; collected := records |} /\
  (forall d k, In k ["devpath"; "size"; "serial"; "type"; "health"; "model"; "vendor";
                     "rpm"; "wearout"; "used"] ->
     has_field (disk_record d) k = true).
Proof.
  intros Hquery records. split.
  - unfold get_disk_list, try_except.
    unfold mbind at 1, lift at 1. rewrite Hquery.
    unfold mbind at 1, lift at 1. cbn [iter].
    unfold mbind at 1. rewrite collect_disks. cbn [initial logged collected app].
    unfold mbind at 1, get_collected. cbn [collected]. reflexivity.
  - intros d k Hk. cbn [In] in Hk.
    repeat (destruct Hk as [<-|Hk]; [reflexivity|]). destruct Hk.
Qed.

(** A failure of the first query of a method is reported once, under the name
    of the operation, with nothing gathered and nothing logged before: for the
    pool status, the datasets, the disks and the storage usage, and for the
    pool sweep when the node list itself cannot be had. *)
Theorem transport_failure_is_reported (node pool_name : string) (e : exn) :
  (disks_zfs_pool_get (VStr node) (VStr pool_name) = Raise e ->
   get_zfs_pool_status node pool_name initial
   = handle_error (fstr ["get ZFS pool status for "; pool_name]) e initial) /\
  (disks_zfs_get (VStr node) = Raise e ->
   forall wanted,
     list_zfs_datasets node wanted initial = handle_error "list ZFS datasets" e initial) /\
  (forall partitions : bool,
     disks_list_get (VStr node) (if partitions then 1 else 0) = Raise e ->
     get_disk_list node partitions initial = handle_error "list disks" e initial) /\
  (storage_get (VStr node) = Raise e ->
   forall wanted,
     get_storage_usage node wanted initial = handle_error "get storage usage" e initial) /\
  (nodes_get = Raise e ->
   list_zfs_pools None initial = handle_error "list ZFS pools" e initial).
Proof.
  repeat split.
  - intros H. unfold get_zfs_pool_status, try_except, mbind, lift. now rewrite H.
  - intros H wanted. unfold list_zfs_datasets, try_except, mbind, lift. now rewrite H.
  - intros partitions H. unfold get_disk_list, try_except, mbind, lift. now rewrite H.
  - intros H wanted. unfold get_storage_usage, try_except, mbind, lift. now rewrite H.
  - intros H. unfold list_zfs_pools, try_except, mbind, lift. cbn [given]. now rewrite H.
Qed.

(** X9. Whatever the pool-detail query returns, the method logs three records
    (the response, the branch taken, the result) and hands a complete record
    to [_format_response]: the shape of the response alone never leads to
    [_handle_error]. *)
Theorem pool_status_reaches_the_wrapper (node pool_name : string) (pool_detail : value) :
  disks_zfs_pool_get (VStr node) (VStr pool_name) = Ok pool_detail ->
  exists logs record,
    complete record = true /\
    List.length logs = 3%nat /\
    get_zfs_pool_status node pool_name initial
    = try_except (lift (_format_response (VDict record) "zfs_pool_detail"))
                 (handle_error (fstr ["get ZFS pool status for "; pool_name]))
                 {| logged := logs; collected := [] |} /\
    (forall contents, _format_response (VDict record) "zfs_pool_detail" = Ok contents ->
       get_zfs_pool_status node pool_name initial
       = ({| logged := logs; collected := [] |}, Ok contents)).
Proof.
  intros Hquery.
  assert (Hrun : exists logs record,
            complete record = true /\ List.length logs = 3%nat /\
            get_zfs_pool_status node pool_name initial
            = try_except (lift (_format_response (VDict record) "zfs_pool_detail"))
                (handle_error (fstr ["get ZFS pool status for "; pool_name]))
                {| logged := logs; collected := [] |}).
  { unfold get_zfs_pool_status, try_except at 1.
    unfold mbind at 1, lift at 1. rewrite Hquery.
    destruct pool_detail; unfold resolve, mbind, log, ret, lift, try_except;
      cbn [initial logged collected app];
      eexists; eexists; (split; [|split; [|reflexivity]]); reflexivity. }
  destruct Hrun as (logs & record & Hc & Hl & Hrun).
  exists logs, record. repeat split; try assumption.
  intros contents Hfmt. rewrite Hrun. unfold try_except, lift. now rewrite Hfmt.
Qed.

End MoreToolRuns.

(** ** The templates, beyond the claims *)

Section MoreTemplateProperties.
Context {B : Builtins} {F : Formatting} {S : Sections}.

Lemma chars_not_empty (a : ascii) (r : string) : chars (String a r) <> [].
Proof.
  cbn [chars]. destruct (chars r); [discriminate|].
  destruct r as [|b r']; [discriminate|]. destruct (is_continuation b); discriminate.
Qed.

(** X10. The cluster report shows a "Resources" line exactly when the
    resources of the status are truthy, with their number, which is then
    positive; without them it has five lines. The one way the report can fail
    is a resources value that is a non-zero number, which has no length. *)
Theorem cluster_resources_line (status : dict) :
  let resources := dget status "resources" (VList []) in
  (truthy resources = false ->
     exists lines, cluster_status_lines status = Ok lines /\ List.length lines = 5%nat) /\
  (truthy resources = true -> as_num resources = None ->
     exists lines n,
       cluster_status_lines status = Ok lines /\ List.length lines = 6%nat /\
       len_of resources = Ok n /\ 0 < n /\
       last lines "" = fstr ["  - Resources: "; str_of_Z n]) /\
  (truthy resources = true -> as_num resources <> None ->
     exists msg, cluster_status status = Raise (TypeError msg)) /\
  (as_num resources = None -> exists report, cluster_status status = Ok report).
Proof.
  intros resources.
  assert (Hsized : truthy resources = true -> as_num resources = None ->
            exists n, len_of resources = Ok n /\ 0 < n).
  { destruct resources as [| | | |s|l|d]; try discriminate; intros Ht _.
    - destruct s as [|a r]; [discriminate|]. eexists. split; [reflexivity|].
      pose proof (chars_not_empty a r). destruct (chars (String a r)); [contradiction|].
      cbn [List.length]. lia.
    - destruct l; [discriminate|]. eexists. split; [reflexivity|]. cbn [List.length]. lia.
    - destruct d; [discriminate|]. eexists. split; [reflexivity|]. cbn [List.length]. lia. }
  split; [|split; [|split]].
  - intros Hf. unfold cluster_status_lines, resources_lines. fold resources. rewrite Hf.
    eexists. split; reflexivity.
  - intros Ht Hn. destruct (Hsized Ht Hn) as (n & Hlen & Hpos).
    unfold cluster_status_lines, resources_lines. fold resources. rewrite Ht, Hlen.
    eexists. exists n. repeat split; try reflexivity; assumption.
  - intros Ht Hn. unfold cluster_status, cluster_status_lines, resources_lines.
    fold resources. rewrite Ht.
    destruct resources; try (exfalso; apply Hn; reflexivity); eexists; reflexivity.
  - intros Hn. unfold cluster_status, cluster_status_lines, resources_lines.
    fold resources. destruct (truthy resources) eqn:Ht.
    + destruct (Hsized eq_refl Hn) as (n & Hlen & _). rewrite Hlen. eexists. reflexivity.
    + eexists. reflexivity.
Qed.

(** X11. The defaults of the disk normalizer are those of the disk template:
    the block of a normalized record is the block of the entry it was made
    from, and normalizing twice changes nothing. So a disk for which the
    client gives no wearout has no wear line, even when it is an SSD. *)
Theorem disk_defaults_agree (disk : dict) :
  disk_block (disk_record disk) = disk_block disk /\
  disk_record (disk_record disk) = disk_record disk /\
  (lookup "wearout" disk = None -> wear_lines (disk_record disk) = []).
Proof.
  split; [reflexivity|]. split; [reflexivity|].
  intros Hnone. unfold wear_lines, disk_record, dget. cbn [lookup String.eqb].
  cbn. now rewrite Hnone.
Qed.

Lemma mapM_all_ok {A C} (f : A -> result C) (l : list A) :
  (forall a, In a l -> exists c, f a = Ok c) -> exists cs, mapM f l = Ok cs.
Proof.
  induction l as [|a l IH]; intros H.
  - exists []. reflexivity.
  - destruct (H a (or_introl eq_refl)) as (c & Hc).
    destruct IH as (cs & Hcs); [intros x Hx; apply H; now right|].
    exists (c :: cs). cbn [mapM]. now rewrite Hc, Hcs.
Qed.

Lemma mapM_raise_inv {A C} (f : A -> result C) (l : list A) (e : exn) :
  mapM f l = Raise e -> exists a, In a l /\ f a = Raise e.
Proof.
  induction l as [|a l IH]; cbn [mapM]; [discriminate|].
  destruct (f a) as [c|e'] eqn:Ha; cbn [bind].
  - destruct (mapM f l) as [cs|e'']; cbn [bind]; [discriminate|].
    intros H. destruct (IH H) as (x & Hx & Hfx). exists x. split; [now right | exact Hfx].
  - intros H. injection H as <-. exists a. split; [now left | exact Ha].
Qed.

Lemma mapM_first_raise {A C} (f : A -> result C) (before : list A) (bad : A)
  (after : list A) (e : exn) :
  (forall a, In a before -> exists c, f a = Ok c) ->
  f bad = Raise e ->
  mapM f (before ++ bad :: after) = Raise e.
Proof.
  induction before as [|a before IH]; intros Hok Hbad.
  - cbn [app mapM]. now rewrite Hbad.
  - destruct (Hok a (or_introl eq_refl)) as (c & Hc).
    cbn [app mapM]. rewrite Hc. cbn [bind]. rewrite IH; [reflexivity| |exact Hbad].
    intros x Hx. apply Hok. now right.
Qed.

(** X12. The disk and the dataset listings read every field with a default, so
    they fail in one way only: on a size that [format_bytes] rejects, and then
    with its error. When [format_bytes] takes every size the report is
    returned. *)
Theorem only_the_formatter_fails (disks datasets : list dict) :
  ((forall d, In d disks -> exists text, format_bytes (dget d "size" (VInt 0)) = Ok text) ->
   exists report, disk_list disks = Ok report) /\
  (forall e, disk_list disks = Raise e ->
     exists d, In d disks /\ format_bytes (dget d "size" (VInt 0)) = Raise e) /\
  ((forall d, In d datasets ->
      (exists text, format_bytes (dget d "used" (VInt 0)) = Ok text) /\
      (exists text, format_bytes (dget d "avail" (VInt 0)) = Ok text)) ->
   exists report, zfs_datasets datasets = Ok report) /\
  (forall e, zfs_datasets datasets = Raise e ->
     exists d, In d datasets /\
       (format_bytes (dget d "used" (VInt 0)) = Raise e \/
        format_bytes (dget d "avail" (VInt 0)) = Raise e)).
Proof.
  split; [|split; [|split]].
  - intros Hok.
    destruct (mapM_all_ok disk_block disks) as (blocks & Hblocks).
    { intros d Hd. destruct (Hok d Hd) as (text & Htext).
      unfold disk_block. rewrite Htext. eexists. reflexivity. }
    unfold disk_list. rewrite Hblocks. destruct disks; eexists; reflexivity.
  - intros e H. unfold disk_list in H. destruct disks as [|d0 disks]; [discriminate|].
    destruct (mapM disk_block (d0 :: disks)) as [blocks|e'] eqn:Hm; [discriminate|].
    injection H as <-. destruct (mapM_raise_inv _ _ _ Hm) as (d & Hd & Hblock).
    exists d. split; [exact Hd|]. unfold disk_block in Hblock.
    destruct (format_bytes (dget d "size" (VInt 0))); [discriminate|].
    cbn [bind] in Hblock. now injection Hblock as ->.
  - intros Hok.
    destruct (mapM_all_ok dataset_block datasets) as (blocks & Hblocks).
    { intros d Hd. destruct (Hok d Hd) as ((u & Hu) & (a & Ha)).
      unfold dataset_block. rewrite Hu, Ha. eexists. reflexivity. }
    unfold zfs_datasets. rewrite Hblocks. destruct datasets; eexists; reflexivity.
  - intros e H. unfold zfs_datasets in H. destruct datasets as [|d0 datasets]; [discriminate|].
    destruct (mapM dataset_block (d0 :: datasets)) as [blocks|e'] eqn:Hm; [discriminate|].
    injection H as <-. destruct (mapM_raise_inv _ _ _ Hm) as (d & Hd & Hblock).
    exists d. split; [exact Hd|]. unfold dataset_block in Hblock.
    destruct (format_bytes (dget d "used" (VInt 0)));
      [|left; cbn [bind] in Hblock; now injection Hblock as ->].
    destruct (format_bytes (dget d "avail" (VInt 0))); [discriminate|].
    right. cbn [bind] in Hblock. now injection Hblock as ->.
Qed.

(** X13. A listing is all or nothing: when the block of one item raises and
    the blocks of the items before it do not, the whole template raises that
    error and returns no report, for each of the list templates. *)
Theorem one_bad_item_fails_the_listing (before : list dict) (bad : dict)
  (after : list dict) (e : exn) :
  let all_ok (block : dict -> result (list string)) :=
    forall d, In d before -> exists lines, block d = Ok lines in
  (all_ok node_block -> node_block bad = Raise e ->
   node_list (before ++ bad :: after) = Raise e) /\
  (all_ok (instance_block "vm") -> instance_block "vm" bad = Raise e ->
   vm_list (before ++ bad :: after) = Raise e) /\
  (all_ok storage_block -> storage_block bad = Raise e ->
   storage_list (before ++ bad :: after) = Raise e) /\
  (all_ok (instance_block "container") -> instance_block "container" bad = Raise e ->
   container_list (before ++ bad :: after) = Raise e) /\
  (all_ok zfs_pool_block -> zfs_pool_block bad = Raise e ->
   zfs_pool_list (before ++ bad :: after) = Raise e) /\
  (all_ok dataset_block -> dataset_block bad = Raise e ->
   zfs_datasets (before ++ bad :: after) = Raise e) /\
  (all_ok disk_block -> disk_block bad = Raise e ->
   disk_list (before ++ bad :: after) = Raise e) /\
  (all_ok usage_block -> usage_block bad = Raise e ->
   storage_usage (before ++ bad :: after) = Raise e).
Proof.
  intros all_ok.
  repeat split; intros Hok Hbad;
    pose proof (mapM_first_raise _ before bad after e Hok Hbad) as Hm.
  - unfold node_list. now rewrite Hm.
  - unfold vm_list. now rewrite Hm.
  - unfold storage_list. now rewrite Hm.
  - unfold container_list. destruct (before ++ bad :: after) eqn:E;
      [destruct before; discriminate|]. now rewrite Hm.
  - unfold zfs_pool_list. destruct (before ++ bad :: after) eqn:E;
      [destruct before; discriminate|]. now rewrite Hm.
  - unfold zfs_datasets. destruct (before ++ bad :: after) eqn:E;
      [destruct before; discriminate|]. now rewrite Hm.
  - unfold disk_list. destruct (before ++ bad :: after) eqn:E;
      [destruct before; discriminate|]. now rewrite Hm.
  - unfold storage_usage. destruct (before ++ bad :: after) eqn:E;
      [destruct before; discriminate|]. now rewrite Hm.
Qed.

End MoreTemplateProperties.

(** ** The display name of a volume *)

Lemma split_on_not_nil (c : ascii) (s : string) : split_on c s <> [].
Proof.
  destruct s as [|a r]; cbn [split_on]; [discriminate|].
  destruct (Ascii.eqb a c); [discriminate|]. destruct (split_on c r); discriminate.
Qed.

Lemma split_on_single (c : ascii) (s h : string) : split_on c s = [h] -> h = s.
Proof.
  revert h. induction s as [|a r IH]; cbn [split_on]; intros h H.
  - now injection H as <-.
  - destruct (Ascii.eqb a c).
    + injection H as _ H. now destruct (split_on_not_nil c r).
    + destruct (split_on c r) as [|h' t] eqn:E; [now destruct (split_on_not_nil c r)|].
      injection H as <- ->. now rewrite (IH h' eq_refl).
Qed.

Lemma last_split_suffix (c : ascii) (s : string) : ends_with (last (split_on c s) "") s.
Proof.
  induction s as [|a r IH].
  - exists "". reflexivity.
  - cbn [split_on]. destruct (Ascii.eqb a c).
    + destruct (split_on c r) as [|h t] eqn:E; [now destruct (split_on_not_nil c r)|].
      change (last ("" :: h :: t) "") with (last (h :: t) "").
      destruct IH as (before & Hr). exists (String a before).
      cbn [String.append]. f_equal. exact Hr.
    + destruct (split_on c r) as [|h t] eqn:E; [now destruct (split_on_not_nil c r)|].
      destruct t as [|h2 t].
      * apply split_on_single in E. subst h. exists "". reflexivity.
      * change (last (String a h :: h2 :: t) "") with (last (h2 :: t) "").
        change (last (h :: h2 :: t) "") with (last (h2 :: t) "") in IH.
        destruct IH as (before & Hr). exists (String a before).
        cbn [String.append]. f_equal. exact Hr.
Qed.

Lemma split_on_pieces (c : ascii) (s : string) :
  Forall (fun piece => has_char c piece = false) (split_on c s).
Proof.
  induction s as [|a r IH]; cbn [split_on].
  - repeat constructor.
  - destruct (Ascii.eqb_spec a c) as [->|Hne].
    + constructor; [reflexivity | exact IH].
    + destruct (split_on c r) as [|h t]; [repeat constructor|].
      * unfold has_char. cbn. destruct (Ascii.eqb_spec c a); [congruence | reflexivity].
      * inversion IH as [|? ? Hh Ht]; subst. constructor; [|exact Ht].
        unfold has_char in *. cbn. rewrite Hh.
        destruct (Ascii.eqb_spec c a); [congruence | reflexivity].
Qed.

Lemma last_split_has_no_separator (c : ascii) (s : string) :
  has_char c (last (split_on c s) "") = false.
Proof.
  pose proof (split_on_pieces c s) as H. pose proof (split_on_not_nil c s) as Hne.
  induction H as [|h t Hh _ IH]; [contradiction|].
  destruct t as [|h2 t]; [exact Hh|].
  change (last (h :: h2 :: t) "") with (last (h2 :: t) ""). apply IH. discriminate.
Qed.

Lemma split_on_without_separator (c : ascii) (s : string) :
  has_char c s = false -> split_on c s = [s].
Proof.
  induction s as [|a r IH]; [reflexivity|].
  unfold has_char. cbn. intros H. apply orb_false_iff in H. destruct H as [Ha Hr].
  destruct (Ascii.eqb_spec a c) as [->|_].
  - rewrite Ascii.eqb_refl in Ha. discriminate.
  - now rewrite (IH Hr).
Qed.

Lemma contains_char (c : ascii) (s : string) :
  contains (String c EmptyString) s = has_char c s.
Proof.
  induction s as [|a r IH]; [reflexivity|].
  cbn [contains]. rewrite IH. unfold has_char. cbn.
  destruct (ascii_dec c a) as [->|Hne].
  - now rewrite prefix_nil, Ascii.eqb_refl.
  - destruct (Ascii.eqb_spec c a); [contradiction | reflexivity].
Qed.

Lemma has_char_app (c : ascii) (s t : string) :
  has_char c (s ++ t) = has_char c s || has_char c t.
Proof.
  unfold has_char. induction s as [|a s IH]; [reflexivity|].
  cbn. now rewrite IH, orb_assoc.
Qed.

Lemma has_char_cons (c a : ascii) (r : string) :
  has_char c (String a r) = Ascii.eqb c a || has_char c r.
Proof. reflexivity. Qed.

Lemma last_cons_nonempty {A} (x : A) (l : list A) (d : A) :
  l <> [] -> last (x :: l) d = last l d.
Proof.
  destruct l; [contradiction | reflexivity].
Qed.

(** When the separator occurs, the last piece is what follows its last
    occurrence. *)
Lemma last_split_after_separator (c : ascii) (s : string) :
  has_char c s = true ->
  exists before, s = (before ++ String c (last (split_on c s) ""))%string.
Proof.
  induction s as [|a r IH]; [discriminate|].
  rewrite has_char_cons. intros H. cbn [split_on].
  destruct (Ascii.eqb_spec a c) as [->|Hne].
  - rewrite (last_cons_nonempty "" (split_on c r) "") by apply split_on_not_nil.
    destruct (has_char c r) eqn:Hr.
    + destruct (IH eq_refl) as (before & Hbefore).
      exists (String c before). cbn [String.append]. f_equal. exact Hbefore.
    + rewrite (split_on_without_separator c r Hr). exists "". reflexivity.
  - destruct (Ascii.eqb_spec c a) as [Heq|_]; [congruence|]. cbn [orb] in H.
    destruct (IH H) as (before & Hbefore).
    destruct (split_on c r) as [|h t] eqn:E; [now destruct (split_on_not_nil c r)|].
    destruct t as [|h2 t].
    + exfalso. pose proof (split_on_pieces c r) as Hpieces. rewrite E in Hpieces.
      apply split_on_single in E. subst h.
      inversion Hpieces as [|? ? Hh _]; subst. congruence.
    + change (last (String a h :: h2 :: t) "") with (last (h2 :: t) "").
      change (last (h :: h2 :: t) "") with (last (h2 :: t) "") in Hbefore.
      exists (String a before). cbn [String.append]. f_equal. exact Hbefore.
Qed.

(** X14. The name shown for a volume is what follows the last slash of its
    volume id: the id is some text, a slash and the name, and the name holds
    no slash.  Without a slash it is what follows the last colon in the same
    way; and an id without slash and colon is shown as it is. *)
Theorem volume_name_is_the_last_component (volid : string) :
  exists name,
    volume_name (VStr volid) = Ok name /\
    (has_char "/" volid = true ->
       (exists before, volid = (before ++ "/" ++ name)%string) /\
       has_char "/" name = false) /\
    (has_char "/" volid = false -> has_char ":" volid = true ->
       (exists before, volid = (before ++ ":" ++ name)%string) /\
       has_char ":" name = false /\ has_char "/" name = false) /\
    (has_char "/" volid = false -> has_char ":" volid = false -> name = volid).
Proof.
  unfold volume_name.
  change "/"%string with (String "/"%char EmptyString). rewrite contains_char.
  destruct (has_char "/" volid) eqn:Hslash.
  - eexists. split; [reflexivity|]. split; [|split; discriminate].
    intros _. split; [|apply last_split_has_no_separator].
    exact (last_split_after_separator "/" volid Hslash).
  - eexists. split; [reflexivity|]. split; [discriminate|]. split.
    + intros _ Hcolon. split; [|split].
      * exact (last_split_after_separator ":" volid Hcolon).
      * apply last_split_has_no_separator.
      * destruct (last_split_suffix ":" volid) as (before & Hsuffix).
        rewrite Hsuffix, has_char_app in Hslash at 1.
        now apply orb_false_iff in Hslash.
    + intros _ Hcolon. now rewrite (split_on_without_separator ":" volid Hcolon).
Qed.

(** ** The order of volumes of equal size *)

Section StableSort.
Context {X : Type} (size : X -> Z).

Lemma insert_desc_ties (z : Z) (x : X) (l l' : list (value * X)) :
  keyed_by_size size l ->
  insert_desc (VInt (size x)) x l = Ok l' ->
  filter (fun y => size y =? z) (map snd l')
  = filter (fun y => size y =? z) (x :: map snd l).
Proof.
  revert l'. induction l as [|[k y] l IH]; intros l' Hkeys Hins.
  - cbn in Hins. now injection Hins as <-.
  - inversion Hkeys as [|? ? Hk Hkeys']; subst. cbn [fst snd] in Hk. subst k.
    cbn [insert_desc] in Hins. rewrite less_int in Hins. cbn [bind] in Hins.
    destruct (Z.ltb_spec (size x) (size y)) as [Hlt|Hge].
    + apply bind_ok in Hins. destruct Hins as (r' & Hr' & Hins). injection Hins as <-.
      cbn [map snd filter]. rewrite (IH r' Hkeys' Hr'). cbn [filter].
      destruct (Z.eqb_spec (size x) z) as [Hx|Hx];
        destruct (Z.eqb_spec (size y) z) as [Hy|Hy]; try reflexivity. lia.
    + now injection Hins as <-.
Qed.

Lemma insert_desc_keyed (x : X) (l l' : list (value * X)) :
  keyed_by_size size l ->
  insert_desc (VInt (size x)) x l = Ok l' ->
  keyed_by_size size l'.
Proof.
  revert l'. induction l as [|[k y] l IH]; intros l' Hkeys Hins.
  - cbn in Hins. injection Hins as <-. repeat constructor.
  - inversion Hkeys as [|? ? Hk Hkeys']; subst. cbn [fst snd] in Hk. subst k.
    cbn [insert_desc] in Hins. rewrite less_int in Hins. cbn [bind] in Hins.
    destruct (size x <? size y).
    + apply bind_ok in Hins. destruct Hins as (r' & Hr' & Hins). injection Hins as <-.
      constructor; [reflexivity | now apply IH].
    + injection Hins as <-. constructor; [reflexivity | exact Hkeys].
Qed.

Lemma sort_pairs_ties (z : Z) (l l' : list (value * X)) :
  keyed_by_size size l ->
  sort_pairs l = Ok l' ->
  keyed_by_size size l' /\
  filter (fun y => size y =? z) (map snd l') = filter (fun y => size y =? z) (map snd l).
Proof.
  revert l'. induction l as [|[k x] l IH]; intros l' Hkeys Hsort.
  - cbn in Hsort. injection Hsort as <-. split; [constructor | reflexivity].
  - inversion Hkeys as [|? ? Hk Hkeys']; subst. cbn [fst snd] in Hk. subst k.
    cbn [sort_pairs] in Hsort. apply bind_ok in Hsort.
    destruct Hsort as (sorted & Hsorted & Hins).
    destruct (IH sorted Hkeys' Hsorted) as (Hkeyed & Hties).
    split; [exact (insert_desc_keyed x sorted l' Hkeyed Hins)|].
    rewrite (insert_desc_ties z x sorted l' Hkeyed Hins).
    cbn [map snd filter]. now rewrite Hties.
Qed.

Lemma sort_desc_ties (z : Z) (key : X -> result value) (l l' : list X) :
  Forall (fun x => key x = Ok (VInt (size x))) l ->
  sort_desc key l = Ok l' ->
  filter (fun y => size y =? z) l' = filter (fun y => size y =? z) l.
Proof.
  intros Hkey.
  assert (Hkeyed : mapM (fun x => bind (key x) (fun k => Ok (k, x))) l
                   = Ok (map (fun x => (VInt (size x), x)) l)).
  { induction Hkey as [|x l Hx _ IH]; [reflexivity|].
    cbn [mapM map]. rewrite Hx. cbn [bind]. rewrite IH. reflexivity. }
  intros Hsort. unfold sort_desc in Hsort. rewrite Hkeyed in Hsort. cbn [bind] in Hsort.
  apply bind_ok in Hsort. destruct Hsort as (sorted & Hsorted & Hout).
  injection Hout as <-.
  assert (Hk : keyed_by_size size (map (fun x => (VInt (size x), x)) l)).
  { unfold keyed_by_size. apply Forall_map. apply Forall_forall. reflexivity. }
  destruct (sort_pairs_ties z _ sorted Hk Hsorted) as (_ & Hties).
  rewrite Hties, map_map. cbn [snd]. now rewrite map_id.
Qed.

End StableSort.

(** X15. The sort of the volumes is stable: volumes of the same size stay in
    the order of the content listing, whatever else moves around them. *)
Theorem volumes_of_equal_size_keep_their_order (volumes sorted : list dict) :
  forallb has_int_size volumes = true ->
  sort_volumes volumes = Ok sorted ->
  forall z, of_size z sorted = of_size z volumes.
Proof.
  intros Hsizes Hsort z. unfold of_size.
  apply (sort_desc_ties size_of z (fun x => ditem x "size") volumes sorted); [|exact Hsort].
  apply Forall_forall. intros v Hv.
  pose proof (proj1 (forallb_forall has_int_size volumes) Hsizes v Hv) as Hint.
  unfold has_int_size in Hint. unfold ditem, size_of, dget.
  destruct (lookup "size" v) as [[]|]; try discriminate. reflexivity.
Qed.

(** ** The pool detail, from the response to the report *)

Section DetailPipeline.
Context {B : Builtins} {F : Formatting}.

(** X16. A response that is not a dict always renders: the record made of it
    gives a report of the header, the errors line and, when it carries a
    non-empty raw text, the raw section; there is never a scan line or a disk
    layout, and the template raises nothing. *)
Theorem unstructured_responses_always_render
  (node pool_name : string) (pool_detail : value) (s : state) :
  not_dict pool_detail = true ->
  exists s' record,
    resolve node pool_name pool_detail s = (s', Ok record) /\
    zfs_pool_detail_lines record
    = Ok (header_lines record ++ [errors_line record] ++
          match raw_text_of pool_detail with
          | Some text => if String.eqb text "" then [] else raw_section text
          | None => []
          end) /\
    scan_lines record = Ok [] /\
    layout_lines record = Ok [].
Proof.
  intros Hnot.
  assert (Hraw : forall record text,
            dget record "raw_status" VNone = VStr text ->
            raw_lines record = Ok (if String.eqb text "" then [] else raw_section text)).
  { intros record text H. unfold raw_lines. rewrite H. cbn [truthy split_lines].
    destruct (String.eqb text ""); reflexivity. }
  destruct pool_detail; try discriminate; unfold resolve, mbind, log, ret;
    eexists; eexists; (split; [reflexivity|]);
    (split; [|split; reflexivity]);
    unfold zfs_pool_detail_lines;
    match goal with
    | |- context [raw_lines ?r] =>
        change (scan_lines r) with (@Ok (list string) []);
        change (layout_lines r) with (@Ok (list string) []); cbn [bind]
    end.
  1: reflexivity.
  all: erewrite Hraw by reflexivity; reflexivity.
Qed.

End DetailPipeline.

(** ** Required and optional keys of the templates *)

Section KeyProperties.
Context {B : Builtins} {F : Formatting}.

(** X17. The block of a VM or container needs four keys and reports the first
    one that is missing, in the order name, vmid, status, node; a status that
    is not a str fails on [upper] before the node is looked at. *)
Theorem first_missing_key_is_reported (kind : string) (vm : dict) (percent : value) :
  bind (get (dget vm "memory" (VDict [])) "used" (VInt 0)) (fun used =>
  bind (get (dget vm "memory" (VDict [])) "total" (VInt 0)) (fun total =>
  percent_of used total)) = Ok percent ->
  (lookup "name" vm = None -> instance_block kind vm = Raise (KeyError "name")) /\
  (lookup "name" vm <> None -> lookup "vmid" vm = None ->
     instance_block kind vm = Raise (KeyError "vmid")) /\
  (lookup "name" vm <> None -> lookup "vmid" vm <> None -> lookup "status" vm = None ->
     instance_block kind vm = Raise (KeyError "status")) /\
  (forall status, lookup "name" vm <> None -> lookup "vmid" vm <> None ->
     lookup "status" vm = Some status -> (forall text, status <> VStr text) ->
     instance_block kind vm = Raise (AttributeError (type_name status) "upper")) /\
  (forall text, lookup "name" vm <> None -> lookup "vmid" vm <> None ->
     lookup "status" vm = Some (VStr text) -> lookup "node" vm = None ->
     instance_block kind vm = Raise (KeyError "node")).
Proof.
  intros Hmemory. unfold instance_block.
  destruct (get (dget vm "memory" (VDict [])) "used" (VInt 0)) as [used|]; [|discriminate].
  cbn [bind] in *.
  destruct (get (dget vm "memory" (VDict [])) "total" (VInt 0)) as [total|]; [|discriminate].
  cbn [bind] in *. rewrite Hmemory. cbn [bind]. unfold ditem.
  repeat split.
  - intros ->. reflexivity.
  - intros Hname ->. destruct (lookup "name" vm); [reflexivity | contradiction].
  - intros Hname Hvmid ->. destruct (lookup "name" vm); [|contradiction].
    destruct (lookup "vmid" vm); [reflexivity | contradiction].
  - intros status Hname Hvmid -> Hstr. destruct (lookup "name" vm); [|contradiction].
    destruct (lookup "vmid" vm); [|contradiction]. cbn [bind].
    destruct status; try reflexivity. now destruct (Hstr s).
  - intros text Hname Hvmid -> ->. destruct (lookup "name" vm); [|contradiction].
    destruct (lookup "vmid" vm); [|contradiction]. reflexivity.
Qed.

(** X18. A VM or container without memory data, or with empty ones, is shown
    with zero of zero bytes and 0.0 percent. *)
Theorem missing_memory_shows_zero (kind : string) (vm : dict)
  (name vmid node : value) (status zero : string) :
  lookup "memory" vm = None \/ lookup "memory" vm = Some (VDict []) ->
  lookup "name" vm = Some name -> lookup "vmid" vm = Some vmid ->
  lookup "status" vm = Some (VStr status) -> lookup "node" vm = Some node ->
  format_bytes (VInt 0) = Ok zero ->
  exists lines,
    instance_block kind vm = Ok lines /\
    last lines "" = fstr ["  - Memory: "; zero; " / "; zero; " (0.0%)"].
Proof.
  intros Hmemory Hname Hvmid Hstatus Hnode Hzero.
  assert (Hm : dget vm "memory" (VDict []) = VDict []).
  { unfold dget. destruct Hmemory as [-> | ->]; reflexivity. }
  unfold instance_block. rewrite Hm. cbn [get dget lookup bind].
  unfold percent_of. cbn [gt0 as_num bind]. rewrite num_gt_int. cbn [Z.ltb Z.compare bind].
  unfold ditem. rewrite Hname, Hvmid, Hstatus, Hnode. cbn [bind upper].
  rewrite Hzero. cbn [bind]. eexists. split; reflexivity.
Qed.

(** The disk line of a node: absent when the node has no disk data or empty
    ones, one line when it has some, and an attribute error when the disk
    entry is something else than a dict. *)
Theorem disk_line_needs_disk_data (node : dict) :
  let disk := dget node "disk" (VDict []) in
  (truthy disk = false -> disk_usage node = Ok []) /\
  (truthy disk = true -> not_dict disk = true ->
     disk_usage node = Raise (AttributeError (type_name disk) "get")) /\
  (forall lines, disk_usage node = Ok lines ->
     (truthy disk = true -> List.length lines = 1%nat) /\
     (truthy disk = false -> lines = [])).
Proof.
  intros disk. unfold disk_usage. fold disk. split; [|split].
  - intros ->. reflexivity.
  - intros -> Hnot. now rewrite (get_not_dict disk _ _ Hnot).
  - intros lines H. destruct (truthy disk).
    + split; [intros _ | discriminate].
      repeat (apply bind_ok in H; destruct H as [? [? H]]). now injection H as <-.
    + split; [discriminate | intros _; now injection H as <-].
Qed.

End KeyProperties.

(** * The further statements at work on the sample installations *)

Section MoreRuns.
Import Sample MoreSamples.

(** Asked for [pve2] alone, whose query cannot be answered, the pool sweep
    still returns, with an empty list and a warning. *)
Lemma named_node_is_swept_alone_run :
  given (Some "pve2") = Some "pve2" /\
  @disks_zfs_get tool (VStr "pve2") = Raise unreachable /\
  exists contents,
    list_zfs_pools (T := tool) (Some "pve2") initial
    = ({| logged := [pool_warning (VStr "pve2") unreachable]; collected := [] |},
       Ok contents).
Proof.
  split; [reflexivity|]. split; [reflexivity|].
  destruct (named_node_is_swept_alone (T := tool) (Some "pve2") "pve2" (Failed unreachable)
              eq_refl eq_refl) as (_ & Hfail).
  eexists. apply (Hfail unreachable _ eq_refl). reflexivity.
Defined.

(** The pool list of [pve3] has a stray str after its first pool. *)
Lemma malformed_pool_cuts_the_node_short_run :
  item (VDict [("node", VStr "pve3")]) "node" = Ok (VStr "pve3") /\
  @disks_zfs_get ragged (VStr "pve3")
  = Ok (VList (map VDict [tank] ++ VStr "oops" :: [VDict backup])) /\
  not_dict (VStr "oops") = true /\
  query_node (T := ragged) (VDict [("node", VStr "pve3")]) initial
  = ({| logged := [pool_warning (VStr "pve3") (AttributeError "str" "get")];
        collected := [pool_record (VStr "pve3") tank] |}, Ok tt).
Proof.
  repeat (split; [reflexivity|]).
  exact (malformed_pool_cuts_the_node_short (T := ragged) (VDict [("node", VStr "pve3")])
           (VStr "pve3") [tank] (VStr "oops") [VDict backup] initial
           eq_refl eq_refl eq_refl).
Defined.

(** The second entry of the ragged node list has no "node": the sweep fails,
    and the pool of [pve1] is not returned. *)
Lemma unnamed_node_fails_the_sweep_run :
  given None = None /\
  @nodes_get ragged
  = Ok (VList ([VDict [("node", VStr "pve1")]] ++ VDict [("name", VStr "pve2")]
                 :: [VDict [("node", VStr "pve3")]])) /\
  Forall2 (node_answer (T := ragged)) [VDict [("node", VStr "pve1")]]
    [(VStr "pve1", Pools [tank])] /\
  item (VDict [("name", VStr "pve2")]) "node" = Raise (KeyError "node") /\
  list_zfs_pools (T := ragged) None initial
  = ({| logged := []; collected := [pool_record (VStr "pve1") tank] |},
     Raise (OtherError "RuntimeError" "list ZFS pools")).
Proof.
  assert (Hanswers : Forall2 (node_answer (T := ragged)) [VDict [("node", VStr "pve1")]]
                       [(VStr "pve1", Pools [tank])]).
  { repeat constructor. }
  split; [reflexivity|]. split; [reflexivity|]. split; [exact Hanswers|].
  split; [reflexivity|].
  destruct (unnamed_node_fails_the_sweep (T := ragged) None
              [VDict [("node", VStr "pve1")]] [(VStr "pve1", Pools [tank])]
              (VDict [("name", VStr "pve2")]) [VDict [("node", VStr "pve3")]]
              (KeyError "node") eq_refl eq_refl Hanswers eq_refl) as (Hrun & _).
  rewrite Hrun. reflexivity.
Defined.

(** The ragged storages: [local] is listed, with zero totals since its status
    answers [None], and [nfs] gets a warning. *)
Lemma storage_sweep_run :
  @storage_get ragged (VStr "pve1") = Ok (VList [local; nfs]) /\
  Forall2 (store_answer (T := ragged) "pve1" None) [local; nfs]
    [ (VStr "local", VStr "dir", Listed fifteen);
      (VStr "nfs", VStr "unknown", Unlisted unreachable) ] /\
  get_storage_usage (B := builtins) (T := ragged) "pve1" None initial
  = ({| logged := [content_warning (B := builtins) (VStr "nfs") unreachable];
        collected := [VDict (usage_record (VStr "local") (VStr "dir")
                               (VInt 0) (VInt 0) (VInt 0) sorted)] |},
     Ok ["storage_usage"]).
Proof.
  assert (Hanswers : Forall2 (store_answer (T := ragged) "pve1" None)
            [local; nfs]
            [ (VStr "local", VStr "dir", Listed fifteen);
              (VStr "nfs", VStr "unknown", Unlisted unreachable) ]).
  { repeat constructor. }
  split; [reflexivity|]. split; [exact Hanswers|].
  destruct (storage_sweep (B := builtins) (T := ragged) "pve1" None [local; nfs] _
              eq_refl Hanswers) as (Hrun & _).
  rewrite Hrun. reflexivity.
Defined.

(** Asked for the datasets of "tank" on [pve1]. *)
Lemma datasets_are_the_selected_pools_run :
  @disks_zfs_get tool (VStr "pve1") = Ok (VList (map VDict [tank])) /\
  exists contents,
    list_zfs_datasets (B := builtins) (T := tool) "pve1" (Some "tank") initial
    = ({| logged := [];
          collected := [VDict (dataset_record (B := builtins) tank)] |}, Ok contents) /\
    lookup "mountpoint" (dataset_record (B := builtins) tank) = Some (VStr "/tank").
Proof.
  split; [reflexivity|].
  destruct (datasets_are_the_selected_pools (B := builtins) (T := tool) "pve1" (Some "tank")
              [tank] eq_refl) as (Hrun & _).
  eexists. split; [rewrite Hrun|]; reflexivity.
Defined.

(** The datasets of [pve3], whose pool list has a stray str: the method fails
    as a whole. *)
Lemma malformed_pool_fails_the_datasets_run :
  @disks_zfs_get ragged (VStr "pve3")
  = Ok (VList (map VDict [tank] ++ VStr "oops" :: [VDict backup])) /\
  not_dict (VStr "oops") = true /\
  snd (list_zfs_datasets (B := builtins) (T := ragged) "pve3" None initial)
  = Raise (OtherError "RuntimeError" "list ZFS datasets").
Proof.
  split; [reflexivity|]. split; [reflexivity|].
  rewrite (malformed_pool_fails_the_datasets (B := builtins) (T := ragged) "pve3" None
             [tank] (VStr "oops") [VDict backup] eq_refl eq_refl).
  reflexivity.
Defined.

(** The two disks of [pve1], partitions not included. *)
Lemma disk_listing_run :
  @disks_list_get disks (VStr "pve1") (if false then 1 else 0)
  = Ok (VList (map VDict [nvme; sda])) /\
  exists contents,
    get_disk_list (T := tool) (D := disks) "pve1" false initial
    = ({| logged := [];
          collected := [VDict (disk_record nvme); VDict (disk_record sda)] |}, Ok contents) /\
    lookup "wearout" (disk_record nvme) = Some (VStr "N/A").
Proof.
  split; [reflexivity|].
  destruct (disk_listing (T := tool) (D := disks) "pve1" false [nvme; sda] eq_refl)
    as (Hrun & _).
  eexists. split; [rewrite Hrun|]; reflexivity.
Defined.

(** The ragged client answers [None] to the pool-detail query: the method
    still returns. *)
Lemma pool_status_reaches_the_wrapper_run :
  @disks_zfs_pool_get ragged (VStr "pve1") (VStr "tank") = Ok VNone /\
  snd (get_zfs_pool_status (B := builtins) (T := ragged) "pve1" "tank" initial)
  = Ok ["zfs_pool_detail"].
Proof.
  split; [reflexivity|].
  destruct (pool_status_reaches_the_wrapper (B := builtins) (T := ragged) "pve1" "tank"
              VNone eq_refl) as (logs & record & _ & _ & _ & Hok).
  assert (Hfmt : @_format_response ragged (VDict record) "zfs_pool_detail"
                 = Ok ["zfs_pool_detail"]) by reflexivity.
  now rewrite (Hok _ Hfmt).
Defined.

(** The volumes of size 5 and those of size 9 keep their order. *)
Lemma volumes_of_equal_size_keep_their_order_run :
  forallb has_int_size ties = true /\
  sort_volumes ties = Ok [sized "b" 9; sized "d" 9; sized "a" 5; sized "c" 5; sized "e" 5] /\
  of_size 5 [sized "b" 9; sized "d" 9; sized "a" 5; sized "c" 5; sized "e" 5]
  = [sized "a" 5; sized "c" 5; sized "e" 5].
Proof.
  split; [reflexivity|]. split; [reflexivity|].
  rewrite (volumes_of_equal_size_keep_their_order ties
             [sized "b" 9; sized "d" 9; sized "a" 5; sized "c" 5; sized "e" 5]
             eq_refl eq_refl 5).
  reflexivity.
Defined.

(** The report made of a [None] response. *)
Lemma unstructured_responses_always_render_run :
  not_dict VNone = true /\
  exists s' record,
    resolve (B := builtins) "pve1" "tank" VNone initial = (s', Ok record) /\
    zfs_pool_detail_lines (B := builtins) (F := formatting) record
    = Ok [ "[zfs] ZFS Pool: tank"; "  - Node: pve1"; "  - Health: 🔴 UNKNOWN";
           "  - State: API returned no data"; "  - Errors: No data returned from API" ].
Proof.
  split; [reflexivity|].
  destruct (unstructured_responses_always_render (B := builtins) (F := formatting)
              "pve1" "tank" VNone initial eq_refl) as (s' & record & Hrun & Hlines & _).
  exists s', record. split; [exact Hrun|]. rewrite Hlines.
  cbv in Hrun. injection Hrun as _ <-. reflexivity.
Defined.

(** A container entry without its node. *)
Lemma first_missing_key_is_reported_run :
  bind (get (dget orphan "memory" (VDict [])) "used" (VInt 0)) (fun used =>
  bind (get (dget orphan "memory" (VDict [])) "total" (VInt 0)) (fun total =>
  percent_of used total)) = Ok (VInt 0) /\
  instance_block (B := builtins) (F := formatting) "container" orphan
  = Raise (KeyError "node").
Proof.
  split; [reflexivity|].
  destruct (first_missing_key_is_reported (B := builtins) (F := formatting) "container"
              orphan (VInt 0) eq_refl) as (_ & _ & _ & _ & Hnode).
  apply (Hnode "running"); [discriminate | discriminate | reflexivity | reflexivity].
Defined.

(** A container without memory data. *)
Lemma missing_memory_shows_zero_run :
  (lookup "memory" web = None \/ lookup "memory" web = Some (VDict [])) /\
  @format_bytes formatting (VInt 0) = Ok "0 B" /\
  exists lines,
    instance_block (B := builtins) (F := formatting) "container" web = Ok lines /\
    last lines "" = "  - Memory: 0 B / 0 B (0.0%)".
Proof.
  split; [left; reflexivity|]. split; [reflexivity|].
  exact (missing_memory_shows_zero (B := builtins) (F := formatting) "container" web
           (VStr "web") (VInt 101) (VStr "pve1") "running" "0 B"
           (or_introl eq_refl) eq_refl eq_refl eq_refl eq_refl eq_refl).
Defined.

End MoreRuns.
